(** * pid2bib: PubMed XML / DOI to BibTeX

    A shallow embedding of [pid2bib.py]: the reference extractor
    ([parseXML]), the text escaper ([sanitizeBibtexField]), the file name
    sanitizer ([sanitizeFileName]), the BibTeX serializer
    ([createBibtexContent]) and the title scan of the DOI path
    ([getTitle]), with the properties the specification states about them.

    Python strings are sequences of Unicode code points and are modelled
    as [list N]; a value that may be [None] is an [option]; a raised
    exception is the [Raise] branch of [result]. *)

From Stdlib Require Import NArith String Ascii.
From Stdlib Require Mergesort Orders.
From stdpp Require Import base option list gmap.

(** ** Python values *)

Module Py.

(** A [str]: its code points, in order. *)
Abbreviation str := (list N).

(** An ASCII literal of the source, as a [str]. *)
Fixpoint u (s : string) : str :=
  match s with
  | EmptyString => []
  | String a s' => N_of_ascii a :: u s'
  end.
Arguments u : simpl never.

(** The characters that cannot be written inside a literal. *)
Definition dq : str := [34%N].
Definition nl : str := [10%N].

(** [ord c] for a one-character literal. *)
Definition ord (s : string) : N :=
  match s with
  | String a _ => N_of_ascii a
  | EmptyString => 0%N
  end.

(** The exceptions the modelled code can raise. *)
Inductive exn : Type :=
  | AttributeError
  | TypeError
  | KeyError
  | IndexError
  | Exception (msg : str).

Inductive result (A : Type) : Type :=
  | Ok (a : A)
  | Raise (e : exn).
Arguments Ok {A} a.
Arguments Raise {A} e.

#[export] Instance result_ret : MRet result := λ A a, Ok a.
#[export] Instance result_bind : MBind result := λ A B f m,
  match m with
  | Ok a => f a
  | Raise e => Raise e
  end.
#[export] Instance result_fmap : FMap result := λ A B f m,
  match m with
  | Ok a => Ok (f a)
  | Raise e => Raise e
  end.

(** [a + b] on values that should be strings. *)
Definition add (a b : option str) : result str :=
  match a, b with
  | Some x, Some y => Ok (x ++ y)
  | _, _ => Raise TypeError
  end.

(** [v == ''] and [v != ''] ([None] is not equal to the empty string). *)
Definition eq_empty (v : option str) : bool :=
  match v with
  | Some [] => true
  | _ => false
  end.
Definition ne_empty (v : option str) : bool := negb (eq_empty v).

(** A replacement field [{v}] of an f-string. *)
Definition fmt (v : option str) : str :=
  match v with
  | Some s => s
  | None => u "None"
  end.

(** [sep.join(parts)]. *)
Fixpoint join (sep : str) (parts : list str) : str :=
  match parts with
  | [] => []
  | [p] => p
  | p :: rest => p ++ sep ++ join sep rest
  end.

(** [s.translate(table)]: a code point mapped to [None] is deleted, one
    mapped to a string is replaced by it, one that is no key is kept. *)
Definition translate (table : gmap N (option str)) (s : str) : str :=
  mjoin ((λ c, match table !! c with
               | Some None => []
               | Some (Some r) => r
               | None => [c]
               end) <$> s).

(** [s.lstrip(chars)] and [s.rstrip(chars)]: [chars] is a set of
    characters, all leading (trailing) members of which are dropped. *)
Fixpoint lstrip (chars : str) (s : str) : str :=
  match s with
  | [] => []
  | c :: s' => if bool_decide (c ∈ chars) then lstrip chars s' else s
  end.
Definition rstrip (chars : str) (s : str) : str :=
  reverse (lstrip chars (reverse s)).

(** [s[-1]] raises [IndexError] on the empty string. *)
Definition last_char (s : str) : result N :=
  match last s with
  | Some c => Ok c
  | None => Raise IndexError
  end.

(** [s[:-1]]. *)
Definition drop_last (s : str) : str := take (length s - 1) s.

(** [d.get(k, default)]. *)
Definition get {V} (d : gmap N V) (k : N) (default : V) : V :=
  match d !! k with
  | Some v => v
  | None => default
  end.

(** A dict display [{k1: v1, k2: v2, ...}]: the items are stored from left
    to right, so a later item replaces an earlier one with the same key. *)
Definition dict {V} (items : list (N * V)) : gmap N V :=
  foldl (λ d kv, <[kv.1 := kv.2]> d) ∅ items.

(** [io.StringIO]: the text written so far. *)
Abbreviation StringIO := (list N).
Definition StringIO_new : StringIO := [].

(** [buf.write(v)] appends; writing [None] is a [TypeError]. *)
Definition write (buf : StringIO) (v : option str) : result StringIO :=
  match v with
  | Some s => Ok (buf ++ s)
  | None => Raise TypeError
  end.
Definition getvalue (buf : StringIO) : str := buf.

End Py.
Import Py.

(** ** xml.etree.ElementTree *)

Module ET.

(** An element of the parsed tree: tag, attributes, text (absent for an
    element without character data) and children in document order. *)
#[warnings="-register-all"]
Inductive Element : Type :=
  Elem (tag : str) (attrib : list (str * str)) (text : option str)
       (children : list Element).

Definition tag (e : Element) : str := let 'Elem t _ _ _ := e in t.
Definition attrib (e : Element) : list (str * str) := let 'Elem _ a _ _ := e in a.
Definition text (e : Element) : option str := let 'Elem _ _ t _ := e in t.
Definition children (e : Element) : list Element := let 'Elem _ _ _ c := e in c.

(** [e.findall(name)]: the direct children with that tag. *)
Definition findall (e : Element) (name : str) : list Element :=
  filter (λ c, tag c = name) (children e).

(** [e.find(name)]: the first such child, or [None]. *)
Definition find (e : Element) (name : str) : option Element :=
  head (findall e name).

(** [o.find(name)] where [o] may be [None]. *)
Definition find_in (o : option Element) (name : str) : result (option Element) :=
  match o with
  | Some e => Ok (find e name)
  | None => Raise AttributeError
  end.

(** [for x in o]: the children; iterating [None] is a [TypeError]. *)
Definition iter (o : option Element) : result (list Element) :=
  match o with
  | Some e => Ok (children e)
  | None => Raise TypeError
  end.

(** [e.attrib[key]]. *)
Fixpoint getitem (a : list (str * str)) (key : str) : result str :=
  match a with
  | [] => Raise KeyError
  | (k, v) :: a' => if bool_decide (k = key) then Ok v else getitem a' key
  end.

(** [x.text if (x is not None) else '']. *)
Definition text_or_empty (o : option Element) : option str :=
  match o with
  | Some e => text e
  | None => Some []
  end.

End ET.
Import ET.

(** ** The data model *)

(** [class Author]: the constructor's defaults are [Author_init]. *)
Record Author : Type := {
  lastName : option str;
  foreName : option str;
  initials : option str;
  institution : option str;
}.

Definition Author_init : Author :=
  {| lastName := Some []; foreName := Some []; initials := Some [];
     institution := Some [] |}.

(** [class Reference]. The attributes are annotated [str], but Python does
    not enforce it and [parseXML] stores an element's [text], which is
    [None] for an element without character data. *)
Record Reference : Type := {
  pmid : option str;
  title : option str;
  authors : list Author;
  journal : option str;
  volume : option str;
  issue : option str;
  startPage : option str;
  endPage : option str;
  doi : option str;
  pbyear : option str;
  pbmonth : option str;
  issn : option str;
  journalAb : option str;
  copyright : option str;
  article_url : option str;
  abstract : option str;
}.

Definition Reference_init (id : option str) : Reference :=
  {| pmid := id; title := Some []; authors := []; journal := Some [];
     volume := Some []; issue := Some []; startPage := Some [];
     endPage := Some []; doi := Some []; pbyear := Some [];
     pbmonth := Some []; issn := Some []; journalAb := Some [];
     copyright := Some []; article_url := Some []; abstract := Some [] |}.

(** Attribute assignment [r.f = v], one function per attribute. *)
Definition set_title (r : Reference) (v : option str) : Reference :=
  {| pmid := pmid r; title := v; authors := authors r; journal := journal r;
     volume := volume r; issue := issue r; startPage := startPage r; endPage
     := endPage r; doi := doi r; pbyear := pbyear r; pbmonth := pbmonth r;
     issn := issn r; journalAb := journalAb r; copyright := copyright r;
     article_url := article_url r; abstract := abstract r |}.
Definition set_authors (r : Reference) (v : list Author) : Reference :=
  {| pmid := pmid r; title := title r; authors := v; journal := journal r;
     volume := volume r; issue := issue r; startPage := startPage r; endPage
     := endPage r; doi := doi r; pbyear := pbyear r; pbmonth := pbmonth r;
     issn := issn r; journalAb := journalAb r; copyright := copyright r;
     article_url := article_url r; abstract := abstract r |}.
Definition set_journal (r : Reference) (v : option str) : Reference :=
  {| pmid := pmid r; title := title r; authors := authors r; journal := v;
     volume := volume r; issue := issue r; startPage := startPage r; endPage
     := endPage r; doi := doi r; pbyear := pbyear r; pbmonth := pbmonth r;
     issn := issn r; journalAb := journalAb r; copyright := copyright r;
     article_url := article_url r; abstract := abstract r |}.
Definition set_volume (r : Reference) (v : option str) : Reference :=
  {| pmid := pmid r; title := title r; authors := authors r; journal :=
     journal r; volume := v; issue := issue r; startPage := startPage r;
     endPage := endPage r; doi := doi r; pbyear := pbyear r; pbmonth :=
     pbmonth r; issn := issn r; journalAb := journalAb r; copyright :=
     copyright r; article_url := article_url r; abstract := abstract r |}.
Definition set_issue (r : Reference) (v : option str) : Reference :=
  {| pmid := pmid r; title := title r; authors := authors r; journal :=
     journal r; volume := volume r; issue := v; startPage := startPage r;
     endPage := endPage r; doi := doi r; pbyear := pbyear r; pbmonth :=
     pbmonth r; issn := issn r; journalAb := journalAb r; copyright :=
     copyright r; article_url := article_url r; abstract := abstract r |}.
Definition set_startPage (r : Reference) (v : option str) : Reference :=
  {| pmid := pmid r; title := title r; authors := authors r; journal :=
     journal r; volume := volume r; issue := issue r; startPage := v;
     endPage := endPage r; doi := doi r; pbyear := pbyear r; pbmonth :=
     pbmonth r; issn := issn r; journalAb := journalAb r; copyright :=
     copyright r; article_url := article_url r; abstract := abstract r |}.
Definition set_endPage (r : Reference) (v : option str) : Reference :=
  {| pmid := pmid r; title := title r; authors := authors r; journal :=
     journal r; volume := volume r; issue := issue r; startPage := startPage
     r; endPage := v; doi := doi r; pbyear := pbyear r; pbmonth := pbmonth
     r; issn := issn r; journalAb := journalAb r; copyright := copyright r;
     article_url := article_url r; abstract := abstract r |}.
Definition set_doi (r : Reference) (v : option str) : Reference :=
  {| pmid := pmid r; title := title r; authors := authors r; journal :=
     journal r; volume := volume r; issue := issue r; startPage := startPage
     r; endPage := endPage r; doi := v; pbyear := pbyear r; pbmonth :=
     pbmonth r; issn := issn r; journalAb := journalAb r; copyright :=
     copyright r; article_url := article_url r; abstract := abstract r |}.
Definition set_pbyear (r : Reference) (v : option str) : Reference :=
  {| pmid := pmid r; title := title r; authors := authors r; journal :=
     journal r; volume := volume r; issue := issue r; startPage := startPage
     r; endPage := endPage r; doi := doi r; pbyear := v; pbmonth := pbmonth
     r; issn := issn r; journalAb := journalAb r; copyright := copyright r;
     article_url := article_url r; abstract := abstract r |}.
Definition set_pbmonth (r : Reference) (v : option str) : Reference :=
  {| pmid := pmid r; title := title r; authors := authors r; journal :=
     journal r; volume := volume r; issue := issue r; startPage := startPage
     r; endPage := endPage r; doi := doi r; pbyear := pbyear r; pbmonth :=
     v; issn := issn r; journalAb := journalAb r; copyright := copyright r;
     article_url := article_url r; abstract := abstract r |}.
Definition set_issn (r : Reference) (v : option str) : Reference :=
  {| pmid := pmid r; title := title r; authors := authors r; journal :=
     journal r; volume := volume r; issue := issue r; startPage := startPage
     r; endPage := endPage r; doi := doi r; pbyear := pbyear r; pbmonth :=
     pbmonth r; issn := v; journalAb := journalAb r; copyright := copyright
     r; article_url := article_url r; abstract := abstract r |}.
Definition set_journalAb (r : Reference) (v : option str) : Reference :=
  {| pmid := pmid r; title := title r; authors := authors r; journal :=
     journal r; volume := volume r; issue := issue r; startPage := startPage
     r; endPage := endPage r; doi := doi r; pbyear := pbyear r; pbmonth :=
     pbmonth r; issn := issn r; journalAb := v; copyright := copyright r;
     article_url := article_url r; abstract := abstract r |}.
Definition set_copyright (r : Reference) (v : option str) : Reference :=
  {| pmid := pmid r; title := title r; authors := authors r; journal :=
     journal r; volume := volume r; issue := issue r; startPage := startPage
     r; endPage := endPage r; doi := doi r; pbyear := pbyear r; pbmonth :=
     pbmonth r; issn := issn r; journalAb := journalAb r; copyright := v;
     article_url := article_url r; abstract := abstract r |}.
Definition set_article_url (r : Reference) (v : option str) : Reference :=
  {| pmid := pmid r; title := title r; authors := authors r; journal :=
     journal r; volume := volume r; issue := issue r; startPage := startPage
     r; endPage := endPage r; doi := doi r; pbyear := pbyear r; pbmonth :=
     pbmonth r; issn := issn r; journalAb := journalAb r; copyright :=
     copyright r; article_url := v; abstract := abstract r |}.
Definition set_abstract (r : Reference) (v : option str) : Reference :=
  {| pmid := pmid r; title := title r; authors := authors r; journal :=
     journal r; volume := volume r; issue := issue r; startPage := startPage
     r; endPage := endPage r; doi := doi r; pbyear := pbyear r; pbmonth :=
     pbmonth r; issn := issn r; journalAb := journalAb r; copyright :=
     copyright r; article_url := article_url r; abstract := v |}.

(** ** The reference extractor *)

(** The body of the loop over the identifier list: the text of every
    identifier tagged [doi] is stored, so the last one stays. *)
Fixpoint scanArticleIds (r : Reference) (ids : list Element) : result Reference :=
  match ids with
  | [] => Ok r
  | articleId :: rest =>
      idType ← getitem (attrib articleId) (u "IdType");
      scanArticleIds
        (if bool_decide (idType = u "doi") then set_doi r (text articleId) else r)
        rest
  end.

(** The body of the loop over the author list, for one author entry. *)
Definition parseAuthor (authorElem : Element) : Author :=
  let lastName := text_or_empty (find authorElem (u "LastName")) in
  let foreName := text_or_empty (find authorElem (u "ForeName")) in
  let initials := text_or_empty (find authorElem (u "Initials")) in
  let institution :=
    match find authorElem (u "AffiliationInfo") with
    | Some affiElem =>
        match find affiElem (u "Affiliation") with
        | None => Some []
        | Some currElem => text currElem
        end
    | None => Some []
    end in
  {| lastName := lastName; foreName := foreName; initials := initials;
     institution := institution |}.

(** [parseXML(pmid, xml)], on the tree [fromstring(xml)] returns. *)
Definition parseXML (pmid : str) (pubmedArticleSet : Element) : result Reference :=
  let ref := Reference_init (Some pmid) in
  match findall pubmedArticleSet (u "PubmedArticle") with
  | [] => Raise (Exception (u "Empty result for the given pubmed id"))
  | pubmedArticle :: _ =>
    idList ← find_in (find pubmedArticle (u "PubmedData")) (u "ArticleIdList");
    ids ← iter idList;
    ref ← scanArticleIds ref ids;
    let ref :=
      if eq_empty (doi ref)
      then set_article_url ref
             (Some (u "https://pubmed.ncbi.nlm.nih.gov/" ++ pmid ++ u "/"))
      else set_article_url ref (Some (u "https://doi.org/" ++ fmt (doi ref))) in

    article ← find_in (find pubmedArticle (u "MedlineCitation")) (u "Article");
    currElem ← find_in article (u "ArticleTitle");
    let ref := set_title ref (text_or_empty currElem) in

    absElem ← find_in article (u "Abstract");
    let ref :=
      match absElem with
      | Some absElem =>
          let abstractText := text_or_empty (find absElem (u "AbstractText")) in
          let ref :=
            match abstractText with
            | Some _ => set_abstract ref abstractText
            | None => ref
            end in
          set_copyright ref
            (text_or_empty (find absElem (u "CopyrightInformation")))
      | None => ref
      end in

    journalElement ← find_in article (u "Journal");
    ref ←
      match journalElement with
      | Some journalElement =>
          let ref := set_journal ref
                       (text_or_empty (find journalElement (u "Title"))) in
          let ref := set_issn ref
                       (text_or_empty (find journalElement (u "ISSN"))) in
          let ref := set_journalAb ref
                       (text_or_empty (find journalElement (u "ISOAbbreviation"))) in
          let jissueElem := find journalElement (u "JournalIssue") in
          currElem ← find_in jissueElem (u "Volume");
          let ref := set_volume ref (text_or_empty currElem) in
          currElem ← find_in jissueElem (u "Issue");
          let ref := set_issue ref (text_or_empty currElem) in
          dateElem ← find_in jissueElem (u "PubDate");
          match dateElem with
          | Some dateElem =>
              let ref := set_pbyear ref
                           (text_or_empty (find dateElem (u "Year"))) in
              Ok (set_pbmonth ref (text_or_empty (find dateElem (u "Month"))))
          | None => Ok ref
          end
      | None => Ok ref
      end;

    pagElem ← find_in article (u "Pagination");
    let ref :=
      match pagElem with
      | Some pagElem =>
          let ref := set_startPage ref
                       (text_or_empty (find pagElem (u "StartPage"))) in
          set_endPage ref (text_or_empty (find pagElem (u "EndPage")))
      | None => ref
      end in

    authorList ← find_in article (u "AuthorList");
    authorElems ← iter authorList;
    Ok (set_authors ref (authors ref ++ (parseAuthor <$> authorElems)))
  end.

(** ** The BibTeX serializer's helpers *)

(** [appendFormattedField(stringBuffer, name, value)]: three writes to the
    buffer it is given. *)
Definition appendFormattedField (stringBuffer : StringIO) (name : str)
    (value : option str) : result StringIO :=
  stringBuffer ← write stringBuffer (Some (u "   " ++ name ++ u " = " ++ dq));
  stringBuffer ← write stringBuffer value;
  write stringBuffer (Some (dq ++ u "," ++ nl)).

(** [formatAuthor(author)]. *)
Definition formatAuthor (author : Author) : result str :=
  s ← add (lastName author) (Some (u ", "));
  s ← add (Some s) (initials author);
  add (Some s) (Some (u ".")).

(** ** The file name sanitizer *)

(** The table literal passed to [translate]. *)
Definition fileNameTable : gmap N (option str) :=
  dict [ (ord "{", None);
         (ord "}", None);
         (ord "[", None);
         (ord "]", None);
         (34%N, None);
         (ord "/", Some (u " "));
         (ord "?", None) ].

(** [sanitizeFileName(text)]. *)
Definition sanitizeFileName (text : str) : result str :=
  let result := translate fileNameTable text in
  c ← last_char result;
  if bool_decide (c = ord ".") then Ok (drop_last result) else Ok result.

(** ** The title scan of the DOI path *)

(** [s] without the prefix [p], when it starts with it. *)
Fixpoint after_prefix (p s : str) : option str :=
  match p, s with
  | [], _ => Some s
  | a :: p', b :: s' => if bool_decide (a = b) then after_prefix p' s' else None
  | _ :: _, [] => None
  end.

(** The part [(.*?)\n] of the pattern, matched at the start of [s]: the
    dot matches anything but a newline, so the match runs to the first
    newline, and fails when there is none. *)
Fixpoint match_to_newline (s : str) : option str :=
  match s with
  | [] => None
  | c :: s' =>
      if bool_decide (c = 10%N) then Some [c]
      else (c ::.) <$> match_to_newline s'
  end.

(** The pattern [title = (.*?)\n] matched at the start of [s]. *)
Definition match_title_here (s : str) : option str :=
  rest ← after_prefix (u "title = ") s;
  m ← match_to_newline rest;
  Some (u "title = " ++ m).

(** [re.search(r'title = (.*?)\n', s)]: the match at the leftmost position
    that has one; the result is the whole match, [group()]. *)
Fixpoint re_search_title (s : str) : option str :=
  match match_title_here s with
  | Some m => Some m
  | None =>
      match s with
      | [] => None
      | _ :: s' => re_search_title s'
      end
  end.

(** [m.group()], where [m] is [None] when nothing matched. *)
Definition group (m : option str) : result str :=
  match m with
  | Some g => Ok g
  | None => Raise AttributeError
  end.

(** [getTitle(bibtex_content)]. *)
Definition getTitle (bibtex_content : str) : result str :=
  g ← group (re_search_title bibtex_content);
  Ok (translate (dict [(ord "{", None); (ord "}", None)])
        (rstrip (u "}," ++ nl) (lstrip (u "title = {") g))).

(** ** The escape table *)

(** The items of the [uni2tex] literal, in source order. *)
Definition uni2tex_items : list (N * str) := [
  (0x0023, u "{\#}");
  (0x0024, u "{\textdollar}");
  (0x0025, u "{\%}");
  (0x0026, u "{\&}");
  (0x0027, u "{\textquotesingle}");
  (0x002A, u "{\ast}");
  (0x002B, u "$\mathplus$");
  (0x002D, u "-");
  (0x003B, u "$\mathsemicolon$");
  (0x003C, u "$\less$");
  (0x003E, u "$\greater$");
  (0x005C, u "{\textbackslash}");
  (0x005E, u "{\^{}}");
  (0x005F, u "{\_}");
  (0x0060, u "{\textasciigrave}");
  (0x007B, u "$\lbrace$");
  (0x007C, u "$\vert$");
  (0x007D, u "$\rbrace$");
  (0x007E, u "{\textasciitilde}");
  (0x00A0, u "~");
  (0x00A1, u "{\textexclamdown}");
  (0x00A2, u "{\textcent}");
  (0x00A3, u "{\textsterling}");
  (0x00A4, u "{\textcurrency}");
  (0x00A5, u "{\textyen}");
  (0x00A6, u "{\textbrokenbar}");
  (0x00A7, u "{\textsection}");
  (0x00A8, u "{\textasciidieresis}");
  (0x00A9, u "{\textcopyright}");
  (0x00AA, u "{\textordfeminine}");
  (0x00AB, u "{\guillemotleft}");
  (0x00AC, u "$\neg$");
  (0x00AD, u "{\-}");
  (0x00AE, u "{\textregistered}");
  (0x00AF, u "{\textasciimacron}");
  (0x00B0, u "{\textdegree}");
  (0x00B1, u "$\pm$");
  (0x00B2, u "{^2}");
  (0x00B3, u "{^3}");
  (0x00B4, u "{\textasciiacute}");
  (0x00B5, u "$\mathrm{\mu}$");
  (0x00B6, u "{\textparagraph}");
  (0x00B7, u "$\cdotp$");
  (0x00B8, u "{\c{}}");
  (0x00B9, u "{^1}");
  (0x00BA, u "{\textordmasculine}");
  (0x00BB, u "{\guillemotright}");
  (0x00BC, u "{\textonequarter}");
  (0x00BD, u "{\textonehalf}");
  (0x00BE, u "{\textthreequarters}");
  (0x00BF, u "{\textquestiondown}");
  (0x00C0, u "{\`{A}}");
  (0x00C1, u "{\'{A}}");
  (0x00C2, u "{\^{A}}");
  (0x00C3, u "{\~{A}}");
  (0x00C5, u "{\AA}");
  (0x00C6, u "{\AE}");
  (0x00C7, u "{\c{C}}");
  (0x00C8, u "{\`{E}}");
  (0x00C9, u "{\'{E}}");
  (0x00CA, u "{\^{E}}");
  (0x00CC, u "{\`{I}}");
  (0x00CD, u "{\'{I}}");
  (0x00CE, u "{\^{I}}");
  (0x00D0, u "{\DH}");
  (0x00D1, u "{\~{N}}");
  (0x00D2, u "{\`{O}}");
  (0x00D3, u "{\'{O}}");
  (0x00D4, u "{\^{O}}");
  (0x00D5, u "{\~{O}}");
  (0x00D7, u "{\texttimes}");
  (0x00D8, u "{\O}");
  (0x00D9, u "{\`{U}}");
  (0x00DA, u "{\'{U}}");
  (0x00DB, u "{\^{U}}");
  (0x00DD, u "{\'{Y}}");
  (0x00DE, u "{\TH}");
  (0x00DF, u "{\ss}");
  (0x00E0, u "{\`{a}}");
  (0x00E1, u "{\'{a}}");
  (0x00E2, u "{\^{a}}");
  (0x00E3, u "{\~{a}}");
  (0x00E5, u "{\aa}");
  (0x00E6, u "{\ae}");
  (0x00E7, u "{\c{c}}");
  (0x00E8, u "{\`{e}}");
  (0x00E9, u "{\'{e}}");
  (0x00EA, u "{\^{e}}");
  (0x00EC, u "{\`{\i}}");
  (0x00ED, u "{\'{\i}}");
  (0x00EE, u "{\^{\i}}");
  (0x00F0, u "{\dh}");
  (0x00F1, u "{\~{n}}");
  (0x00F2, u "{\`{o}}");
  (0x00F3, u "{\'{o}}");
  (0x00F4, u "{\^{o}}");
  (0x00F5, u "{\~{o}}");
  (0x00F7, u "$\div$");
  (0x00F8, u "{\o}");
  (0x00F9, u "{\`{u}}");
  (0x00FA, u "{\'{u}}");
  (0x00FB, u "{\^{u}}");
  (0x00FD, u "{\'{y}}");
  (0x00FE, u "{\th}");
  (0x0100, u "{\={A}}");
  (0x0101, u "{\={a}}");
  (0x0102, u "{\u{A}}");
  (0x0103, u "{\u{a}}");
  (0x0104, u "{\k{A}}");
  (0x0105, u "{\k{a}}");
  (0x0106, u "{\'{C}}");
  (0x0107, u "{\'{c}}");
  (0x0108, u "{\^{C}}");
  (0x0109, u "{\^{c}}");
  (0x010A, u "{\.{C}}");
  (0x010B, u "{\.{c}}");
  (0x010C, u "{\v{C}}");
  (0x010D, u "{\v{c}}");
  (0x010E, u "{\v{D}}");
  (0x010F, u "{\v{d}}");
  (0x0110, u "{\DJ}");
  (0x0111, u "{\dj}");
  (0x0112, u "{\={E}}");
  (0x0113, u "{\={e}}");
  (0x0114, u "{\u{E}}");
  (0x0115, u "{\u{e}}");
  (0x0116, u "{\.{E}}");
  (0x0117, u "{\.{e}}");
  (0x0118, u "{\k{E}}");
  (0x0119, u "{\k{e}}");
  (0x011A, u "{\v{E}}");
  (0x011B, u "{\v{e}}");
  (0x011C, u "{\^{G}}");
  (0x011D, u "{\^{g}}");
  (0x011E, u "{\u{G}}");
  (0x011F, u "{\u{g}}");
  (0x0120, u "{\.{G}}");
  (0x0121, u "{\.{g}}");
  (0x0122, u "{\c{G}}");
  (0x0123, u "{\c{g}}");
  (0x0124, u "{\^{H}}");
  (0x0125, u "{\^{h}}");
  (0x0126, u "{\fontencoding{LELA}\selectfont\char40}");
  (0x0127, u "{\Elzxh}");
  (0x0128, u "{\~{I}}");
  (0x0129, u "{\~{\i}}");
  (0x012A, u "{\={I}}");
  (0x012B, u "{\={\i}}");
  (0x012C, u "{\u{I}}");
  (0x012D, u "{\u{\i}}");
  (0x012E, u "{\k{I}}");
  (0x012F, u "{\k{i}}");
  (0x0130, u "{\.{I}}");
  (0x0131, u "{\i}");
  (0x0132, u "IJ");
  (0x0133, u "ij");
  (0x0134, u "{\^{J}}");
  (0x0135, u "{\^{\j}}");
  (0x0136, u "{\c{K}}");
  (0x0137, u "{\c{k}}");
  (0x0138, u "{\fontencoding{LELA}\selectfont\char91}");
  (0x0139, u "{\'{L}}");
  (0x013A, u "{\'{l}}");
  (0x013B, u "{\c{L}}");
  (0x013C, u "{\c{l}}");
  (0x013D, u "{\v{L}}");
  (0x013E, u "{\v{l}}");
  (0x013F, u "{\fontencoding{LELA}\selectfont\char201}");
  (0x0140, u "{\fontencoding{LELA}\selectfont\char202}");
  (0x0141, u "{\L}");
  (0x0142, u "{\l}");
  (0x0143, u "{\'{N}}");
  (0x0144, u "{\'{n}}");
  (0x0145, u "{\c{N}}");
  (0x0146, u "{\c{n}}");
  (0x0147, u "{\v{N}}");
  (0x0148, u "{\v{n}}");
  (0x0149, u "'n");
  (0x014A, u "{\NG}");
  (0x014B, u "{\ng}");
  (0x014C, u "{\={O}}");
  (0x014D, u "{\={o}}");
  (0x014E, u "{\u{O}}");
  (0x014F, u "{\u{o}}");
  (0x0150, u "{\H{O}}");
  (0x0151, u "{\H{o}}");
  (0x0152, u "{\OE}");
  (0x0153, u "{\oe}");
  (0x0154, u "{\'{R}}");
  (0x0155, u "{\'{r}}");
  (0x0156, u "{\c{R}}");
  (0x0157, u "{\c{r}}");
  (0x0158, u "{\v{R}}");
  (0x0159, u "{\v{r}}");
  (0x015A, u "{\'{S}}");
  (0x015B, u "{\'{s}}");
  (0x015C, u "{\^{S}}");
  (0x015D, u "{\^{s}}");
  (0x015E, u "{\c{S}}");
  (0x015F, u "{\c{s}}");
  (0x0160, u "{\v{S}}");
  (0x0161, u "{\v{s}}");
  (0x0162, u "{\c{T}}");
  (0x0163, u "{\c{t}}");
  (0x0164, u "{\v{T}}");
  (0x0165, u "{\v{t}}");
  (0x0166, u "{\fontencoding{LELA}\selectfont\char47}");
  (0x0167, u "{\fontencoding{LELA}\selectfont\char63}");
  (0x0168, u "{\~{U}}");
  (0x0169, u "{\~{u}}");
  (0x016A, u "{\={U}}");
  (0x016B, u "{\={u}}");
  (0x016C, u "{\u{U}}");
  (0x016D, u "{\u{u}}");
  (0x016E, u "{\r{U}}");
  (0x016F, u "{\r{u}}");
  (0x0170, u "{\H{U}}");
  (0x0171, u "{\H{u}}");
  (0x0172, u "{\k{U}}");
  (0x0173, u "{\k{u}}");
  (0x0174, u "{\^{W}}");
  (0x0175, u "{\^{w}}");
  (0x0176, u "{\^{Y}}");
  (0x0177, u "{\^{y}}");
  (0x0179, u "{\'{Z}}");
  (0x017A, u "{\'{z}}");
  (0x017B, u "{\.{Z}}");
  (0x017C, u "{\.{z}}");
  (0x017D, u "{\v{Z}}");
  (0x017E, u "{\v{z}}");
  (0x0192, u "f");
  (0x0195, u "{\texthvlig}");
  (0x019E, u "{\textnrleg}");
  (0x01AA, u "{\eth}");
  (0x01BA, u "{\fontencoding{LELA}\selectfont\char195}");
  (0x01C2, u "{\textdoublepipe}");
  (0x01F5, u "{\'{g}}");
  (0x0250, u "{\Elztrna}");
  (0x0252, u "{\Elztrnsa}");
  (0x0254, u "{\Elzopeno}");
  (0x0256, u "{\Elzrtld}");
  (0x0258, u "{\fontencoding{LEIP}\selectfont\char61}");
  (0x0259, u "{\Elzschwa}");
  (0x025B, u "{\varepsilon}");
  (0x0261, u "g");
  (0x0263, u "{\Elzpgamma}");
  (0x0264, u "{\Elzpbgam}");
  (0x0265, u "{\Elztrnh}");
  (0x026C, u "{\Elzbtdl}");
  (0x026D, u "{\Elzrtll}");
  (0x026F, u "{\Elztrnm}");
  (0x0270, u "{\Elztrnmlr}");
  (0x0271, u "{\Elzltlmr}");
  (0x0272, u "{\Elzltln}");
  (0x0273, u "{\Elzrtln}");
  (0x0277, u "{\Elzclomeg}");
  (0x0278, u "{\textphi}");
  (0x0279, u "{\Elztrnr}");
  (0x027A, u "{\Elztrnrl}");
  (0x027B, u "{\Elzrttrnr}");
  (0x027C, u "{\Elzrl}");
  (0x027D, u "{\Elzrtlr}");
  (0x027E, u "{\Elzfhr}");
  (0x027F, u "{\fontencoding{LEIP}\selectfont\char202}");
  (0x0282, u "{\Elzrtls}");
  (0x0283, u "{\Elzesh}");
  (0x0287, u "{\Elztrnt}");
  (0x0288, u "{\Elzrtlt}");
  (0x028A, u "{\Elzpupsil}");
  (0x028B, u "{\Elzpscrv}");
  (0x028C, u "{\Elzinvv}");
  (0x028D, u "{\Elzinvw}");
  (0x028E, u "{\Elztrny}");
  (0x0290, u "{\Elzrtlz}");
  (0x0292, u "{\Elzyogh}");
  (0x0294, u "{\Elzglst}");
  (0x0295, u "{\Elzreglst}");
  (0x0296, u "{\Elzinglst}");
  (0x029E, u "{\textturnk}");
  (0x02A4, u "{\Elzdyogh}");
  (0x02A7, u "{\Elztesh}");
  (0x02BC, u "'");
  (0x02C7, u "{\textasciicaron}");
  (0x02C8, u "{\Elzverts}");
  (0x02CC, u "{\Elzverti}");
  (0x02D0, u "{\Elzlmrk}");
  (0x02D1, u "{\Elzhlmrk}");
  (0x02D2, u "{\Elzsbrhr}");
  (0x02D3, u "{\Elzsblhr}");
  (0x02D4, u "{\Elzrais}");
  (0x02D5, u "{\Elzlow}");
  (0x02D8, u "{\textasciibreve}");
  (0x02D9, u "{\textperiodcentered}");
  (0x02DA, u "{\r{}}");
  (0x02DB, u "{\k{}}");
  (0x02DC, u "{\texttildelow}");
  (0x02DD, u "{\H{}}");
  (0x02E5, u "{\tone{55}}");
  (0x02E6, u "{\tone{44}}");
  (0x02E7, u "{\tone{33}}");
  (0x02E8, u "{\tone{22}}");
  (0x02E9, u "{\tone{11}}");
  (0x0300, u "{\`}");
  (0x0301, u "{\'}");
  (0x0302, u "{\^}");
  (0x0303, u "{\~}");
  (0x0304, u "{\=}");
  (0x0306, u "{\u}");
  (0x0307, u "{\.}");
  (0x030A, u "{\r}");
  (0x030B, u "{\H}");
  (0x030C, u "{\v}");
  (0x030F, u "{\cyrchar\C}");
  (0x0311, u "{\fontencoding{LECO}\selectfont\char177}");
  (0x0318, u "{\fontencoding{LECO}\selectfont\char184}");
  (0x0319, u "{\fontencoding{LECO}\selectfont\char185}");
  (0x0321, u "{\Elzpalh}");
  (0x0322, u "{\Elzrh}");
  (0x0327, u "{\c}");
  (0x0328, u "{\k}");
  (0x032A, u "{\Elzsbbrg}");
  (0x032B, u "{\fontencoding{LECO}\selectfont\char203}");
  (0x032F, u "{\fontencoding{LECO}\selectfont\char207}");
  (0x0335, u "{\Elzxl}");
  (0x0336, u "{\Elzbar}");
  (0x0337, u "{\fontencoding{LECO}\selectfont\char215}");
  (0x0338, u "{\fontencoding{LECO}\selectfont\char216}");
  (0x033A, u "{\fontencoding{LECO}\selectfont\char218}");
  (0x033B, u "{\fontencoding{LECO}\selectfont\char219}");
  (0x033C, u "{\fontencoding{LECO}\selectfont\char220}");
  (0x033D, u "{\fontencoding{LECO}\selectfont\char221}");
  (0x0361, u "{\fontencoding{LECO}\selectfont\char225}");
  (0x0386, u "{\'{A}}");
  (0x0388, u "{\'{E}}");
  (0x0389, u "{\'{H}}");
  (0x038A, u "{\'{}{I}}");
  (0x038C, u "{\'{}O}");
  (0x038E, u "$\mathrm{'Y}$");
  (0x038F, u "$\mathrm{" ++ dq ++ u "\Omega}$");
  (0x0390, u "{\acute{\ddot{\iota}}}");
  (0x0391, u "$\upAlpha$");
  (0x0392, u "$\upBeta$");
  (0x0393, u "$\upGamma$");
  (0x0394, u "$\upDelta$");
  (0x0395, u "$\upEpsilon$");
  (0x0396, u "$\upZeta$");
  (0x0397, u "$\upEta$");
  (0x0398, u "$\upTheta$");
  (0x0399, u "$\upIota$");
  (0x039A, u "$\upKappa$");
  (0x039B, u "$\upLambda$");
  (0x039C, u "$\upMu$");
  (0x039D, u "$\upNu$");
  (0x039E, u "$\upXi$");
  (0x039F, u "$\upOmicron$");
  (0x03A0, u "$\upPi$");
  (0x03A1, u "$\upRho$");
  (0x03A3, u "$\upSigma$");
  (0x03A4, u "$\upTau$");
  (0x03A5, u "$\upUpsilon$");
  (0x03A6, u "$\upPhi$");
  (0x03A7, u "$\upChi$");
  (0x03A8, u "$\upPsi$");
  (0x03A9, u "$\upOmega$");
  (0x03AA, u "$\mathrm{\ddot{I}}$");
  (0x03AB, u "$\mathrm{\ddot{Y}}$");
  (0x03AC, u "{\'{$\alpha$}}");
  (0x03AD, u "{\acute{\epsilon}}");
  (0x03AE, u "{\acute{\eta}}");
  (0x03AF, u "{\acute{\iota}}");
  (0x03B0, u "{\acute{\ddot{\upsilon}}}");
  (0x03B1, u "$\upalpha$");
  (0x03B2, u "$\upbeta$");
  (0x03B3, u "$\upgamma$");
  (0x03B4, u "$\updelta$");
  (0x03B5, u "$\upepsilon$");
  (0x03B6, u "$\upzeta$");
  (0x03B7, u "$\upeta$");
  (0x03B8, u "{\texttheta}");
  (0x03B9, u "$\upiota$");
  (0x03BA, u "$\upkappa$");
  (0x03BB, u "$\uplambda$");
  (0x03BC, u "$\upmu$");
  (0x03BD, u "$\upnu$");
  (0x03BE, u "$\upxi$");
  (0x03BF, u "$\upomicron$");
  (0x03C0, u "$\uppi$");
  (0x03C1, u "$\uprho$");
  (0x03C2, u "$\upvarsigma$");
  (0x03C3, u "$\upsigma$");
  (0x03C4, u "$\uptau$");
  (0x03C5, u "$\upupsilon$");
  (0x03C6, u "$\upvarphi$");
  (0x03C7, u "$\upchi$");
  (0x03C8, u "$\uppsi$");
  (0x03C9, u "$\upomega$");
  (0x03CA, u "{\ddot{\iota}}");
  (0x03CB, u "{\ddot{\upsilon}}");
  (0x03CC, u "{\'{o}}");
  (0x03CD, u "{\acute{\upsilon}}");
  (0x03CE, u "{\acute{\omega}}");
  (0x03D0, u "{\Pisymbol{ppi022}{87}}");
  (0x03D1, u "{\textvartheta}");
  (0x03D2, u "{\Upsilon}");
  (0x03D5, u "$\upphi$");
  (0x03D6, u "$\upvarpi$");
  (0x03DA, u "$\upStigma$");
  (0x03DC, u "$\upDigamma$");
  (0x03DD, u "$\updigamma$");
  (0x03DE, u "$\upKoppa$");
  (0x03E0, u "$\upSampi$");
  (0x03F0, u "$\upvarkappa$");
  (0x03F1, u "$\upvarrho$");
  (0x03F4, u "{\textTheta}");
  (0x03F6, u "$\upbackepsilon$");
  (0x0401, u "{\cyrchar\CYRYO}");
  (0x0402, u "{\cyrchar\CYRDJE}");
  (0x0403, u "{\cyrchar{\" ++ dq ++ u "\CYRG}}");
  (0x0404, u "{\cyrchar\CYRIE}");
  (0x0405, u "{\cyrchar\CYRDZE}");
  (0x0406, u "{\cyrchar\CYRII}");
  (0x0407, u "{\cyrchar\CYRYI}");
  (0x0408, u "{\cyrchar\CYRJE}");
  (0x0409, u "{\cyrchar\CYRLJE}");
  (0x040A, u "{\cyrchar\CYRNJE}");
  (0x040B, u "{\cyrchar\CYRTSHE}");
  (0x040C, u "{\cyrchar{\" ++ dq ++ u "\CYRK}}");
  (0x040E, u "{\cyrchar\CYRUSHRT}");
  (0x040F, u "{\cyrchar\CYRDZHE}");
  (0x0410, u "{\cyrchar\CYRA}");
  (0x0411, u "{\cyrchar\CYRB}");
  (0x0412, u "{\cyrchar\CYRV}");
  (0x0413, u "{\cyrchar\CYRG}");
  (0x0414, u "{\cyrchar\CYRD}");
  (0x0415, u "{\cyrchar\CYRE}");
  (0x0416, u "{\cyrchar\CYRZH}");
  (0x0417, u "{\cyrchar\CYRZ}");
  (0x0418, u "{\cyrchar\CYRI}");
  (0x0419, u "{\cyrchar\CYRISHRT}");
  (0x041A, u "{\cyrchar\CYRK}");
  (0x041B, u "{\cyrchar\CYRL}");
  (0x041C, u "{\cyrchar\CYRM}");
  (0x041D, u "{\cyrchar\CYRN}");
  (0x041E, u "{\cyrchar\CYRO}");
  (0x041F, u "{\cyrchar\CYRP}");
  (0x0420, u "{\cyrchar\CYRR}");
  (0x0421, u "{\cyrchar\CYRS}");
  (0x0422, u "{\cyrchar\CYRT}");
  (0x0423, u "{\cyrchar\CYRU}");
  (0x0424, u "{\cyrchar\CYRF}");
  (0x0425, u "{\cyrchar\CYRH}");
  (0x0426, u "{\cyrchar\CYRC}");
  (0x0427, u "{\cyrchar\CYRCH}");
  (0x0428, u "{\cyrchar\CYRSH}");
  (0x0429, u "{\cyrchar\CYRSHCH}");
  (0x042A, u "{\cyrchar\CYRHRDSN}");
  (0x042B, u "{\cyrchar\CYRERY}");
  (0x042C, u "{\cyrchar\CYRSFTSN}");
  (0x042D, u "{\cyrchar\CYREREV}");
  (0x042E, u "{\cyrchar\CYRYU}");
  (0x042F, u "{\cyrchar\CYRYA}");
  (0x0430, u "{\cyrchar\cyra}");
  (0x0431, u "{\cyrchar\cyrb}");
  (0x0432, u "{\cyrchar\cyrv}");
  (0x0433, u "{\cyrchar\cyrg}");
  (0x0434, u "{\cyrchar\cyrd}");
  (0x0435, u "{\cyrchar\cyre}");
  (0x0436, u "{\cyrchar\cyrzh}");
  (0x0437, u "{\cyrchar\cyrz}");
  (0x0438, u "{\cyrchar\cyri}");
  (0x0439, u "{\cyrchar\cyrishrt}");
  (0x043A, u "{\cyrchar\cyrk}");
  (0x043B, u "{\cyrchar\cyrl}");
  (0x043C, u "{\cyrchar\cyrm}");
  (0x043D, u "{\cyrchar\cyrn}");
  (0x043E, u "{\cyrchar\cyro}");
  (0x043F, u "{\cyrchar\cyrp}");
  (0x0440, u "{\cyrchar\cyrr}");
  (0x0441, u "{\cyrchar\cyrs}");
  (0x0442, u "{\cyrchar\cyrt}");
  (0x0443, u "{\cyrchar\cyru}");
  (0x0444, u "{\cyrchar\cyrf}");
  (0x0445, u "{\cyrchar\cyrh}");
  (0x0446, u "{\cyrchar\cyrc}");
  (0x0447, u "{\cyrchar\cyrch}");
  (0x0448, u "{\cyrchar\cyrsh}");
  (0x0449, u "{\cyrchar\cyrshch}");
  (0x044A, u "{\cyrchar\cyrhrdsn}");
  (0x044B, u "{\cyrchar\cyrery}");
  (0x044C, u "{\cyrchar\cyrsftsn}");
  (0x044D, u "{\cyrchar\cyrerev}");
  (0x044E, u "{\cyrchar\cyryu}");
  (0x044F, u "{\cyrchar\cyrya}");
  (0x0451, u "{\cyrchar\cyryo}");
  (0x0452, u "{\cyrchar\cyrdje}");
  (0x0453, u "{\cyrchar{\" ++ dq ++ u "\cyrg}}");
  (0x0454, u "{\cyrchar\cyrie}");
  (0x0455, u "{\cyrchar\cyrdze}");
  (0x0456, u "{\cyrchar\cyrii}");
  (0x0457, u "{\cyrchar\cyryi}");
  (0x0458, u "{\cyrchar\cyrje}");
  (0x0459, u "{\cyrchar\cyrlje}");
  (0x045A, u "{\cyrchar\cyrnje}");
  (0x045B, u "{\cyrchar\cyrtshe}");
  (0x045C, u "{\cyrchar{\" ++ dq ++ u "\cyrk}}");
  (0x045E, u "{\cyrchar\cyrushrt}");
  (0x045F, u "{\cyrchar\cyrdzhe}");
  (0x0460, u "{\cyrchar\CYROMEGA}");
  (0x0461, u "{\cyrchar\cyromega}");
  (0x0462, u "{\cyrchar\CYRYAT}");
  (0x0464, u "{\cyrchar\CYRIOTE}");
  (0x0465, u "{\cyrchar\cyriote}");
  (0x0466, u "{\cyrchar\CYRLYUS}");
  (0x0467, u "{\cyrchar\cyrlyus}");
  (0x0468, u "{\cyrchar\CYRIOTLYUS}");
  (0x0469, u "{\cyrchar\cyriotlyus}");
  (0x046A, u "{\cyrchar\CYRBYUS}");
  (0x046C, u "{\cyrchar\CYRIOTBYUS}");
  (0x046D, u "{\cyrchar\cyriotbyus}");
  (0x046E, u "{\cyrchar\CYRKSI}");
  (0x046F, u "{\cyrchar\cyrksi}");
  (0x0470, u "{\cyrchar\CYRPSI}");
  (0x0471, u "{\cyrchar\cyrpsi}");
  (0x0472, u "{\cyrchar\CYRFITA}");
  (0x0474, u "{\cyrchar\CYRIZH}");
  (0x0478, u "{\cyrchar\CYRUK}");
  (0x0479, u "{\cyrchar\cyruk}");
  (0x047A, u "{\cyrchar\CYROMEGARND}");
  (0x047B, u "{\cyrchar\cyromegarnd}");
  (0x047C, u "{\cyrchar\CYROMEGATITLO}");
  (0x047D, u "{\cyrchar\cyromegatitlo}");
  (0x047E, u "{\cyrchar\CYROT}");
  (0x047F, u "{\cyrchar\cyrot}");
  (0x0480, u "{\cyrchar\CYRKOPPA}");
  (0x0481, u "{\cyrchar\cyrkoppa}");
  (0x0482, u "{\cyrchar\cyrthousands}");
  (0x0488, u "{\cyrchar\cyrhundredthousands}");
  (0x0489, u "{\cyrchar\cyrmillions}");
  (0x048C, u "{\cyrchar\CYRSEMISFTSN}");
  (0x048D, u "{\cyrchar\cyrsemisftsn}");
  (0x048E, u "{\cyrchar\CYRRTICK}");
  (0x048F, u "{\cyrchar\cyrrtick}");
  (0x0490, u "{\cyrchar\CYRGUP}");
  (0x0491, u "{\cyrchar\cyrgup}");
  (0x0492, u "{\cyrchar\CYRGHCRS}");
  (0x0493, u "{\cyrchar\cyrghcrs}");
  (0x0494, u "{\cyrchar\CYRGHK}");
  (0x0495, u "{\cyrchar\cyrghk}");
  (0x0496, u "{\cyrchar\CYRZHDSC}");
  (0x0497, u "{\cyrchar\cyrzhdsc}");
  (0x0498, u "{\cyrchar\CYRZDSC}");
  (0x0499, u "{\cyrchar\cyrzdsc}");
  (0x049A, u "{\cyrchar\CYRKDSC}");
  (0x049B, u "{\cyrchar\cyrkdsc}");
  (0x049C, u "{\cyrchar\CYRKVCRS}");
  (0x049D, u "{\cyrchar\cyrkvcrs}");
  (0x049E, u "{\cyrchar\CYRKHCRS}");
  (0x049F, u "{\cyrchar\cyrkhcrs}");
  (0x04A0, u "{\cyrchar\CYRKBEAK}");
  (0x04A1, u "{\cyrchar\cyrkbeak}");
  (0x04A2, u "{\cyrchar\CYRNDSC}");
  (0x04A3, u "{\cyrchar\cyrndsc}");
  (0x04A4, u "{\cyrchar\CYRNG}");
  (0x04A5, u "{\cyrchar\cyrng}");
  (0x04A6, u "{\cyrchar\CYRPHK}");
  (0x04A7, u "{\cyrchar\cyrphk}");
  (0x04A8, u "{\cyrchar\CYRABHHA}");
  (0x04A9, u "{\cyrchar\cyrabhha}");
  (0x04AA, u "{\cyrchar\CYRSDSC}");
  (0x04AB, u "{\cyrchar\cyrsdsc}");
  (0x04AC, u "{\cyrchar\CYRTDSC}");
  (0x04AD, u "{\cyrchar\cyrtdsc}");
  (0x04AE, u "{\cyrchar\CYRY}");
  (0x04AF, u "{\cyrchar\cyry}");
  (0x04B0, u "{\cyrchar\CYRYHCRS}");
  (0x04B1, u "{\cyrchar\cyryhcrs}");
  (0x04B2, u "{\cyrchar\CYRHDSC}");
  (0x04B3, u "{\cyrchar\cyrhdsc}");
  (0x04B4, u "{\cyrchar\CYRTETSE}");
  (0x04B5, u "{\cyrchar\cyrtetse}");
  (0x04B6, u "{\cyrchar\CYRCHRDSC}");
  (0x04B7, u "{\cyrchar\cyrchrdsc}");
  (0x04B8, u "{\cyrchar\CYRCHVCRS}");
  (0x04B9, u "{\cyrchar\cyrchvcrs}");
  (0x04BA, u "{\cyrchar\CYRSHHA}");
  (0x04BB, u "{\cyrchar\cyrshha}");
  (0x04BC, u "{\cyrchar\CYRABHCH}");
  (0x04BD, u "{\cyrchar\cyrabhch}");
  (0x04BE, u "{\cyrchar\CYRABHCHDSC}");
  (0x04BF, u "{\cyrchar\cyrabhchdsc}");
  (0x04C0, u "{\cyrchar\CYRpalochka}");
  (0x04C3, u "{\cyrchar\CYRKHK}");
  (0x04C4, u "{\cyrchar\cyrkhk}");
  (0x04C7, u "{\cyrchar\CYRNHK}");
  (0x04C8, u "{\cyrchar\cyrnhk}");
  (0x04CB, u "{\cyrchar\CYRCHLDSC}");
  (0x04CC, u "{\cyrchar\cyrchldsc}");
  (0x04D4, u "{\cyrchar\CYRAE}");
  (0x04D5, u "{\cyrchar\cyrae}");
  (0x04D8, u "{\cyrchar\CYRSCHWA}");
  (0x04D9, u "{\cyrchar\cyrschwa}");
  (0x04E0, u "{\cyrchar\CYRABHDZE}");
  (0x04E1, u "{\cyrchar\cyrabhdze}");
  (0x04E8, u "{\cyrchar\CYROTLD}");
  (0x04E9, u "{\cyrchar\cyrotld}");
  (0x2002, u "{\hspace{0.6em}}");
  (0x2003, u "{\hspace{1em}}");
  (0x2004, u "{\hspace{0.33em}}");
  (0x2005, u "{\hspace{0.25em}}");
  (0x2006, u "{\hspace{0.166em}}");
  (0x2007, u "{\hphantom{0}}");
  (0x2008, u "{\hphantom{,}}");
  (0x2009, u "{\hspace{0.167em}}");
  (0x200A, u "{\mkern1mu}");
  (0x2010, u "-");
  (0x2013, u "{\textendash}");
  (0x2014, u "{\textemdash}");
  (0x2015, u "{\rule{1em}{1pt}}");
  (0x2016, u "$\Vert$");
  (0x2018, u "`");
  (0x2019, u "'");
  (0x201A, u ",");
  (0x201B, u "{\Elzreapos}");
  (0x201C, u "{\textquotedblleft}");
  (0x201D, u "{\textquotedblright}");
  (0x201E, u ",,");
  (0x2020, u "{\textdagger}");
  (0x2021, u "{\textdaggerdbl}");
  (0x2022, u "{\textbullet}");
  (0x2024, u ".");
  (0x2025, u "..");
  (0x2026, u "{\ldots}");
  (0x2030, u "{\textperthousand}");
  (0x2031, u "{\textpertenthousand}");
  (0x2032, u "$\prime$");
  (0x2033, u "$\dprime$");
  (0x2034, u "$\trprime$");
  (0x2035, u "$\backprime$");
  (0x2039, u "{\guilsinglleft}");
  (0x203A, u "{\guilsinglright}");
  (0x2057, u "$\qprime$");
  (0x205F, u "{\mkern4mu}");
  (0x2060, u "{\nolinebreak}");
  (0x20A7, u "{\ensuremath{\Elzpes}}");
  (0x20AC, u "{\mbox{\texteuro}}");
  (0x20DB, u "$\dddot$");
  (0x20DC, u "$\ddddot$");
  (0x2102, u "$\BbbC$");
  (0x210A, u "$\mathscr{g}$");
  (0x210B, u "$\mscrH$");
  (0x210C, u "$\mfrakH$");
  (0x210D, u "$\BbbH$");
  (0x210F, u "$\hslash$");
  (0x2110, u "$\mscrI$");
  (0x2111, u "$\Im$");
  (0x2112, u "$\mscrL$");
  (0x2113, u "$\ell$");
  (0x2115, u "$\BbbN$");
  (0x2116, u "{\cyrchar\textnumero}");
  (0x2118, u "$\wp$");
  (0x2119, u "$\BbbP$");
  (0x211A, u "$\BbbQ$");
  (0x211B, u "$\mscrR$");
  (0x211C, u "$\Re$");
  (0x211D, u "$\BbbR$");
  (0x211E, u "{\Elzxrat}");
  (0x2122, u "{\texttrademark}");
  (0x2124, u "$\BbbZ$");
  (0x2126, u "{\Omega}");
  (0x2127, u "$\mho$");
  (0x2128, u "$\mfrakZ$");
  (0x2129, u "$\turnediota$");
  (0x212B, u "{\AA}");
  (0x212C, u "$\mscrB$");
  (0x212D, u "$\mfrakC$");
  (0x212F, u "$\mscre$");
  (0x2130, u "$\mscrE$");
  (0x2131, u "$\mscrF$");
  (0x2133, u "$\mscrM$");
  (0x2134, u "$\mscro$");
  (0x2135, u "$\aleph$");
  (0x2136, u "$\beth$");
  (0x2137, u "$\gimel$");
  (0x2138, u "$\daleth$");
  (0x2153, u "{\textfrac{1}{3}}");
  (0x2154, u "{\textfrac{2}{3}}");
  (0x2155, u "{\textfrac{1}{5}}");
  (0x2156, u "{\textfrac{2}{5}}");
  (0x2157, u "{\textfrac{3}{5}}");
  (0x2158, u "{\textfrac{4}{5}}");
  (0x2159, u "{\textfrac{1}{6}}");
  (0x215A, u "{\textfrac{5}{6}}");
  (0x215B, u "{\textfrac{1}{8}}");
  (0x215C, u "{\textfrac{3}{8}}");
  (0x215D, u "{\textfrac{5}{8}}");
  (0x215E, u "{\textfrac{7}{8}}");
  (0x2190, u "$\leftarrow$");
  (0x2191, u "$\uparrow$");
  (0x2192, u "$\rightarrow$");
  (0x2193, u "$\downarrow$");
  (0x2194, u "$\leftrightarrow$");
  (0x2195, u "$\updownarrow$");
  (0x2196, u "$\nwarrow$");
  (0x2197, u "$\nearrow$");
  (0x2198, u "$\searrow$");
  (0x2199, u "$\swarrow$");
  (0x219A, u "$\nleftarrow$");
  (0x219B, u "$\nrightarrow$");
  (0x219C, u "$\leftwavearrow$");
  (0x219D, u "$\rightwavearrow$");
  (0x219E, u "$\twoheadleftarrow$");
  (0x21A0, u "$\twoheadrightarrow$");
  (0x21A2, u "$\leftarrowtail$");
  (0x21A3, u "$\rightarrowtail$");
  (0x21A6, u "$\mapsto$");
  (0x21A9, u "$\hookleftarrow$");
  (0x21AA, u "$\hookrightarrow$");
  (0x21AB, u "$\looparrowleft$");
  (0x21AC, u "$\looparrowright$");
  (0x21AD, u "$\leftrightsquigarrow$");
  (0x21AE, u "$\nleftrightarrow$");
  (0x21B0, u "$\Lsh$");
  (0x21B1, u "$\Rsh$");
  (0x21B3, u "$\Rdsh$");
  (0x21B6, u "$\curvearrowleft$");
  (0x21B7, u "$\curvearrowright$");
  (0x21BA, u "$\acwopencirclearrow$");
  (0x21BB, u "$\cwopencirclearrow$");
  (0x21BC, u "$\leftharpoonup$");
  (0x21BD, u "$\leftharpoondown$");
  (0x21BE, u "$\upharpoonright$");
  (0x21BF, u "$\upharpoonleft$");
  (0x21C0, u "$\rightharpoonup$");
  (0x21C1, u "$\rightharpoondown$");
  (0x21C2, u "$\downharpoonright$");
  (0x21C3, u "$\downharpoonleft$");
  (0x21C4, u "$\rightleftarrows$");
  (0x21C5, u "$\updownarrows$");
  (0x21C6, u "$\leftrightarrows$");
  (0x21C7, u "$\leftleftarrows$");
  (0x21C8, u "$\upuparrows$");
  (0x21C9, u "$\rightrightarrows$");
  (0x21CA, u "$\downdownarrows$");
  (0x21CB, u "$\leftrightharpoons$");
  (0x21CC, u "$\rightleftharpoons$");
  (0x21CD, u "$\nLeftarrow$");
  (0x21CE, u "$\nLeftrightarrow$");
  (0x21CF, u "$\nRightarrow$");
  (0x21D0, u "$\Leftarrow$");
  (0x21D1, u "$\Uparrow$");
  (0x21D2, u "$\Rightarrow$");
  (0x21D3, u "$\Downarrow$");
  (0x21D4, u "$\Leftrightarrow$");
  (0x21D5, u "$\Updownarrow$");
  (0x21DA, u "$\Lleftarrow$");
  (0x21DB, u "$\Rrightarrow$");
  (0x21DD, u "$\rightsquigarrow$");
  (0x21F5, u "$\downuparrows$");
  (0x2200, u "$\forall$");
  (0x2201, u "$\complement$");
  (0x2202, u "$\partial$");
  (0x2203, u "$\exists$");
  (0x2204, u "$\nexists$");
  (0x2205, u "$\varnothing$");
  (0x2207, u "$\nabla$");
  (0x2208, u "$\in$");
  (0x2209, u "$\notin$");
  (0x220B, u "$\ni$");
  (0x220C, u "$\nni$");
  (0x220F, u "$\prod$");
  (0x2210, u "$\coprod$");
  (0x2211, u "$\sum$");
  (0x2212, u "-");
  (0x2213, u "$\mp$");
  (0x2214, u "$\dotplus$");
  (0x2216, u "$\smallsetminus$");
  (0x2217, u "$\ast$");
  (0x2218, u "$\vysmwhtcircle$");
  (0x2219, u "$\vysmblkcircle$");
  (0x221A, u "$\sqrt$");
  (0x221D, u "$\propto$");
  (0x221E, u "$\infty$");
  (0x221F, u "$\rightangle$");
  (0x2220, u "$\angle$");
  (0x2221, u "$\measuredangle$");
  (0x2222, u "$\sphericalangle$");
  (0x2223, u "$\mid$");
  (0x2224, u "$\nmid$");
  (0x2225, u "$\parallel$");
  (0x2226, u "$\nparallel$");
  (0x2227, u "$\wedge$");
  (0x2228, u "$\vee$");
  (0x2229, u "$\cap$");
  (0x222A, u "$\cup$");
  (0x222B, u "$\int$");
  (0x222C, u "$\iint$");
  (0x222D, u "$\iiint$");
  (0x222E, u "$\oint$");
  (0x222F, u "$\oiint$");
  (0x2230, u "$\oiiint$");
  (0x2231, u "$\intclockwise$");
  (0x2232, u "$\varointclockwise$");
  (0x2233, u "$\ointctrclockwise$");
  (0x2234, u "$\therefore$");
  (0x2235, u "$\because$");
  (0x2237, u "$\Colon$");
  (0x2238, u "$\dotminus$");
  (0x223A, u "$\dotsminusdots$");
  (0x223B, u "$\kernelcontraction$");
  (0x223C, u "$\sim$");
  (0x223D, u "$\backsim$");
  (0x223E, u "$\invlazys$");
  (0x2240, u "$\wr$");
  (0x2241, u "$\nsim$");
  (0x2242, u "$\eqsim$");
  (0x2243, u "$\simeq$");
  (0x2244, u "$\nsime$");
  (0x2245, u "$\cong$");
  (0x2246, u "$\simneqq$");
  (0x2247, u "$\ncong$");
  (0x2248, u "$\approx$");
  (0x2249, u "$\napprox$");
  (0x224A, u "$\approxeq$");
  (0x224B, u "$\approxident$");
  (0x224C, u "$\backcong$");
  (0x224D, u "$\asymp$");
  (0x224E, u "$\Bumpeq$");
  (0x224F, u "$\bumpeq$");
  (0x2250, u "$\doteq$");
  (0x2251, u "$\Doteq$");
  (0x2252, u "$\fallingdotseq$");
  (0x2253, u "$\risingdotseq$");
  (0x2254, u ":=");
  (0x2255, u "$\eqcolon$");
  (0x2256, u "$\eqcirc$");
  (0x2257, u "$\circeq$");
  (0x2259, u "$\wedgeq$");
  (0x225A, u "$\veeeq$");
  (0x225B, u "$\stareq$");
  (0x225C, u "$\triangleq$");
  (0x225F, u "$\questeq$");
  (0x2260, u "$\ne$");
  (0x2261, u "$\equiv$");
  (0x2262, u "$\nequiv$");
  (0x2264, u "$\leq$");
  (0x2265, u "$\geq$");
  (0x2266, u "$\leqq$");
  (0x2267, u "$\geqq$");
  (0x2268, u "$\lneqq$");
  (0x2269, u "$\gneqq$");
  (0x226A, u "$\ll$");
  (0x226B, u "$\gg$");
  (0x226C, u "$\between$");
  (0x226D, u "$\nasymp$");
  (0x226E, u "$\nless$");
  (0x226F, u "$\ngtr$");
  (0x2270, u "$\nleq$");
  (0x2271, u "$\ngeq$");
  (0x2272, u "$\lesssim$");
  (0x2273, u "$\gtrsim$");
  (0x2274, u "$\nlesssim$");
  (0x2275, u "$\ngtrsim$");
  (0x2276, u "$\lessgtr$");
  (0x2277, u "$\gtrless$");
  (0x2278, u "$\nlessgtr$");
  (0x2279, u "$\ngtrless$");
  (0x227A, u "$\prec$");
  (0x227B, u "$\succ$");
  (0x227C, u "$\preccurlyeq$");
  (0x227D, u "$\succcurlyeq$");
  (0x227E, u "$\precsim$");
  (0x227F, u "$\succsim$");
  (0x2280, u "$\nprec$");
  (0x2281, u "$\nsucc$");
  (0x2282, u "$\subset$");
  (0x2283, u "$\supset$");
  (0x2284, u "$\nsubset$");
  (0x2285, u "$\nsupset$");
  (0x2286, u "$\subseteq$");
  (0x2287, u "$\supseteq$");
  (0x2288, u "$\nsubseteq$");
  (0x2289, u "$\nsupseteq$");
  (0x228A, u "$\subsetneq$");
  (0x228B, u "$\supsetneq$");
  (0x228E, u "$\uplus$");
  (0x228F, u "$\sqsubset$");
  (0x2290, u "$\sqsupset$");
  (0x2291, u "$\sqsubseteq$");
  (0x2292, u "$\sqsupseteq$");
  (0x2293, u "$\sqcap$");
  (0x2294, u "$\sqcup$");
  (0x2295, u "$\oplus$");
  (0x2296, u "$\ominus$");
  (0x2297, u "$\otimes$");
  (0x2298, u "$\oslash$");
  (0x2299, u "$\odot$");
  (0x229A, u "$\circledcirc$");
  (0x229B, u "$\circledast$");
  (0x229D, u "$\circleddash$");
  (0x229E, u "$\boxplus$");
  (0x229F, u "$\boxminus$");
  (0x22A0, u "$\boxtimes$");
  (0x22A1, u "$\boxdot$");
  (0x22A2, u "$\vdash$");
  (0x22A3, u "$\dashv$");
  (0x22A4, u "$\top$");
  (0x22A5, u "$\bot$");
  (0x22A7, u "$\models$");
  (0x22A8, u "$\vDash$");
  (0x22A9, u "$\Vdash$");
  (0x22AA, u "$\Vvdash$");
  (0x22AB, u "$\VDash$");
  (0x22AC, u "$\nvdash$");
  (0x22AD, u "$\nvDash$");
  (0x22AE, u "$\nVdash$");
  (0x22AF, u "$\nVDash$");
  (0x22B2, u "$\vartriangleleft$");
  (0x22B3, u "$\vartriangleright$");
  (0x22B4, u "$\trianglelefteq$");
  (0x22B5, u "$\trianglerighteq$");
  (0x22B6, u "$\origof$");
  (0x22B7, u "$\imageof$");
  (0x22B8, u "$\multimap$");
  (0x22B9, u "$\hermitmatrix$");
  (0x22BA, u "$\intercal$");
  (0x22BB, u "$\veebar$");
  (0x22BE, u "$\measuredrightangle$");
  (0x22C0, u "$\bigwedge$");
  (0x22C1, u "$\bigvee$");
  (0x22C2, u "$\bigcap$");
  (0x22C3, u "$\bigcup$");
  (0x22C4, u "$\smwhtdiamond$");
  (0x22C5, u "$\cdot$");
  (0x22C6, u "$\star$");
  (0x22C7, u "$\divideontimes$");
  (0x22C8, u "$\bowtie$");
  (0x22C9, u "$\ltimes$");
  (0x22CA, u "$\rtimes$");
  (0x22CB, u "$\leftthreetimes$");
  (0x22CC, u "$\rightthreetimes$");
  (0x22CD, u "$\backsimeq$");
  (0x22CE, u "$\curlyvee$");
  (0x22CF, u "$\curlywedge$");
  (0x22D0, u "$\Subset$");
  (0x22D1, u "$\Supset$");
  (0x22D2, u "$\Cap$");
  (0x22D3, u "$\Cup$");
  (0x22D4, u "$\pitchfork$");
  (0x22D6, u "$\lessdot$");
  (0x22D7, u "$\gtrdot$");
  (0x22D8, u "$\lll$");
  (0x22D9, u "$\ggg$");
  (0x22DA, u "$\lesseqgtr$");
  (0x22DB, u "$\gtreqless$");
  (0x22DE, u "$\curlyeqprec$");
  (0x22DF, u "$\curlyeqsucc$");
  (0x22E2, u "$\nsqsubseteq$");
  (0x22E3, u "$\nsqsupseteq$");
  (0x22E5, u "$\sqsupsetneq$");
  (0x22E6, u "$\lnsim$");
  (0x22E7, u "$\gnsim$");
  (0x22E8, u "$\precnsim$");
  (0x22E9, u "$\succnsim$");
  (0x22EA, u "$\nvartriangleleft$");
  (0x22EB, u "$\nvartriangleright$");
  (0x22EC, u "$\ntrianglelefteq$");
  (0x22ED, u "$\ntrianglerighteq$");
  (0x22EE, u "$\vdots$");
  (0x22EF, u "$\unicodecdots$");
  (0x22F0, u "$\adots$");
  (0x22F1, u "$\ddots$");
  (0x2305, u "{\barwedge}");
  (0x2306, u "$\vardoublebarwedge$");
  (0x2308, u "$\lceil$");
  (0x2309, u "$\rceil$");
  (0x230A, u "$\lfloor$");
  (0x230B, u "$\rfloor$");
  (0x2315, u "{\recorder}");
  (0x231C, u "$\ulcorner$");
  (0x231D, u "$\urcorner$");
  (0x231E, u "$\llcorner$");
  (0x231F, u "$\lrcorner$");
  (0x2322, u "$\frown$");
  (0x2323, u "$\smile$");
  (0x233D, u "$\obar$");
  (0x23A3, u "$\lbracklend$");
  (0x23B0, u "$\lmoustache$");
  (0x23B1, u "$\rmoustache$");
  (0x2423, u "{\textvisiblespace}");
  (0x2460, u "{\ding{172}}");
  (0x2461, u "{\ding{173}}");
  (0x2462, u "{\ding{174}}");
  (0x2463, u "{\ding{175}}");
  (0x2464, u "{\ding{176}}");
  (0x2465, u "{\ding{177}}");
  (0x2466, u "{\ding{178}}");
  (0x2467, u "{\ding{179}}");
  (0x2468, u "{\ding{180}}");
  (0x2469, u "{\ding{181}}");
  (0x24C8, u "{\circledS}");
  (0x2506, u "$\bdtriplevdash$");
  (0x2519, u "{\Elzsqfnw}");
  (0x2571, u "{\diagup}");
  (0x25A0, u "{\ding{110}}");
  (0x25A1, u "$\mdlgwhtsquare$");
  (0x25AA, u "$\smblksquare$");
  (0x25AD, u "$\hrectangle$");
  (0x25AF, u "$\vrectangle$");
  (0x25B1, u "$\parallelogram$");
  (0x25B2, u "{\ding{115}}");
  (0x25B3, u "$\bigtriangleup$");
  (0x25B4, u "$\blacktriangle$");
  (0x25B5, u "$\vartriangle$");
  (0x25B8, u "$\smallblacktriangleright$");
  (0x25B9, u "$\smalltriangleright$");
  (0x25BC, u "{\ding{116}}");
  (0x25BD, u "$\bigtriangledown$");
  (0x25BE, u "$\blacktriangledown$");
  (0x25BF, u "$\triangledown$");
  (0x25C2, u "$\smallblacktriangleleft$");
  (0x25C3, u "$\smalltriangleleft$");
  (0x25C6, u "{\ding{117}}");
  (0x25CA, u "$\mdlgwhtlozenge$");
  (0x25CB, u "$\mdlgwhtcircle$");
  (0x25CF, u "{\ding{108}}");
  (0x25D0, u "$\circlelefthalfblack$");
  (0x25D1, u "$\circlerighthalfblack$");
  (0x25D2, u "$\circlebottomhalfblack$");
  (0x25D7, u "{\ding{119}}");
  (0x25D8, u "$\inversebullet$");
  (0x25E7, u "$\squareleftblack$");
  (0x25E8, u "$\squarerightblack$");
  (0x25EA, u "$\squarelrblack$");
  (0x25EF, u "$\lgwhtcircle$");
  (0x2605, u "{\ding{72}}");
  (0x2606, u "{\ding{73}}");
  (0x260E, u "{\ding{37}}");
  (0x261B, u "{\ding{42}}");
  (0x261E, u "{\ding{43}}");
  (0x263E, u "{\rightmoon}");
  (0x263F, u "{\mercury}");
  (0x2640, u "{\venus}");
  (0x2642, u "{\male}");
  (0x2643, u "{\jupiter}");
  (0x2644, u "{\saturn}");
  (0x2645, u "{\uranus}");
  (0x2646, u "{\neptune}");
  (0x2647, u "{\pluto}");
  (0x2648, u "{\aries}");
  (0x2649, u "{\taurus}");
  (0x264A, u "{\gemini}");
  (0x264B, u "{\cancer}");
  (0x264C, u "{\leo}");
  (0x264D, u "{\virgo}");
  (0x264E, u "{\libra}");
  (0x264F, u "{\scorpio}");
  (0x2650, u "{\sagittarius}");
  (0x2651, u "{\capricornus}");
  (0x2652, u "{\aquarius}");
  (0x2653, u "{\pisces}");
  (0x2660, u "{\ding{171}}");
  (0x2662, u "$\diamondsuit$");
  (0x2663, u "{\ding{168}}");
  (0x2665, u "{\ding{170}}");
  (0x2666, u "{\ding{169}}");
  (0x2669, u "{\quarternote}");
  (0x266A, u "{\eighthnote}");
  (0x266D, u "$\flat$");
  (0x266E, u "$\natural$");
  (0x266F, u "$\sharp$");
  (0x2701, u "{\ding{33}}");
  (0x2702, u "{\ding{34}}");
  (0x2703, u "{\ding{35}}");
  (0x2704, u "{\ding{36}}");
  (0x2706, u "{\ding{38}}");
  (0x2707, u "{\ding{39}}");
  (0x2708, u "{\ding{40}}");
  (0x2709, u "{\ding{41}}");
  (0x270C, u "{\ding{44}}");
  (0x270D, u "{\ding{45}}");
  (0x270E, u "{\ding{46}}");
  (0x270F, u "{\ding{47}}");
  (0x2710, u "{\ding{48}}");
  (0x2711, u "{\ding{49}}");
  (0x2712, u "{\ding{50}}");
  (0x2713, u "{\ding{51}}");
  (0x2714, u "{\ding{52}}");
  (0x2715, u "{\ding{53}}");
  (0x2716, u "{\ding{54}}");
  (0x2717, u "{\ding{55}}");
  (0x2718, u "{\ding{56}}");
  (0x2719, u "{\ding{57}}");
  (0x271A, u "{\ding{58}}");
  (0x271B, u "{\ding{59}}");
  (0x271C, u "{\ding{60}}");
  (0x271D, u "{\ding{61}}");
  (0x271E, u "{\ding{62}}");
  (0x271F, u "{\ding{63}}");
  (0x2720, u "{\ding{64}}");
  (0x2721, u "{\ding{65}}");
  (0x2722, u "{\ding{66}}");
  (0x2723, u "{\ding{67}}");
  (0x2724, u "{\ding{68}}");
  (0x2725, u "{\ding{69}}");
  (0x2726, u "{\ding{70}}");
  (0x2727, u "{\ding{71}}");
  (0x2729, u "{\ding{73}}");
  (0x272A, u "{\ding{74}}");
  (0x272B, u "{\ding{75}}");
  (0x272C, u "{\ding{76}}");
  (0x272D, u "{\ding{77}}");
  (0x272E, u "{\ding{78}}");
  (0x272F, u "{\ding{79}}");
  (0x2730, u "{\ding{80}}");
  (0x2731, u "{\ding{81}}");
  (0x2732, u "{\ding{82}}");
  (0x2733, u "{\ding{83}}");
  (0x2734, u "{\ding{84}}");
  (0x2735, u "{\ding{85}}");
  (0x2736, u "{\ding{86}}");
  (0x2737, u "{\ding{87}}");
  (0x2738, u "{\ding{88}}");
  (0x2739, u "{\ding{89}}");
  (0x273A, u "{\ding{90}}");
  (0x273B, u "{\ding{91}}");
  (0x273C, u "{\ding{92}}");
  (0x273D, u "{\ding{93}}");
  (0x273E, u "{\ding{94}}");
  (0x273F, u "{\ding{95}}");
  (0x2740, u "{\ding{96}}");
  (0x2741, u "{\ding{97}}");
  (0x2742, u "{\ding{98}}");
  (0x2743, u "{\ding{99}}");
  (0x2744, u "{\ding{100}}");
  (0x2745, u "{\ding{101}}");
  (0x2746, u "{\ding{102}}");
  (0x2747, u "{\ding{103}}");
  (0x2748, u "{\ding{104}}");
  (0x2749, u "{\ding{105}}");
  (0x274A, u "{\ding{106}}");
  (0x274B, u "{\ding{107}}");
  (0x274D, u "{\ding{109}}");
  (0x274F, u "{\ding{111}}");
  (0x2750, u "{\ding{112}}");
  (0x2751, u "{\ding{113}}");
  (0x2752, u "{\ding{114}}");
  (0x2756, u "{\ding{118}}");
  (0x2758, u "{\ding{120}}");
  (0x2759, u "{\ding{121}}");
  (0x275A, u "{\ding{122}}");
  (0x275B, u "{\ding{123}}");
  (0x275C, u "{\ding{124}}");
  (0x275D, u "{\ding{125}}");
  (0x275E, u "{\ding{126}}");
  (0x2761, u "{\ding{161}}");
  (0x2762, u "{\ding{162}}");
  (0x2763, u "{\ding{163}}");
  (0x2764, u "{\ding{164}}");
  (0x2765, u "{\ding{165}}");
  (0x2766, u "{\ding{166}}");
  (0x2767, u "{\ding{167}}");
  (0x2776, u "{\ding{182}}");
  (0x2777, u "{\ding{183}}");
  (0x2778, u "{\ding{184}}");
  (0x2779, u "{\ding{185}}");
  (0x277A, u "{\ding{186}}");
  (0x277B, u "{\ding{187}}");
  (0x277C, u "{\ding{188}}");
  (0x277D, u "{\ding{189}}");
  (0x277E, u "{\ding{190}}");
  (0x277F, u "{\ding{191}}");
  (0x2780, u "{\ding{192}}");
  (0x2781, u "{\ding{193}}");
  (0x2782, u "{\ding{194}}");
  (0x2783, u "{\ding{195}}");
  (0x2784, u "{\ding{196}}");
  (0x2785, u "{\ding{197}}");
  (0x2786, u "{\ding{198}}");
  (0x2787, u "{\ding{199}}");
  (0x2788, u "{\ding{200}}");
  (0x2789, u "{\ding{201}}");
  (0x278A, u "{\ding{202}}");
  (0x278B, u "{\ding{203}}");
  (0x278C, u "{\ding{204}}");
  (0x278D, u "{\ding{205}}");
  (0x278E, u "{\ding{206}}");
  (0x278F, u "{\ding{207}}");
  (0x2790, u "{\ding{208}}");
  (0x2791, u "{\ding{209}}");
  (0x2792, u "{\ding{210}}");
  (0x2793, u "{\ding{211}}");
  (0x2794, u "{\ding{212}}");
  (0x2798, u "{\ding{216}}");
  (0x2799, u "{\ding{217}}");
  (0x279A, u "{\ding{218}}");
  (0x279B, u "{\ding{219}}");
  (0x279C, u "{\ding{220}}");
  (0x279D, u "{\ding{221}}");
  (0x279E, u "{\ding{222}}");
  (0x279F, u "{\ding{223}}");
  (0x27A0, u "{\ding{224}}");
  (0x27A1, u "{\ding{225}}");
  (0x27A2, u "{\ding{226}}");
  (0x27A3, u "{\ding{227}}");
  (0x27A4, u "{\ding{228}}");
  (0x27A5, u "{\ding{229}}");
  (0x27A6, u "{\ding{230}}");
  (0x27A7, u "{\ding{231}}");
  (0x27A8, u "{\ding{232}}");
  (0x27A9, u "{\ding{233}}");
  (0x27AA, u "{\ding{234}}");
  (0x27AB, u "{\ding{235}}");
  (0x27AC, u "{\ding{236}}");
  (0x27AD, u "{\ding{237}}");
  (0x27AE, u "{\ding{238}}");
  (0x27AF, u "{\ding{239}}");
  (0x27B1, u "{\ding{241}}");
  (0x27B2, u "{\ding{242}}");
  (0x27B3, u "{\ding{243}}");
  (0x27B4, u "{\ding{244}}");
  (0x27B5, u "{\ding{245}}");
  (0x27B6, u "{\ding{246}}");
  (0x27B7, u "{\ding{247}}");
  (0x27B8, u "{\ding{248}}");
  (0x27B9, u "{\ding{249}}");
  (0x27BA, u "{\ding{250}}");
  (0x27BB, u "{\ding{251}}");
  (0x27BC, u "{\ding{252}}");
  (0x27BD, u "{\ding{253}}");
  (0x27BE, u "{\ding{254}}");
  (0x27E8, u "{\langle}");
  (0x27E9, u "{\rangle}");
  (0x27F5, u "$\longleftarrow$");
  (0x27F6, u "$\longrightarrow$");
  (0x27F7, u "$\longleftrightarrow$");
  (0x27F8, u "$\Longleftarrow$");
  (0x27F9, u "$\Longrightarrow$");
  (0x27FA, u "$\Longleftrightarrow$");
  (0x27FC, u "$\longmapsto$");
  (0x27FF, u "$\longrightsquigarrow$");
  (0x2905, u "$\twoheadmapsto$");
  (0x2912, u "$\baruparrow$");
  (0x2913, u "$\downarrowbar$");
  (0x2923, u "$\hknwarrow$");
  (0x2924, u "$\hknearrow$");
  (0x2925, u "$\hksearow$");
  (0x2926, u "$\hkswarow$");
  (0x2927, u "$\tona$");
  (0x2928, u "$\toea$");
  (0x2929, u "$\tosa$");
  (0x292A, u "$\towa$");
  (0x2933, u "$\rightcurvedarrow$");
  (0x2936, u "$\leftdowncurvedarrow$");
  (0x2937, u "$\rightdowncurvedarrow$");
  (0x2940, u "$\acwcirclearrow$");
  (0x2941, u "$\cwcirclearrow$");
  (0x2942, u "$\rightarrowshortleftarrow$");
  (0x2944, u "$\shortrightarrowleftarrow$");
  (0x2947, u "$\rightarrowx$");
  (0x294E, u "$\leftrightharpoonupup$");
  (0x294F, u "$\updownharpoonrightright$");
  (0x2950, u "$\leftrightharpoondowndown$");
  (0x2951, u "$\updownharpoonleftleft$");
  (0x2952, u "$\barleftharpoonup$");
  (0x2953, u "$\rightharpoonupbar$");
  (0x2954, u "$\barupharpoonright$");
  (0x2955, u "$\downharpoonrightbar$");
  (0x2956, u "$\barleftharpoondown$");
  (0x2957, u "$\rightharpoondownbar$");
  (0x2958, u "$\barupharpoonleft$");
  (0x2959, u "$\downharpoonleftbar$");
  (0x295A, u "$\leftharpoonupbar$");
  (0x295B, u "$\barrightharpoonup$");
  (0x295C, u "$\upharpoonrightbar$");
  (0x295D, u "$\bardownharpoonright$");
  (0x295E, u "$\leftharpoondownbar$");
  (0x295F, u "$\barrightharpoondown$");
  (0x2960, u "$\upharpoonleftbar$");
  (0x2961, u "$\bardownharpoonleft$");
  (0x296E, u "$\updownharpoonsleftright$");
  (0x296F, u "$\downupharpoonsleftright$");
  (0x2970, u "$\rightimply$");
  (0x297C, u "$\leftfishtail$");
  (0x297D, u "$\rightfishtail$");
  (0x2980, u "$\Vvert$");
  (0x2985, u "$\lParen$");
  (0x2986, u "$\rParen$");
  (0x2993, u "$\lparenless$");
  (0x2994, u "$\rparengtr$");
  (0x2999, u "$\fourvdots$");
  (0x299C, u "$\rightanglesqr$");
  (0x29A0, u "$\gtlpar$");
  (0x29B5, u "$\circlehbar$");
  (0x29B6, u "$\circledvert$");
  (0x29CA, u "$\triangleodot$");
  (0x29CB, u "$\triangleubar$");
  (0x29CF, u "$\ltrivb$");
  (0x29D0, u "$\vbrtri$");
  (0x29DC, u "$\iinfin$");
  (0x29EB, u "$\mdlgblklozenge$");
  (0x29F4, u "$\ruledelayed$");
  (0x2A04, u "$\biguplus$");
  (0x2A05, u "$\bigsqcap$");
  (0x2A06, u "$\bigsqcup$");
  (0x2A07, u "$\conjquant$");
  (0x2A08, u "$\disjquant$");
  (0x2A0D, u "$\intbar$");
  (0x2A0F, u "$\fint$");
  (0x2A10, u "$\cirfnint$");
  (0x2A16, u "$\sqint$");
  (0x2A25, u "$\plusdot$");
  (0x2A2A, u "$\minusdot$");
  (0x2A2D, u "$\opluslhrim$");
  (0x2A2E, u "$\oplusrhrim$");
  (0x2A2F, u "$\vectimes$");
  (0x2A34, u "$\otimeslhrim$");
  (0x2A35, u "$\otimesrhrim$");
  (0x2A3C, u "$\intprod$");
  (0x2A3F, u "$\amalg$");
  (0x2A53, u "$\Wedge$");
  (0x2A54, u "$\Vee$");
  (0x2A55, u "$\wedgeonwedge$");
  (0x2A56, u "$\veeonvee$");
  (0x2A5E, u "$\doublebarwedge$");
  (0x2A5F, u "$\wedgebar$");
  (0x2A63, u "$\veedoublebar$");
  (0x2A6E, u "$\asteq$");
  (0x2A75, u "$\eqeq$");
  (0x2A7D, u "$\leqslant$");
  (0x2A7E, u "$\geqslant$");
  (0x2A85, u "$\lessapprox$");
  (0x2A86, u "$\gtrapprox$");
  (0x2A87, u "$\lneq$");
  (0x2A88, u "$\gneq$");
  (0x2A89, u "$\lnapprox$");
  (0x2A8A, u "$\gnapprox$");
  (0x2A8B, u "$\lesseqqgtr$");
  (0x2A8C, u "$\gtreqqless$");
  (0x2A95, u "$\eqslantless$");
  (0x2A96, u "$\eqslantgtr$");
  (0x2A9D, u "$\simless$");
  (0x2A9E, u "$\simgtr$");
  (0x2AA1, u "$\Lt$");
  (0x2AA2, u "$\Gt$");
  (0x2AAF, u "$\preceq$");
  (0x2AB0, u "$\succeq$");
  (0x2AB5, u "$\precneqq$");
  (0x2AB6, u "$\succneqq$");
  (0x2AB7, u "$\precapprox$");
  (0x2AB8, u "$\succapprox$");
  (0x2AB9, u "$\precnapprox$");
  (0x2ABA, u "$\succnapprox$");
  (0x2AC5, u "$\subseteqq$");
  (0x2AC6, u "$\supseteqq$");
  (0x2ACB, u "$\subsetneqq$");
  (0x2ACC, u "$\supsetneqq$");
  (0x2AEB, u "$\Vbar$");
  (0x2AF6, u "$\threedotcolon$");
  (0x2AFD, u "$\sslash$");
  (0x300A, u "{\ElsevierGlyph{300A}}");
  (0x300B, u "{\ElsevierGlyph{300B}}");
  (0x3018, u "$\Lbrbrak$");
  (0x3019, u "$\Rbrbrak$");
  (0x301A, u "{\openbracketleft}");
  (0x301B, u "{\openbracketright}");
  (0xFB00, u "ff");
  (0xFB01, u "fi");
  (0xFB02, u "fl");
  (0xFB03, u "ffi");
  (0xFB04, u "ffl");
  (0xD400, u "$\mbfA$");
  (0xD401, u "$\mbfB$");
  (0xD402, u "$\mbfC$");
  (0xD403, u "$\mbfD$");
  (0xD404, u "$\mbfE$");
  (0xD405, u "$\mbfF$");
  (0xD406, u "$\mbfG$");
  (0xD407, u "$\mbfH$");
  (0xD408, u "$\mbfI$");
  (0xD409, u "$\mbfJ$");
  (0xD40A, u "$\mbfK$");
  (0xD40B, u "$\mbfL$");
  (0xD40C, u "$\mbfM$");
  (0xD40D, u "$\mbfN$");
  (0xD40E, u "$\mbfO$");
  (0xD40F, u "$\mbfP$");
  (0xD410, u "$\mbfQ$");
  (0xD411, u "$\mbfR$");
  (0xD412, u "$\mbfS$");
  (0xD413, u "$\mbfT$");
  (0xD414, u "$\mbfU$");
  (0xD415, u "$\mbfV$");
  (0xD416, u "$\mbfW$");
  (0xD417, u "$\mbfX$");
  (0xD418, u "$\mbfY$");
  (0xD419, u "$\mbfZ$");
  (0xD41A, u "$\mbfa$");
  (0xD41B, u "$\mbfb$");
  (0xD41C, u "$\mbfc$");
  (0xD41D, u "$\mbfd$");
  (0xD41E, u "$\mbfe$");
  (0xD41F, u "$\mbff$");
  (0xD420, u "$\mbfg$");
  (0xD421, u "$\mbfh$");
  (0xD422, u "$\mbfi$");
  (0xD423, u "$\mbfj$");
  (0xD424, u "$\mbfk$");
  (0xD425, u "$\mbfl$");
  (0xD426, u "$\mbfm$");
  (0xD427, u "$\mbfn$");
  (0xD428, u "$\mbfo$");
  (0xD429, u "$\mbfp$");
  (0xD42A, u "$\mbfq$");
  (0xD42B, u "$\mbfr$");
  (0xD42C, u "$\mbfs$");
  (0xD42D, u "$\mbft$");
  (0xD42E, u "$\mbfu$");
  (0xD42F, u "$\mbfv$");
  (0xD430, u "$\mbfw$");
  (0xD431, u "$\mbfx$");
  (0xD432, u "$\mbfy$");
  (0xD433, u "$\mbfz$");
  (0xD434, u "$\mitA$");
  (0xD435, u "$\mitB$");
  (0xD436, u "$\mitC$");
  (0xD437, u "$\mitD$");
  (0xD438, u "$\mitE$");
  (0xD439, u "$\mitF$");
  (0xD43A, u "$\mitG$");
  (0xD43B, u "$\mitH$");
  (0xD43C, u "$\mitI$");
  (0xD43D, u "$\mitJ$");
  (0xD43E, u "$\mitK$");
  (0xD43F, u "$\mitL$");
  (0xD440, u "$\mitM$");
  (0xD441, u "$\mitN$");
  (0xD442, u "$\mitO$");
  (0xD443, u "$\mitP$");
  (0xD444, u "$\mitQ$");
  (0xD445, u "$\mitR$");
  (0xD446, u "$\mitS$");
  (0xD447, u "$\mitT$");
  (0xD448, u "$\mitU$");
  (0xD449, u "$\mitV$");
  (0xD44A, u "$\mitW$");
  (0xD44B, u "$\mitX$");
  (0xD44C, u "$\mitY$");
  (0xD44D, u "$\mitZ$");
  (0xD44E, u "$\mita$");
  (0xD44F, u "$\mitb$");
  (0xD450, u "$\mitc$");
  (0xD451, u "$\mitd$");
  (0xD452, u "$\mite$");
  (0xD453, u "$\mitf$");
  (0xD454, u "$\mitg$");
  (0xD456, u "$\miti$");
  (0xD457, u "$\mitj$");
  (0xD458, u "$\mitk$");
  (0xD459, u "$\mitl$");
  (0xD45A, u "$\mitm$");
  (0xD45B, u "$\mitn$");
  (0xD45C, u "$\mito$");
  (0xD45D, u "$\mitp$");
  (0xD45E, u "$\mitq$");
  (0xD45F, u "$\mitr$");
  (0xD460, u "$\mits$");
  (0xD461, u "$\mitt$");
  (0xD462, u "$\mitu$");
  (0xD463, u "$\mitv$");
  (0xD464, u "$\mitw$");
  (0xD465, u "$\mitx$");
  (0xD466, u "$\mity$");
  (0xD467, u "$\mitz$");
  (0xD468, u "$\mbfitA$");
  (0xD469, u "$\mbfitB$");
  (0xD46A, u "$\mbfitC$");
  (0xD46B, u "$\mbfitD$");
  (0xD46C, u "$\mbfitE$");
  (0xD46D, u "$\mbfitF$");
  (0xD46E, u "$\mbfitG$");
  (0xD46F, u "$\mbfitH$");
  (0xD470, u "$\mbfitI$");
  (0xD471, u "$\mbfitJ$");
  (0xD472, u "$\mbfitK$");
  (0xD473, u "$\mbfitL$");
  (0xD474, u "$\mbfitM$");
  (0xD475, u "$\mbfitN$");
  (0xD476, u "$\mbfitO$");
  (0xD477, u "$\mbfitP$");
  (0xD478, u "$\mbfitQ$");
  (0xD479, u "$\mbfitR$");
  (0xD47A, u "$\mbfitS$");
  (0xD47B, u "$\mbfitT$");
  (0xD47C, u "$\mbfitU$");
  (0xD47D, u "$\mbfitV$");
  (0xD47E, u "$\mbfitW$");
  (0xD47F, u "$\mbfitX$");
  (0xD480, u "$\mbfitY$");
  (0xD481, u "$\mbfitZ$");
  (0xD482, u "$\mbfita$");
  (0xD483, u "$\mbfitb$");
  (0xD484, u "$\mbfitc$");
  (0xD485, u "$\mbfitd$");
  (0xD486, u "$\mbfite$");
  (0xD487, u "$\mbfitf$");
  (0xD488, u "$\mbfitg$");
  (0xD489, u "$\mbfith$");
  (0xD48A, u "$\mbfiti$");
  (0xD48B, u "$\mbfitj$");
  (0xD48C, u "$\mbfitk$");
  (0xD48D, u "$\mbfitl$");
  (0xD48E, u "$\mbfitm$");
  (0xD48F, u "$\mbfitn$");
  (0xD490, u "$\mbfito$");
  (0xD491, u "$\mbfitp$");
  (0xD492, u "$\mbfitq$");
  (0xD493, u "$\mbfitr$");
  (0xD494, u "$\mbfits$");
  (0xD495, u "$\mbfitt$");
  (0xD496, u "$\mbfitu$");
  (0xD497, u "$\mbfitv$");
  (0xD498, u "$\mbfitw$");
  (0xD499, u "$\mbfitx$");
  (0xD49A, u "$\mbfity$");
  (0xD49B, u "$\mbfitz$");
  (0xD49C, u "$\mscrA$");
  (0xD49E, u "$\mscrC$");
  (0xD49F, u "$\mscrD$");
  (0xD4A2, u "$\mscrG$");
  (0xD4A5, u "$\mscrJ$");
  (0xD4A6, u "$\mscrK$");
  (0xD4A9, u "$\mscrN$");
  (0xD4AA, u "$\mscrO$");
  (0xD4AB, u "$\mscrP$");
  (0xD4AC, u "$\mscrQ$");
  (0xD4AE, u "$\mscrS$");
  (0xD4AF, u "$\mscrT$");
  (0xD4B0, u "$\mscrU$");
  (0xD4B1, u "$\mscrV$");
  (0xD4B2, u "$\mscrW$");
  (0xD4B3, u "$\mscrX$");
  (0xD4B4, u "$\mscrY$");
  (0xD4B5, u "$\mscrZ$");
  (0xD4B6, u "$\mscra$");
  (0xD4B7, u "$\mscrb$");
  (0xD4B8, u "$\mscrc$");
  (0xD4B9, u "$\mscrd$");
  (0xD4BB, u "$\mscrf$");
  (0xD4BD, u "$\mscrh$");
  (0xD4BE, u "$\mscri$");
  (0xD4BF, u "$\mscrj$");
  (0xD4C0, u "$\mscrk$");
  (0xD4C1, u "$\mscrl$");
  (0xD4C2, u "$\mscrm$");
  (0xD4C3, u "$\mscrn$");
  (0xD4C5, u "$\mscrp$");
  (0xD4C6, u "$\mscrq$");
  (0xD4C7, u "$\mscrr$");
  (0xD4C8, u "$\mscrs$");
  (0xD4C9, u "$\mscrt$");
  (0xD4CA, u "$\mscru$");
  (0xD4CB, u "$\mscrv$");
  (0xD4CC, u "$\mscrw$");
  (0xD4CD, u "$\mscrx$");
  (0xD4CE, u "$\mscry$");
  (0xD4CF, u "$\mscrz$");
  (0xD4D0, u "$\mbfscrA$");
  (0xD4D1, u "$\mbfscrB$");
  (0xD4D2, u "$\mbfscrC$");
  (0xD4D3, u "$\mbfscrD$");
  (0xD4D4, u "$\mbfscrE$");
  (0xD4D5, u "$\mbfscrF$");
  (0xD4D6, u "$\mbfscrG$");
  (0xD4D7, u "$\mbfscrH$");
  (0xD4D8, u "$\mbfscrI$");
  (0xD4D9, u "$\mbfscrJ$");
  (0xD4DA, u "$\mbfscrK$");
  (0xD4DB, u "$\mbfscrL$");
  (0xD4DC, u "$\mbfscrM$");
  (0xD4DD, u "$\mbfscrN$");
  (0xD4DE, u "$\mbfscrO$");
  (0xD4DF, u "$\mbfscrP$");
  (0xD4E0, u "$\mbfscrQ$");
  (0xD4E1, u "$\mbfscrR$");
  (0xD4E2, u "$\mbfscrS$");
  (0xD4E3, u "$\mbfscrT$");
  (0xD4E4, u "$\mbfscrU$");
  (0xD4E5, u "$\mbfscrV$");
  (0xD4E6, u "$\mbfscrW$");
  (0xD4E7, u "$\mbfscrX$");
  (0xD4E8, u "$\mbfscrY$");
  (0xD4E9, u "$\mbfscrZ$");
  (0xD4EA, u "$\mbfscra$");
  (0xD4EB, u "$\mbfscrb$");
  (0xD4EC, u "$\mbfscrc$");
  (0xD4ED, u "$\mbfscrd$");
  (0xD4EE, u "$\mbfscre$");
  (0xD4EF, u "$\mbfscrf$");
  (0xD4F0, u "$\mbfscrg$");
  (0xD4F1, u "$\mbfscrh$");
  (0xD4F2, u "$\mbfscri$");
  (0xD4F3, u "$\mbfscrj$");
  (0xD4F4, u "$\mbfscrk$");
  (0xD4F5, u "$\mbfscrl$");
  (0xD4F6, u "$\mbfscrm$");
  (0xD4F7, u "$\mbfscrn$");
  (0xD4F8, u "$\mbfscro$");
  (0xD4F9, u "$\mbfscrp$");
  (0xD4FA, u "$\mbfscrq$");
  (0xD4FB, u "$\mbfscrr$");
  (0xD4FC, u "$\mbfscrs$");
  (0xD4FD, u "$\mbfscrt$");
  (0xD4FE, u "$\mbfscru$");
  (0xD4FF, u "$\mbfscrv$");
  (0xD500, u "$\mbfscrw$");
  (0xD501, u "$\mbfscrx$");
  (0xD502, u "$\mbfscry$");
  (0xD503, u "$\mbfscrz$");
  (0xD504, u "$\mfrakA$");
  (0xD505, u "$\mfrakB$");
  (0xD507, u "$\mfrakD$");
  (0xD508, u "$\mfrakE$");
  (0xD509, u "$\mfrakF$");
  (0xD50A, u "$\mfrakG$");
  (0xD50D, u "$\mfrakJ$");
  (0xD50E, u "$\mfrakK$");
  (0xD50F, u "$\mfrakL$");
  (0xD510, u "$\mfrakM$");
  (0xD511, u "$\mfrakN$");
  (0xD512, u "$\mfrakO$");
  (0xD513, u "$\mfrakP$");
  (0xD514, u "$\mfrakQ$");
  (0xD516, u "$\mfrakS$");
  (0xD517, u "$\mfrakT$");
  (0xD518, u "$\mfrakU$");
  (0xD519, u "$\mfrakV$");
  (0xD51A, u "$\mfrakW$");
  (0xD51B, u "$\mfrakX$");
  (0xD51C, u "$\mfrakY$");
  (0xD51E, u "$\mfraka$");
  (0xD51F, u "$\mfrakb$");
  (0xD520, u "$\mfrakc$");
  (0xD521, u "$\mfrakd$");
  (0xD522, u "$\mfrake$");
  (0xD523, u "$\mfrakf$");
  (0xD524, u "$\mfrakg$");
  (0xD525, u "$\mfrakh$");
  (0xD526, u "$\mfraki$");
  (0xD527, u "$\mfrakj$");
  (0xD528, u "$\mfrakk$");
  (0xD529, u "$\mfrakl$");
  (0xD52A, u "$\mfrakm$");
  (0xD52B, u "$\mfrakn$");
  (0xD52C, u "$\mfrako$");
  (0xD52D, u "$\mfrakp$");
  (0xD52E, u "$\mfrakq$");
  (0xD52F, u "$\mfrakr$");
  (0xD530, u "$\mfraks$");
  (0xD531, u "$\mfrakt$");
  (0xD532, u "$\mfraku$");
  (0xD533, u "$\mfrakv$");
  (0xD534, u "$\mfrakw$");
  (0xD535, u "$\mfrakx$");
  (0xD536, u "$\mfraky$");
  (0xD537, u "$\mfrakz$");
  (0xD538, u "$\BbbA$");
  (0xD539, u "$\BbbB$");
  (0xD53B, u "$\BbbD$");
  (0xD53C, u "$\BbbE$");
  (0xD53D, u "$\BbbF$");
  (0xD53E, u "$\BbbG$");
  (0xD540, u "$\BbbI$");
  (0xD541, u "$\BbbJ$");
  (0xD542, u "$\BbbK$");
  (0xD543, u "$\BbbL$");
  (0xD544, u "$\BbbM$");
  (0xD546, u "$\BbbO$");
  (0xD54A, u "$\BbbS$");
  (0xD54B, u "$\BbbT$");
  (0xD54C, u "$\BbbU$");
  (0xD54D, u "$\BbbV$");
  (0xD54E, u "$\BbbW$");
  (0xD54F, u "$\BbbX$");
  (0xD550, u "$\BbbY$");
  (0xD552, u "$\Bbba$");
  (0xD553, u "$\Bbbb$");
  (0xD554, u "$\Bbbc$");
  (0xD555, u "$\Bbbd$");
  (0xD556, u "$\Bbbe$");
  (0xD557, u "$\Bbbf$");
  (0xD558, u "$\Bbbg$");
  (0xD559, u "$\Bbbh$");
  (0xD55A, u "$\Bbbi$");
  (0xD55B, u "$\Bbbj$");
  (0xD55C, u "$\Bbbk$");
  (0xD55D, u "$\Bbbl$");
  (0xD55E, u "$\Bbbm$");
  (0xD55F, u "$\Bbbn$");
  (0xD560, u "$\Bbbo$");
  (0xD561, u "$\Bbbp$");
  (0xD562, u "$\Bbbq$");
  (0xD563, u "$\Bbbr$");
  (0xD564, u "$\Bbbs$");
  (0xD565, u "$\Bbbt$");
  (0xD566, u "$\Bbbu$");
  (0xD567, u "$\Bbbv$");
  (0xD568, u "$\Bbbw$");
  (0xD569, u "$\Bbbx$");
  (0xD56A, u "$\Bbby$");
  (0xD56B, u "$\Bbbz$");
  (0xD56C, u "$\mbffrakA$");
  (0xD56D, u "$\mbffrakB$");
  (0xD56E, u "$\mbffrakC$");
  (0xD56F, u "$\mbffrakD$");
  (0xD570, u "$\mbffrakE$");
  (0xD571, u "$\mbffrakF$");
  (0xD572, u "$\mbffrakG$");
  (0xD573, u "$\mbffrakH$");
  (0xD574, u "$\mbffrakI$");
  (0xD575, u "$\mbffrakJ$");
  (0xD576, u "$\mbffrakK$");
  (0xD577, u "$\mbffrakL$");
  (0xD578, u "$\mbffrakM$");
  (0xD579, u "$\mbffrakN$");
  (0xD57A, u "$\mbffrakO$");
  (0xD57B, u "$\mbffrakP$");
  (0xD57C, u "$\mbffrakQ$");
  (0xD57D, u "$\mbffrakR$");
  (0xD57E, u "$\mbffrakS$");
  (0xD57F, u "$\mbffrakT$");
  (0xD580, u "$\mbffrakU$");
  (0xD581, u "$\mbffrakV$");
  (0xD582, u "$\mbffrakW$");
  (0xD583, u "$\mbffrakX$");
  (0xD584, u "$\mbffrakY$");
  (0xD585, u "$\mbffrakZ$");
  (0xD586, u "$\mbffraka$");
  (0xD587, u "$\mbffrakb$");
  (0xD588, u "$\mbffrakc$");
  (0xD589, u "$\mbffrakd$");
  (0xD58A, u "$\mbffrake$");
  (0xD58B, u "$\mbffrakf$");
  (0xD58C, u "$\mbffrakg$");
  (0xD58D, u "$\mbffrakh$");
  (0xD58E, u "$\mbffraki$");
  (0xD58F, u "$\mbffrakj$");
  (0xD590, u "$\mbffrakk$");
  (0xD591, u "$\mbffrakl$");
  (0xD592, u "$\mbffrakm$");
  (0xD593, u "$\mbffrakn$");
  (0xD594, u "$\mbffrako$");
  (0xD595, u "$\mbffrakp$");
  (0xD596, u "$\mbffrakq$");
  (0xD597, u "$\mbffrakr$");
  (0xD598, u "$\mbffraks$");
  (0xD599, u "$\mbffrakt$");
  (0xD59A, u "$\mbffraku$");
  (0xD59B, u "$\mbffrakv$");
  (0xD59C, u "$\mbffrakw$");
  (0xD59D, u "$\mbffrakx$");
  (0xD59E, u "$\mbffraky$");
  (0xD59F, u "$\mbffrakz$");
  (0xD5A0, u "$\msansA$");
  (0xD5A1, u "$\msansB$");
  (0xD5A2, u "$\msansC$");
  (0xD5A3, u "$\msansD$");
  (0xD5A4, u "$\msansE$");
  (0xD5A5, u "$\msansF$");
  (0xD5A6, u "$\msansG$");
  (0xD5A7, u "$\msansH$");
  (0xD5A8, u "$\msansI$");
  (0xD5A9, u "$\msansJ$");
  (0xD5AA, u "$\msansK$");
  (0xD5AB, u "$\msansL$");
  (0xD5AC, u "$\msansM$");
  (0xD5AD, u "$\msansN$");
  (0xD5AE, u "$\msansO$");
  (0xD5AF, u "$\msansP$");
  (0xD5B0, u "$\msansQ$");
  (0xD5B1, u "$\msansR$");
  (0xD5B2, u "$\msansS$");
  (0xD5B3, u "$\msansT$");
  (0xD5B4, u "$\msansU$");
  (0xD5B5, u "$\msansV$");
  (0xD5B6, u "$\msansW$");
  (0xD5B7, u "$\msansX$");
  (0xD5B8, u "$\msansY$");
  (0xD5B9, u "$\msansZ$");
  (0xD5BA, u "$\msansa$");
  (0xD5BB, u "$\msansb$");
  (0xD5BC, u "$\msansc$");
  (0xD5BD, u "$\msansd$");
  (0xD5BE, u "$\msanse$");
  (0xD5BF, u "$\msansf$");
  (0xD5C0, u "$\msansg$");
  (0xD5C1, u "$\msansh$");
  (0xD5C2, u "$\msansi$");
  (0xD5C3, u "$\msansj$");
  (0xD5C4, u "$\msansk$");
  (0xD5C5, u "$\msansl$");
  (0xD5C6, u "$\msansm$");
  (0xD5C7, u "$\msansn$");
  (0xD5C8, u "$\msanso$");
  (0xD5C9, u "$\msansp$");
  (0xD5CA, u "$\msansq$");
  (0xD5CB, u "$\msansr$");
  (0xD5CC, u "$\msanss$");
  (0xD5CD, u "$\msanst$");
  (0xD5CE, u "$\msansu$");
  (0xD5CF, u "$\msansv$");
  (0xD5D0, u "$\msansw$");
  (0xD5D1, u "$\msansx$");
  (0xD5D2, u "$\msansy$");
  (0xD5D3, u "$\msansz$");
  (0xD5D4, u "$\mbfsansA$");
  (0xD5D5, u "$\mbfsansB$");
  (0xD5D6, u "$\mbfsansC$");
  (0xD5D7, u "$\mbfsansD$");
  (0xD5D8, u "$\mbfsansE$");
  (0xD5D9, u "$\mbfsansF$");
  (0xD5DA, u "$\mbfsansG$");
  (0xD5DB, u "$\mbfsansH$");
  (0xD5DC, u "$\mbfsansI$");
  (0xD5DD, u "$\mbfsansJ$");
  (0xD5DE, u "$\mbfsansK$");
  (0xD5DF, u "$\mbfsansL$");
  (0xD5E0, u "$\mbfsansM$");
  (0xD5E1, u "$\mbfsansN$");
  (0xD5E2, u "$\mbfsansO$");
  (0xD5E3, u "$\mbfsansP$");
  (0xD5E4, u "$\mbfsansQ$");
  (0xD5E5, u "$\mbfsansR$");
  (0xD5E6, u "$\mbfsansS$");
  (0xD5E7, u "$\mbfsansT$");
  (0xD5E8, u "$\mbfsansU$");
  (0xD5E9, u "$\mbfsansV$");
  (0xD5EA, u "$\mbfsansW$");
  (0xD5EB, u "$\mbfsansX$");
  (0xD5EC, u "$\mbfsansY$");
  (0xD5ED, u "$\mbfsansZ$");
  (0xD5EE, u "$\mbfsansa$");
  (0xD5EF, u "$\mbfsansb$");
  (0xD5F0, u "$\mbfsansc$");
  (0xD5F1, u "$\mbfsansd$");
  (0xD5F2, u "$\mbfsanse$");
  (0xD5F3, u "$\mbfsansf$");
  (0xD5F4, u "$\mbfsansg$");
  (0xD5F5, u "$\mbfsansh$");
  (0xD5F6, u "$\mbfsansi$");
  (0xD5F7, u "$\mbfsansj$");
  (0xD5F8, u "$\mbfsansk$");
  (0xD5F9, u "$\mbfsansl$");
  (0xD5FA, u "$\mbfsansm$");
  (0xD5FB, u "$\mbfsansn$");
  (0xD5FC, u "$\mbfsanso$");
  (0xD5FD, u "$\mbfsansp$");
  (0xD5FE, u "$\mbfsansq$");
  (0xD5FF, u "$\mbfsansr$");
  (0xD600, u "$\mbfsanss$");
  (0xD601, u "$\mbfsanst$");
  (0xD602, u "$\mbfsansu$");
  (0xD603, u "$\mbfsansv$");
  (0xD604, u "$\mbfsansw$");
  (0xD605, u "$\mbfsansx$");
  (0xD606, u "$\mbfsansy$");
  (0xD607, u "$\mbfsansz$");
  (0xD608, u "$\mitsansA$");
  (0xD609, u "$\mitsansB$");
  (0xD60A, u "$\mitsansC$");
  (0xD60B, u "$\mitsansD$");
  (0xD60C, u "$\mitsansE$");
  (0xD60D, u "$\mitsansF$");
  (0xD60E, u "$\mitsansG$");
  (0xD60F, u "$\mitsansH$");
  (0xD610, u "$\mitsansI$");
  (0xD611, u "$\mitsansJ$");
  (0xD612, u "$\mitsansK$");
  (0xD613, u "$\mitsansL$");
  (0xD614, u "$\mitsansM$");
  (0xD615, u "$\mitsansN$");
  (0xD616, u "$\mitsansO$");
  (0xD617, u "$\mitsansP$");
  (0xD618, u "$\mitsansQ$");
  (0xD619, u "$\mitsansR$");
  (0xD61A, u "$\mitsansS$");
  (0xD61B, u "$\mitsansT$");
  (0xD61C, u "$\mitsansU$");
  (0xD61D, u "$\mitsansV$");
  (0xD61E, u "$\mitsansW$");
  (0xD61F, u "$\mitsansX$");
  (0xD620, u "$\mitsansY$");
  (0xD621, u "$\mitsansZ$");
  (0xD622, u "$\mitsansa$");
  (0xD623, u "$\mitsansb$");
  (0xD624, u "$\mitsansc$");
  (0xD625, u "$\mitsansd$");
  (0xD626, u "$\mitsanse$");
  (0xD627, u "$\mitsansf$");
  (0xD628, u "$\mitsansg$");
  (0xD629, u "$\mitsansh$");
  (0xD62A, u "$\mitsansi$");
  (0xD62B, u "$\mitsansj$");
  (0xD62C, u "$\mitsansk$");
  (0xD62D, u "$\mitsansl$");
  (0xD62E, u "$\mitsansm$");
  (0xD62F, u "$\mitsansn$");
  (0xD630, u "$\mitsanso$");
  (0xD631, u "$\mitsansp$");
  (0xD632, u "$\mitsansq$");
  (0xD633, u "$\mitsansr$");
  (0xD634, u "$\mitsanss$");
  (0xD635, u "$\mitsanst$");
  (0xD636, u "$\mitsansu$");
  (0xD637, u "$\mitsansv$");
  (0xD638, u "$\mitsansw$");
  (0xD639, u "$\mitsansx$");
  (0xD63A, u "$\mitsansy$");
  (0xD63B, u "$\mitsansz$");
  (0xD63C, u "$\mbfitsansA$");
  (0xD63D, u "$\mbfitsansB$");
  (0xD63E, u "$\mbfitsansC$");
  (0xD63F, u "$\mbfitsansD$");
  (0xD640, u "$\mbfitsansE$");
  (0xD641, u "$\mbfitsansF$");
  (0xD642, u "$\mbfitsansG$");
  (0xD643, u "$\mbfitsansH$");
  (0xD644, u "$\mbfitsansI$");
  (0xD645, u "$\mbfitsansJ$");
  (0xD646, u "$\mbfitsansK$");
  (0xD647, u "$\mbfitsansL$");
  (0xD648, u "$\mbfitsansM$");
  (0xD649, u "$\mbfitsansN$");
  (0xD64A, u "$\mbfitsansO$");
  (0xD64B, u "$\mbfitsansP$");
  (0xD64C, u "$\mbfitsansQ$");
  (0xD64D, u "$\mbfitsansR$");
  (0xD64E, u "$\mbfitsansS$");
  (0xD64F, u "$\mbfitsansT$");
  (0xD650, u "$\mbfitsansU$");
  (0xD651, u "$\mbfitsansV$");
  (0xD652, u "$\mbfitsansW$");
  (0xD653, u "$\mbfitsansX$");
  (0xD654, u "$\mbfitsansY$");
  (0xD655, u "$\mbfitsansZ$");
  (0xD656, u "$\mbfitsansa$");
  (0xD657, u "$\mbfitsansb$");
  (0xD658, u "$\mbfitsansc$");
  (0xD659, u "$\mbfitsansd$");
  (0xD65A, u "$\mbfitsanse$");
  (0xD65B, u "$\mbfitsansf$");
  (0xD65C, u "$\mbfitsansg$");
  (0xD65D, u "$\mbfitsansh$");
  (0xD65E, u "$\mbfitsansi$");
  (0xD65F, u "$\mbfitsansj$");
  (0xD660, u "$\mbfitsansk$");
  (0xD661, u "$\mbfitsansl$");
  (0xD662, u "$\mbfitsansm$");
  (0xD663, u "$\mbfitsansn$");
  (0xD664, u "$\mbfitsanso$");
  (0xD665, u "$\mbfitsansp$");
  (0xD666, u "$\mbfitsansq$");
  (0xD667, u "$\mbfitsansr$");
  (0xD668, u "$\mbfitsanss$");
  (0xD669, u "$\mbfitsanst$");
  (0xD66A, u "$\mbfitsansu$");
  (0xD66B, u "$\mbfitsansv$");
  (0xD66C, u "$\mbfitsansw$");
  (0xD66D, u "$\mbfitsansx$");
  (0xD66E, u "$\mbfitsansy$");
  (0xD66F, u "$\mbfitsansz$");
  (0xD670, u "$\mttA$");
  (0xD671, u "$\mttB$");
  (0xD672, u "$\mttC$");
  (0xD673, u "$\mttD$");
  (0xD674, u "$\mttE$");
  (0xD675, u "$\mttF$");
  (0xD676, u "$\mttG$");
  (0xD677, u "$\mttH$");
  (0xD678, u "$\mttI$");
  (0xD679, u "$\mttJ$");
  (0xD67A, u "$\mttK$");
  (0xD67B, u "$\mttL$");
  (0xD67C, u "$\mttM$");
  (0xD67D, u "$\mttN$");
  (0xD67E, u "$\mttO$");
  (0xD67F, u "$\mttP$");
  (0xD680, u "$\mttQ$");
  (0xD681, u "$\mttR$");
  (0xD682, u "$\mttS$");
  (0xD683, u "$\mttT$");
  (0xD684, u "$\mttU$");
  (0xD685, u "$\mttV$");
  (0xD686, u "$\mttW$");
  (0xD687, u "$\mttX$");
  (0xD688, u "$\mttY$");
  (0xD689, u "$\mttZ$");
  (0xD68A, u "$\mtta$");
  (0xD68B, u "$\mttb$");
  (0xD68C, u "$\mttc$");
  (0xD68D, u "$\mttd$");
  (0xD68E, u "$\mtte$");
  (0xD68F, u "$\mttf$");
  (0xD690, u "$\mttg$");
  (0xD691, u "$\mtth$");
  (0xD692, u "$\mtti$");
  (0xD693, u "$\mttj$");
  (0xD694, u "$\mttk$");
  (0xD695, u "$\mttl$");
  (0xD696, u "$\mttm$");
  (0xD697, u "$\mttn$");
  (0xD698, u "$\mtto$");
  (0xD699, u "$\mttp$");
  (0xD69A, u "$\mttq$");
  (0xD69B, u "$\mttr$");
  (0xD69C, u "$\mtts$");
  (0xD69D, u "$\mttt$");
  (0xD69E, u "$\mttu$");
  (0xD69F, u "$\mttv$");
  (0xD6A0, u "$\mttw$");
  (0xD6A1, u "$\mttx$");
  (0xD6A2, u "$\mtty$");
  (0xD6A3, u "$\mttz$");
  (0xD6A8, u "$\mbfAlpha$");
  (0xD6A9, u "$\mbfBeta$");
  (0xD6AA, u "$\mbfGamma$");
  (0xD6AB, u "$\mbfDelta$");
  (0xD6AC, u "$\mbfEpsilon$");
  (0xD6AD, u "$\mbfZeta$");
  (0xD6AE, u "$\mbfEta$");
  (0xD6AF, u "$\mbfTheta$");
  (0xD6B0, u "$\mbfIota$");
  (0xD6B1, u "$\mbfKappa$");
  (0xD6B2, u "$\mbfLambda$");
  (0xD6B3, u "$\mbfMu$");
  (0xD6B4, u "$\mbfNu$");
  (0xD6B5, u "$\mbfXi$");
  (0xD6B6, u "$\mbfOmicron$");
  (0xD6B7, u "$\mbfPi$");
  (0xD6B8, u "$\mbfRho$");
  (0xD6B9, u "$\mathbf{\vartheta}$");
  (0xD6BA, u "$\mbfSigma$");
  (0xD6BB, u "$\mbfTau$");
  (0xD6BC, u "$\mbfUpsilon$");
  (0xD6BD, u "$\mbfPhi$");
  (0xD6BE, u "$\mbfChi$");
  (0xD6BF, u "$\mbfPsi$");
  (0xD6C0, u "$\mbfOmega$");
  (0xD6C1, u "$\mbfnabla$");
  (0xD6C2, u "$\mbfalpha$");
  (0xD6C3, u "$\mbfbeta$");
  (0xD6C4, u "$\mbfgamma$");
  (0xD6C5, u "$\mbfdelta$");
  (0xD6C6, u "$\mbfepsilon$");
  (0xD6C7, u "$\mbfzeta$");
  (0xD6C8, u "$\mbfeta$");
  (0xD6C9, u "$\mbftheta$");
  (0xD6CA, u "$\mbfiota$");
  (0xD6CB, u "$\mbfkappa$");
  (0xD6CC, u "$\mbflambda$");
  (0xD6CD, u "$\mbfmu$");
  (0xD6CE, u "$\mbfnu$");
  (0xD6CF, u "$\mbfxi$");
  (0xD6D0, u "$\mbfomicron$");
  (0xD6D1, u "$\mbfpi$");
  (0xD6D2, u "$\mbfrho$");
  (0xD6D3, u "$\mbfvarsigma$");
  (0xD6D4, u "$\mbfsigma$");
  (0xD6D5, u "$\mbftau$");
  (0xD6D6, u "$\mbfupsilon$");
  (0xD6D7, u "$\mbfvarphi$");
  (0xD6D8, u "$\mbfchi$");
  (0xD6D9, u "$\mbfpsi$");
  (0xD6DA, u "$\mbfomega$");
  (0xD6DB, u "$\mbfpartial$");
  (0xD6DC, u "$\mbfvarepsilon$");
  (0xD6DD, u "$\mathbf{\vartheta}$");
  (0xD6DE, u "$\mathbf{\varkappa}$");
  (0xD6DF, u "$\mathbf{\phi}$");
  (0xD6E0, u "$\mathbf{\varrho}$");
  (0xD6E1, u "$\mathbf{\varpi}$");
  (0xD6E2, u "$\mitAlpha$");
  (0xD6E3, u "$\mitBeta$");
  (0xD6E4, u "$\mitGamma$");
  (0xD6E5, u "$\mitDelta$");
  (0xD6E6, u "$\mitEpsilon$");
  (0xD6E7, u "$\mitZeta$");
  (0xD6E8, u "$\mitEta$");
  (0xD6E9, u "$\mitTheta$");
  (0xD6EA, u "$\mitIota$");
  (0xD6EB, u "$\mitKappa$");
  (0xD6EC, u "$\mitLambda$");
  (0xD6ED, u "$\mitMu$");
  (0xD6EE, u "$\mitNu$");
  (0xD6EF, u "$\mitXi$");
  (0xD6F0, u "$\mitOmicron$");
  (0xD6F1, u "$\mitPi$");
  (0xD6F2, u "$\mitRho$");
  (0xD6F3, u "$\mathmit{\vartheta}$");
  (0xD6F4, u "$\mitSigma$");
  (0xD6F5, u "$\mitTau$");
  (0xD6F6, u "$\mitUpsilon$");
  (0xD6F7, u "$\mitPhi$");
  (0xD6F8, u "$\mitChi$");
  (0xD6F9, u "$\mitPsi$");
  (0xD6FA, u "$\mitOmega$");
  (0xD6FB, u "$\mitnabla$");
  (0xD6FC, u "$\mitalpha$");
  (0xD6FD, u "$\mitbeta$");
  (0xD6FE, u "$\mitgamma$");
  (0xD6FF, u "$\mitdelta$");
  (0xD700, u "$\mitepsilon$");
  (0xD701, u "$\mitzeta$");
  (0xD702, u "$\miteta$");
  (0xD703, u "$\mittheta$");
  (0xD704, u "$\mitiota$");
  (0xD705, u "$\mitkappa$");
  (0xD706, u "$\mitlambda$");
  (0xD707, u "$\mitmu$");
  (0xD708, u "$\mitnu$");
  (0xD709, u "$\mitxi$");
  (0xD70A, u "$\mitomicron$");
  (0xD70B, u "$\mitpi$");
  (0xD70C, u "$\mitrho$");
  (0xD70D, u "$\mitvarsigma$");
  (0xD70E, u "$\mitsigma$");
  (0xD70F, u "$\mittau$");
  (0xD710, u "$\mitupsilon$");
  (0xD711, u "$\mitphi$");
  (0xD712, u "$\mitchi$");
  (0xD713, u "$\mitpsi$");
  (0xD714, u "$\mitomega$");
  (0xD715, u "$\mitpartial$");
  (0xD716, u "$\mitvarepsilon$");
  (0xD717, u "$\mathmit{\vartheta}$");
  (0xD718, u "$\mathmit{\varkappa}$");
  (0xD719, u "$\mathmit{\phi}$");
  (0xD71A, u "$\mathmit{\varrho}$");
  (0xD71B, u "$\mathmit{\varpi}$");
  (0xD71C, u "$\mbfitAlpha$");
  (0xD71D, u "$\mbfitBeta$");
  (0xD71E, u "$\mbfitGamma$");
  (0xD71F, u "$\mbfitDelta$");
  (0xD720, u "$\mbfitEpsilon$");
  (0xD721, u "$\mbfitZeta$");
  (0xD722, u "$\mbfitEta$");
  (0xD723, u "$\mbfitTheta$");
  (0xD724, u "$\mbfitIota$");
  (0xD725, u "$\mbfitKappa$");
  (0xD726, u "$\mbfitLambda$");
  (0xD727, u "$\mbfitMu$");
  (0xD728, u "$\mbfitNu$");
  (0xD729, u "$\mbfitXi$");
  (0xD72A, u "$\mbfitOmicron$");
  (0xD72B, u "$\mbfitPi$");
  (0xD72C, u "$\mbfitRho$");
  (0xD72D, u "$\mathbit{O}$");
  (0xD72E, u "$\mbfitSigma$");
  (0xD72F, u "$\mbfitTau$");
  (0xD730, u "$\mbfitUpsilon$");
  (0xD731, u "$\mbfitPhi$");
  (0xD732, u "$\mbfitChi$");
  (0xD733, u "$\mbfitPsi$");
  (0xD734, u "$\mbfitOmega$");
  (0xD735, u "$\mbfitnabla$");
  (0xD736, u "$\mbfitalpha$");
  (0xD737, u "$\mbfitbeta$");
  (0xD738, u "$\mbfitgamma$");
  (0xD739, u "$\mbfitdelta$");
  (0xD73A, u "$\mbfitepsilon$");
  (0xD73B, u "$\mbfitzeta$");
  (0xD73C, u "$\mbfiteta$");
  (0xD73D, u "$\mbfittheta$");
  (0xD73E, u "$\mbfitiota$");
  (0xD73F, u "$\mbfitkappa$");
  (0xD740, u "$\mbfitlambda$");
  (0xD741, u "$\mbfitmu$");
  (0xD742, u "$\mbfitnu$");
  (0xD743, u "$\mbfitxi$");
  (0xD744, u "$\mbfitomicron$");
  (0xD745, u "$\mbfitpi$");
  (0xD746, u "$\mbfitrho$");
  (0xD747, u "$\mbfitvarsigma$");
  (0xD748, u "$\mbfitsigma$");
  (0xD749, u "$\mbfittau$");
  (0xD74A, u "$\mbfitupsilon$");
  (0xD74B, u "$\mbfitphi$");
  (0xD74C, u "$\mbfitchi$");
  (0xD74D, u "$\mbfitpsi$");
  (0xD74E, u "$\mbfitomega$");
  (0xD74F, u "$\mbfitpartial$");
  (0xD750, u "$\mbfitvarepsilon$");
  (0xD751, u "$\mathbit{\vartheta}$");
  (0xD752, u "$\mathbit{\varkappa}$");
  (0xD753, u "$\mathbit{\phi}$");
  (0xD754, u "$\mathbit{\varrho}$");
  (0xD755, u "$\mathbit{\varpi}$");
  (0xD756, u "$\mbfsansAlpha$");
  (0xD757, u "$\mbfsansBeta$");
  (0xD758, u "$\mbfsansGamma$");
  (0xD759, u "$\mbfsansDelta$");
  (0xD75A, u "$\mbfsansEpsilon$");
  (0xD75B, u "$\mbfsansZeta$");
  (0xD75C, u "$\mbfsansEta$");
  (0xD75D, u "$\mbfsansTheta$");
  (0xD75E, u "$\mbfsansIota$");
  (0xD75F, u "$\mbfsansKappa$");
  (0xD760, u "$\mbfsansLambda$");
  (0xD761, u "$\mbfsansMu$");
  (0xD762, u "$\mbfsansNu$");
  (0xD763, u "$\mbfsansXi$");
  (0xD764, u "$\mbfsansOmicron$");
  (0xD765, u "$\mbfsansPi$");
  (0xD766, u "$\mbfsansRho$");
  (0xD767, u "$\mathsfbf{\vartheta}$");
  (0xD768, u "$\mbfsansSigma$");
  (0xD769, u "$\mbfsansTau$");
  (0xD76A, u "$\mbfsansUpsilon$");
  (0xD76B, u "$\mbfsansPhi$");
  (0xD76C, u "$\mbfsansChi$");
  (0xD76D, u "$\mbfsansPsi$");
  (0xD76E, u "$\mbfsansOmega$");
  (0xD76F, u "$\mbfsansnabla$");
  (0xD770, u "$\mbfsansalpha$");
  (0xD771, u "$\mbfsansbeta$");
  (0xD772, u "$\mbfsansgamma$");
  (0xD773, u "$\mbfsansdelta$");
  (0xD774, u "$\mbfsansepsilon$");
  (0xD775, u "$\mbfsanszeta$");
  (0xD776, u "$\mbfsanseta$");
  (0xD777, u "$\mbfsanstheta$");
  (0xD778, u "$\mbfsansiota$");
  (0xD779, u "$\mbfsanskappa$");
  (0xD77A, u "$\mbfsanslambda$");
  (0xD77B, u "$\mbfsansmu$");
  (0xD77C, u "$\mbfsansnu$");
  (0xD77D, u "$\mbfsansxi$");
  (0xD77E, u "$\mbfsansomicron$");
  (0xD77F, u "$\mbfsanspi$");
  (0xD780, u "$\mbfsansrho$");
  (0xD781, u "$\mbfsansvarsigma$");
  (0xD782, u "$\mbfsanssigma$");
  (0xD783, u "$\mbfsanstau$");
  (0xD784, u "$\mbfsansupsilon$");
  (0xD785, u "$\mbfsansphi$");
  (0xD786, u "$\mbfsanschi$");
  (0xD787, u "$\mbfsanspsi$");
  (0xD788, u "$\mbfsansomega$");
  (0xD789, u "$\mbfsanspartial$");
  (0xD78A, u "$\mbfsansvarepsilon$");
  (0xD78B, u "$\mathsfbf{\vartheta}$");
  (0xD78C, u "$\mathsfbf{\varkappa}$");
  (0xD78D, u "$\mathsfbf{\phi}$");
  (0xD78E, u "$\mathsfbf{\varrho}$");
  (0xD78F, u "$\mathsfbf{\varpi}$");
  (0xD790, u "$\mbfitsansAlpha$");
  (0xD791, u "$\mbfitsansBeta$");
  (0xD792, u "$\mbfitsansGamma$");
  (0xD793, u "$\mbfitsansDelta$");
  (0xD794, u "$\mbfitsansEpsilon$");
  (0xD795, u "$\mbfitsansZeta$");
  (0xD796, u "$\mbfitsansEta$");
  (0xD797, u "$\mbfitsansTheta$");
  (0xD798, u "$\mbfitsansIota$");
  (0xD799, u "$\mbfitsansKappa$");
  (0xD79A, u "$\mbfitsansLambda$");
  (0xD79B, u "$\mbfitsansMu$");
  (0xD79C, u "$\mbfitsansNu$");
  (0xD79D, u "$\mbfitsansXi$");
  (0xD79E, u "$\mbfitsansOmicron$");
  (0xD79F, u "$\mbfitsansPi$");
  (0xD7A0, u "$\mbfitsansRho$");
  (0xD7A1, u "$\mathsfbfsl{\vartheta}$");
  (0xD7A2, u "$\mbfitsansSigma$");
  (0xD7A3, u "$\mbfitsansTau$");
  (0xD7A4, u "$\mbfitsansUpsilon$");
  (0xD7A5, u "$\mbfitsansPhi$");
  (0xD7A6, u "$\mbfitsansChi$");
  (0xD7A7, u "$\mbfitsansPsi$");
  (0xD7A8, u "$\mbfitsansOmega$");
  (0xD7A9, u "$\mbfitsansnabla$");
  (0xD7AA, u "$\mbfitsansalpha$");
  (0xD7AB, u "$\mbfitsansbeta$");
  (0xD7AC, u "$\mbfitsansgamma$");
  (0xD7AD, u "$\mbfitsansdelta$");
  (0xD7AE, u "$\mbfitsansepsilon$");
  (0xD7AF, u "$\mbfitsanszeta$");
  (0xD7B0, u "$\mbfitsanseta$");
  (0xD7B1, u "$\mbfitsanstheta$");
  (0xD7B2, u "$\mbfitsansiota$");
  (0xD7B3, u "$\mbfitsanskappa$");
  (0xD7B4, u "$\mbfitsanslambda$");
  (0xD7B5, u "$\mbfitsansmu$");
  (0xD7B6, u "$\mbfitsansnu$");
  (0xD7B7, u "$\mbfitsansxi$");
  (0xD7B8, u "$\mbfitsansomicron$");
  (0xD7B9, u "$\mbfitsanspi$");
  (0xD7BA, u "$\mbfitsansrho$");
  (0xD7BB, u "$\mbfitsansvarsigma$");
  (0xD7BC, u "$\mbfitsanssigma$");
  (0xD7BD, u "$\mbfitsanstau$");
  (0xD7BE, u "$\mbfitsansupsilon$");
  (0xD7BF, u "$\mbfitsansphi$");
  (0xD7C0, u "$\mbfitsanschi$");
  (0xD7C1, u "$\mbfitsanspsi$");
  (0xD7C2, u "$\mbfitsansomega$");
  (0xD7C3, u "$\mbfitsanspartial$");
  (0xD7C4, u "$\mbfitsansvarepsilon$");
  (0xD7C5, u "$\mathsfbfsl{\vartheta}$");
  (0xD7C6, u "$\mathsfbfsl{\varkappa}$");
  (0xD7C7, u "$\mathsfbfsl{\phi}$");
  (0xD7C8, u "$\mathsfbfsl{\varrho}$");
  (0xD7C9, u "$\mathsfbfsl{\varpi}$");
  (0xD7CE, u "$\mbfzero$");
  (0xD7CF, u "$\mbfone$");
  (0xD7D0, u "$\mbftwo$");
  (0xD7D1, u "$\mbfthree$");
  (0xD7D2, u "$\mbffour$");
  (0xD7D3, u "$\mbffive$");
  (0xD7D4, u "$\mbfsix$");
  (0xD7D5, u "$\mbfseven$");
  (0xD7D6, u "$\mbfeight$");
  (0xD7D7, u "$\mbfnine$");
  (0xD7D8, u "$\Bbbzero$");
  (0xD7D9, u "$\Bbbone$");
  (0xD7DA, u "$\Bbbtwo$");
  (0xD7DB, u "$\Bbbthree$");
  (0xD7DC, u "$\Bbbfour$");
  (0xD7DD, u "$\Bbbfive$");
  (0xD7DE, u "$\Bbbsix$");
  (0xD7DF, u "$\Bbbseven$");
  (0xD7E0, u "$\Bbbeight$");
  (0xD7E1, u "$\Bbbnine$");
  (0xD7E2, u "$\msanszero$");
  (0xD7E3, u "$\msansone$");
  (0xD7E4, u "$\msanstwo$");
  (0xD7E5, u "$\msansthree$");
  (0xD7E6, u "$\msansfour$");
  (0xD7E7, u "$\msansfive$");
  (0xD7E8, u "$\msanssix$");
  (0xD7E9, u "$\msansseven$");
  (0xD7EA, u "$\msanseight$");
  (0xD7EB, u "$\msansnine$");
  (0xD7EC, u "$\mbfsanszero$");
  (0xD7ED, u "$\mbfsansone$");
  (0xD7EE, u "$\mbfsanstwo$");
  (0xD7EF, u "$\mbfsansthree$");
  (0xD7F0, u "$\mbfsansfour$");
  (0xD7F1, u "$\mbfsansfive$");
  (0xD7F2, u "$\mbfsanssix$");
  (0xD7F3, u "$\mbfsansseven$");
  (0xD7F4, u "$\mbfsanseight$");
  (0xD7F5, u "$\mbfsansnine$");
  (0xD7F6, u "$\mttzero$");
  (0xD7F7, u "$\mttone$");
  (0xD7F8, u "$\mtttwo$");
  (0xD7F9, u "$\mttthree$");
  (0xD7FA, u "$\mttfour$");
  (0xD7FB, u "$\mttfive$");
  (0xD7FC, u "$\mttsix$");
  (0xD7FD, u "$\mttseven$");
  (0xD7FE, u "$\mtteight$");
  (0xD7FF, u "$\mttnine$")
]%N.

Definition uni2tex : gmap N str := dict uni2tex_items.

(** ** The text escaper *)

(** [sanitizeBibtexField(text)]. *)
Definition sanitizeBibtexField (text : str) : str :=
  join [] ((λ c, get uni2tex c [c]) <$> text).

(** An argument that the callee iterates: [None] is not iterable. *)
Definition iterable (v : option str) : result str :=
  match v with
  | Some s => Ok s
  | None => Raise TypeError
  end.

(** ** The BibTeX serializer *)

(** [createBibtexContent(reference, pmid)]. *)
Definition createBibtexContent (reference : Reference) (pmid : str) : result str :=
  authorsText ←
    (if bool_decide (0 < length (authors reference))
     then join (u " and ") <$> mapM formatAuthor (authors reference)
     else Ok []);

  pages ←
    (if ne_empty (endPage reference)
     then s ← add (startPage reference) (Some (u "--"));
          Some <$> add (Some s) (endPage reference)
     else Ok (startPage reference));

  let theJournal :=
    if ne_empty (journalAb reference) then journalAb reference
    else journal reference in

  let notes := StringIO_new in
  notes ←
    (if ne_empty (doi reference)
     then notes ← write notes (Some (u "[DOI:\href{https://dx.doi.org/"));
          s ← add (doi reference) (Some (u "}{"));
          s ← add (Some s) (doi reference);
          s ← add (Some s) (Some (u "}] ["));
          write notes (Some s)
     else write notes (Some (u "[")));
  notes ← write notes (Some (u "PubMed:\href{https://www.ncbi.nlm.nih.gov/pubmed/"));
  notes ← write notes (Some (pmid ++ u "}{" ++ pmid ++ u "}"));
  notes ← write notes (Some (u "]"));

  let result := StringIO_new in
  result ← write result (Some (u "% " ++ pmid ++ nl));
  result ← write result (Some (u "@Article{pmid" ++ pmid ++ u "," ++ nl));
  t ← iterable (title reference);
  result ← write result
             (Some (u "   title = " ++ dq ++ u "{" ++ sanitizeBibtexField t
                    ++ u "}" ++ dq ++ u "," ++ nl));
  result ← appendFormattedField result (u "author")
             (Some (sanitizeBibtexField authorsText));
  j ← iterable theJournal;
  result ← appendFormattedField result (u "journal")
             (Some (sanitizeBibtexField j));
  result ← appendFormattedField result (u "volume") (volume reference);
  result ← appendFormattedField result (u "number") (issue reference);
  result ← appendFormattedField result (u "pages") pages;
  result ← appendFormattedField result (u "year") (pbyear reference);
  result ← appendFormattedField result (u "month") (pbmonth reference);
  result ←
    (if ne_empty (issn reference)
     then appendFormattedField result (u "issn") (issn reference)
     else Ok result);
  result ←
    (if ne_empty (copyright reference)
     then c ← iterable (copyright reference);
          appendFormattedField result (u "copyright")
            (Some (sanitizeBibtexField c))
     else Ok result);
  result ← write result (Some (u "   abstract = " ++ dq ++ u "{"));
  a ← iterable (abstract reference);
  result ← write result (Some (sanitizeBibtexField a));
  result ← write result (Some (u "}" ++ dq ++ u "," ++ nl));
  result ← write result (Some (u "   note = {" ++ getvalue notes ++ u "}"));
  result ← write result (Some (nl ++ u "}" ++ nl));
  Ok (getvalue result).

(** ** Definitions that follow the specification's words *)

Module Spec.

(** §4.2: every code point present in the Escape Table is replaced by its
    substitution, the others pass through unchanged, in order. *)
Fixpoint escape (text : str) : str :=
  match text with
  | [] => []
  | c :: rest =>
      match uni2tex !! c with
      | Some replacement => replacement ++ escape rest
      | None => c :: escape rest
      end
  end.

(** §4.3: the characters that are removed from a file name. *)
Definition removed : list N :=
  [ord "{"; ord "}"; ord "["; ord "]"; 34%N; ord "?"].

(** §4.3: remove every removed character, replace every slash by a space. *)
Definition cleaned (text : str) : str :=
  (λ c, if bool_decide (c = ord "/") then ord " " else c)
    <$> filter (λ c, c ∉ removed) text.

(** §3: the two forms of [articleUrl]. *)
Definition doiUrl (doi : option str) : str := u "https://doi.org/" ++ fmt doi.
Definition pubmedUrl (pmid : str) : str :=
  u "https://pubmed.ncbi.nlm.nih.gov/" ++ pmid ++ u "/".

(** §3: [articleUrl] is the DOI-resolver URL when [doi] is non-empty,
    otherwise the PubMed landing page built from [pmid]. *)
Definition articleUrl (pmid : str) (doi : option str) : str :=
  if bool_decide (doi ≠ Some []) then doiUrl doi else pubmedUrl pmid.

(** §4.1, step 3: the identifier list of the first record, and whether an
    identifier is tagged as a DOI. *)
Definition articleIds (root : Element) : option (list Element) :=
  pubmedArticle ← head (findall root (u "PubmedArticle"));
  pubmedData ← find pubmedArticle (u "PubmedData");
  idList ← find pubmedData (u "ArticleIdList");
  Some (children idList).
Definition is_doi (articleId : Element) : bool :=
  match getitem (attrib articleId) (u "IdType") with
  | Ok idType => bool_decide (idType = u "doi")
  | Raise _ => false
  end.

(** §4.4, rule 10: a field line. *)
Definition field (name value : str) : str :=
  u "   " ++ name ++ u " = " ++ dq ++ value ++ dq ++ u "," ++ nl.

(** §3: the fields of a [Reference] are strings. *)
Definition is_str (v : option str) : bool :=
  match v with
  | Some _ => true
  | None => false
  end.
Definition typed_author (a : Author) : bool :=
  is_str (lastName a) && is_str (foreName a) && is_str (initials a)
  && is_str (institution a).
Definition typed (r : Reference) : bool :=
  is_str (pmid r) && is_str (title r) && forallb typed_author (authors r)
  && is_str (journal r) && is_str (volume r) && is_str (issue r)
  && is_str (startPage r) && is_str (endPage r) && is_str (doi r)
  && is_str (pbyear r) && is_str (pbmonth r) && is_str (issn r)
  && is_str (journalAb r) && is_str (copyright r) && is_str (article_url r)
  && is_str (abstract r).

(** The string in a field that holds one. *)
Definition str_of (v : option str) : str :=
  match v with
  | Some s => s
  | None => []
  end.

(** §4.4, rule 4: an author as [<lastName>, <initials>.], the authors
    joined with [ and ]. *)
Definition authorText (a : Author) : str :=
  str_of (lastName a) ++ u ", " ++ str_of (initials a) ++ u ".".
Definition authorsJoined (r : Reference) : str :=
  join (u " and ") (authorText <$> authors r).

(** §4.4, rule 6: start and end page joined by [--] when both exist,
    otherwise just the start page. *)
Definition pagesJoined (r : Reference) : str :=
  if bool_decide (str_of (startPage r) ≠ [] ∧ str_of (endPage r) ≠ [])
  then str_of (startPage r) ++ u "--" ++ str_of (endPage r)
  else str_of (startPage r).

(** §4.4, rule 5: the abbreviated journal name, the full one only if
    there is no abbreviation. *)
Definition journalName (r : Reference) : str :=
  if bool_decide (str_of (journalAb r) ≠ []) then str_of (journalAb r)
  else str_of (journal r).

(** §4.4, rule 9: the note, with the DOI reference only if there is one. *)
Definition note (r : Reference) (pmid : str) : str :=
  (if bool_decide (str_of (doi r) ≠ [])
   then u "[DOI:\href{https://dx.doi.org/" ++ str_of (doi r) ++ u "}{"
        ++ str_of (doi r) ++ u "}] ["
   else u "[")
  ++ u "PubMed:\href{https://www.ncbi.nlm.nih.gov/pubmed/" ++ pmid ++ u "}{"
  ++ pmid ++ u "}" ++ u "]".

(** §4.4, rules 1 to 10: the entry, for given values of the [author] and
    [pages] fields. The escaper is applied to the title, the journal, the
    copyright notice and the abstract. *)
Definition entry (r : Reference) (pmid author pages : str) : str :=
  u "% " ++ pmid ++ nl
  ++ u "@Article{pmid" ++ pmid ++ u "," ++ nl
  ++ u "   title = " ++ dq ++ u "{" ++ sanitizeBibtexField (str_of (title r))
     ++ u "}" ++ dq ++ u "," ++ nl
  ++ field (u "author") author
  ++ field (u "journal") (sanitizeBibtexField (journalName r))
  ++ field (u "volume") (str_of (volume r))
  ++ field (u "number") (str_of (issue r))
  ++ field (u "pages") pages
  ++ field (u "year") (str_of (pbyear r))
  ++ field (u "month") (str_of (pbmonth r))
  ++ (if bool_decide (str_of (issn r) ≠ [])
      then field (u "issn") (str_of (issn r)) else [])
  ++ (if bool_decide (str_of (copyright r) ≠ [])
      then field (u "copyright") (sanitizeBibtexField (str_of (copyright r)))
      else [])
  ++ u "   abstract = " ++ dq ++ u "{"
     ++ sanitizeBibtexField (str_of (abstract r)) ++ u "}" ++ dq ++ u "," ++ nl
  ++ u "   note = {" ++ note r pmid ++ u "}" ++ nl ++ u "}" ++ nl.

End Spec.

(** ** What the serializer writes in the computed fields *)

(** The [author] value: the joined authors, escaped. *)
Definition authorWritten (r : Reference) : str :=
  sanitizeBibtexField (Spec.authorsJoined r).

(** The [pages] value: the test is on the end page alone. *)
Definition pagesWritten (r : Reference) : str :=
  if bool_decide (Spec.str_of (endPage r) ≠ [])
  then Spec.str_of (startPage r) ++ u "--" ++ Spec.str_of (endPage r)
  else Spec.str_of (startPage r).

(** ** Example documents *)

Module Ex.

(** An element with text only, and one with children only. *)
Definition leaf (name content : string) : Element :=
  Elem (u name) [] (Some (u content)) [].
Definition node (name : string) (children : list Element) : Element :=
  Elem (u name) [] None children.

(** The document around an [Article] with the given children; the record
    has one identifier, its PubMed one. *)
Definition doc (article : list Element) : Element :=
  node "PubmedArticleSet"
    [ node "PubmedArticle"
        [ node "MedlineCitation" [ node "Article" article ];
          node "PubmedData"
            [ node "ArticleIdList"
                [ Elem (u "ArticleId") [(u "IdType", u "pubmed")]
                       (Some (u "31726262")) [] ] ] ] ].

(** A journal without a [JournalIssue] child. *)
Definition doc_no_JournalIssue : Element :=
  doc [ leaf "ArticleTitle" "A Study";
        node "Journal" [ leaf "Title" "Nature" ];
        node "AuthorList" [] ].

(** An article without an [AuthorList] child. *)
Definition doc_no_AuthorList : Element :=
  doc [ leaf "ArticleTitle" "A Study";
        node "Journal"
          [ leaf "Title" "Nature";
            node "JournalIssue" [ node "PubDate" [ leaf "Year" "2019" ] ] ] ].

(** An article with only an empty [AuthorList]: every node that the code
    guards is absent. *)
Definition doc_sparse : Element := doc [ node "AuthorList" [] ].

(** The record of the end-to-end scenario of §8. *)
Definition doc_study : Element :=
  doc [ leaf "ArticleTitle" "A Study";
        node "Journal"
          [ leaf "Title" "Nature";
            node "JournalIssue" [ node "PubDate" [ leaf "Year" "2019" ] ] ];
        node "AuthorList"
          [ node "Author" [ leaf "LastName" "Smith"; leaf "Initials" "J" ] ] ].

(** What the extractor returns for it. *)
Definition ref_study : Reference :=
  {| pmid := Some (u "31726262"); title := Some (u "A Study");
     authors := [ {| lastName := Some (u "Smith"); foreName := Some [];
                     initials := Some (u "J"); institution := Some [] |} ];
     journal := Some (u "Nature"); volume := Some []; issue := Some [];
     startPage := Some []; endPage := Some []; doi := Some [];
     pbyear := Some (u "2019"); pbmonth := Some []; issn := Some [];
     journalAb := Some []; copyright := Some [];
     article_url := Some (u "https://pubmed.ncbi.nlm.nih.gov/31726262/");
     abstract := Some [] |}.

(** The same record with a DOI among its identifiers. *)
Definition doc_doi : Element :=
  node "PubmedArticleSet"
    [ node "PubmedArticle"
        [ node "MedlineCitation"
            [ node "Article"
                [ leaf "ArticleTitle" "A Study"; node "AuthorList" [] ] ];
          node "PubmedData"
            [ node "ArticleIdList"
                [ Elem (u "ArticleId") [(u "IdType", u "pubmed")]
                       (Some (u "31726262")) [];
                  Elem (u "ArticleId") [(u "IdType", u "doi")]
                       (Some (u "10.1000/xyz")) [] ] ] ] ].

(** A reference with an end page and no start page. *)
Definition ref_endPage_only : Reference :=
  set_endPage (Reference_init (Some (u "1"))) (Some (u "5")).

(** A reference whose author has an apostrophe in the last name. *)
Definition ref_apostrophe : Reference :=
  set_authors (Reference_init (Some (u "1")))
    [ {| lastName := Some (u "O'Neil"); foreName := Some (u "Jane");
         initials := Some (u "J"); institution := Some [] |} ].

(** A reference with escapable characters in the fields that are not
    escaped. *)
Definition ref_verbatim : Reference :=
  set_issn
    (set_pbmonth
       (set_pbyear
          (set_endPage
             (set_startPage
                (set_issue
                   (set_volume (Reference_init (Some (u "1"))) (Some (u "#1")))
                   (Some (u "2&3")))
                (Some (u "10_")))
             (Some (u "%20")))
          (Some (u "{2019}")))
       (Some (u "Jan~")))
    (Some (u "1476-4687;")).

(** A record whose title element has no text. *)
Definition doc_empty_title : Element :=
  doc [ node "ArticleTitle" []; node "AuthorList" [] ].

(** A record with an identifier that has no [IdType] attribute. *)
Definition doc_untyped_id : Element :=
  node "PubmedArticleSet"
    [ node "PubmedArticle"
        [ node "MedlineCitation"
            [ node "Article"
                [ leaf "ArticleTitle" "A Study"; node "AuthorList" [] ] ];
          node "PubmedData"
            [ node "ArticleIdList"
                [ Elem (u "ArticleId") [(u "IdType", u "doi")]
                       (Some (u "10.1000/xyz")) [];
                  Elem (u "ArticleId") [] (Some (u "31726262")) [] ] ] ] ].

End Ex.

(** ** Checking a list of code points for repetitions *)

Module NOrder <: Orders.TotalLeBool.
Definition t : Type := N.
Definition leb : N → N → bool := N.leb.
Lemma leb_total (x y : N) : leb x y = true ∨ leb y x = true.
Proof. unfold leb. rewrite !N.leb_le. lia. Qed.
End NOrder.
Module NSort := Mergesort.Sort NOrder.

(** Whether every element is smaller than the next one. *)
Fixpoint increasing (l : list N) : bool :=
  match l with
  | [] => true
  | x :: l' =>
      match l' with
      | [] => true
      | y :: _ => N.ltb x y && increasing l'
      end
  end.

(** ** The nodes of a document that the extractor visits *)

Module Doc.

(** The first record of the document. *)
Definition record (root : Element) : option Element :=
  head (findall root (u "PubmedArticle")).

(** Its [Article] node, under [MedlineCitation]. *)
Definition article (root : Element) : option Element :=
  pubmedArticle ← record root;
  medlineCitation ← find pubmedArticle (u "MedlineCitation");
  find medlineCitation (u "Article").

(** Whether an identifier has the [IdType] attribute. *)
Definition has_IdType (articleId : Element) : bool :=
  match getitem (attrib articleId) (u "IdType") with
  | Ok _ => true
  | Raise _ => false
  end.

(** The nodes without which the extractor raises: the first record, its
    identifier list with an [IdType] on every identifier, its article, the
    [JournalIssue] of the journal if there is a journal, and the author
    list. *)
Definition extractable (root : Element) : bool :=
  match Spec.articleIds root, article root with
  | Some ids, Some art =>
      forallb has_IdType ids
      && match find art (u "Journal") with
         | Some journalElement =>
             bool_decide (is_Some (find journalElement (u "JournalIssue")))
         | None => true
         end
      && bool_decide (is_Some (find art (u "AuthorList")))
  | _, _ => false
  end.

End Doc.

(** ** The attributes of a reference that the serializer reads *)

Module Ser.

(** The reference with the attributes that the serializer does not read
    blanked: [pmid], [article_url], the fore name and the institution of
    every author, and the full journal name when there is an
    abbreviation. *)
Definition used_author (a : Author) : Author :=
  {| lastName := lastName a; foreName := Some []; initials := initials a;
     institution := Some [] |}.
Definition used (r : Reference) : Reference :=
  {| pmid := Some []; title := title r;
     authors := used_author <$> authors r;
     journal := if ne_empty (journalAb r) then Some [] else journal r;
     volume := volume r; issue := issue r; startPage := startPage r;
     endPage := endPage r; doi := doi r; pbyear := pbyear r;
     pbmonth := pbmonth r; issn := issn r; journalAb := journalAb r;
     copyright := copyright r; article_url := Some [];
     abstract := abstract r |}.

(** Whether every attribute that the serializer reads holds a string. *)
Definition serializable (r : Reference) : bool := Spec.typed (used r).

End Ser.

(** ** The 7-bit characters that the escaper replaces *)

(** The keys of the escape table below 128, but for the hyphen, which the
    table maps to itself: [# $ % & ' * + ; < > \ ^ _ ` { | } ~]. *)
Definition escaped_ascii : list N :=
  [ord "#"; ord "$"; ord "%"; ord "&"; ord "'"; ord "*"; ord "+"; ord ";";
   ord "<"; ord ">"; ord "\"; ord "^"; ord "_"; ord "`"; ord "{"; ord "|";
   ord "}"; ord "~"].

(** ** The two conversions *)

(** What a conversion does to the outside: it prints a line, or it calls
    [createFile] with a file name and a content. The collaborators that it
    calls before, [fetchXML] and [fetchBibtex], are outside of the model:
    a conversion is given what they return. *)
Inductive event : Type :=
  | Print (text : list N)
  | CreateFile (filename content : list N).

(** [v.method(...)] on a value that may be [None]. *)
Definition method {A} (v : option (list N)) (f : list N → result A) : result A :=
  match v with
  | Some s => f s
  | None => Raise AttributeError
  end.

Section Conversions.

(** [str(err)], the text of an exception, is the interpreter's. *)
Variable message : exn → list N.

(** [pmid2bibtex(pmid)], where [fetched] is the tree that
    [fromstring(fetchXML(pmid))] gives inside [parseXML], or the exception
    that the two raise. Whatever the body raises is printed. *)
Definition pmid2bibtex (pmid : list N) (fetched : result Element) : list event :=
  if bool_decide (length pmid < 1 ∨ 8 < length pmid)
  then [Print (u "Wrong identifer length, it must have 1 to 8 digits")]
  else if bool_decide (head pmid = Some (ord "0"))
  then [Print (u "The identifier can not start with 0")]
  else
    match (xml ← fetched;
           reference ← parseXML pmid xml;
           bibtex_content ← createBibtexContent reference pmid;
           name ← method (title reference) sanitizeFileName;
           Ok (name ++ u ".bib", bibtex_content)) with
    | Ok (filename, bibtex_content) =>
        [CreateFile filename bibtex_content;
         Print (u "File " ++ dq ++ filename ++ dq ++ u " was created.")]
    | Raise err =>
        [Print (u "Error processing " ++ pmid ++ u ":" ++ nl ++ u " "
                ++ message err)]
    end.

End Conversions.


(** ** Facts about the Python primitives *)

Lemma bind_Ok {A B} (m : result A) (f : A → result B) b :
  m ≫= f = Ok b ↔ ∃ a, m = Ok a ∧ f a = Ok b.
Proof.
  destruct m as [a|e]; simpl; split.
  - eauto.
  - by intros (? & [= <-] & ?).
  - done.
  - by intros (? & ? & ?).
Qed.

Lemma dict_snoc {V} (items : list (N * V)) k v :
  dict (items ++ [(k, v)]) = <[k := v]> (dict items).
Proof. unfold dict. by rewrite foldl_snoc. Qed.

(** A dict display holds, for every key, the value of its last item. *)
Lemma dict_list_to_map {V} (items : list (N * V)) :
  dict items = list_to_map (reverse items).
Proof.
  induction items as [|[k v] items IH] using rev_ind; [done|].
  by rewrite dict_snoc, reverse_snoc, IH.
Qed.

Lemma dict_lookup_NoDup {V} (items : list (N * V)) k v :
  NoDup items.*1 → dict items !! k = Some v ↔ (k, v) ∈ items.
Proof.
  intros Hnd. rewrite dict_list_to_map, <- elem_of_list_to_map.
  - by rewrite elem_of_reverse.
  - by rewrite reverse_Permutation.
Qed.

Lemma dict_lookup_None {V} (items : list (N * V)) k :
  dict items !! k = None ↔ k ∉ items.*1.
Proof.
  rewrite dict_list_to_map, <- not_elem_of_list_to_map.
  by rewrite fmap_reverse, elem_of_reverse.
Qed.

Lemma join_empty_sep (parts : list str) : join [] parts = mjoin parts.
Proof.
  induction parts as [|p [|q parts] IH]; simpl in *.
  - done.
  - by rewrite app_nil_r.
  - by rewrite IH.
Qed.

Lemma drop_last_snoc (s : str) c : drop_last (s ++ [c]) = s.
Proof.
  unfold drop_last. rewrite length_app. simpl.
  replace (length s + 1 - 1) with (length s) by lia.
  by rewrite take_app_length.
Qed.

Lemma last_char_Ok (s : str) c : last_char s = Ok c ↔ last s = Some c.
Proof. unfold last_char. destruct (last s); split; congruence. Qed.

Lemma last_char_Raise (s : str) e :
  last_char s = Raise e ↔ s = [] ∧ e = IndexError.
Proof.
  unfold last_char. destruct (last s) eqn:Hl.
  - split; [done|]. intros [-> _]. done.
  - apply last_None in Hl. split; [by intros [= <-]|]. by intros [_ ->].
Qed.

(** ** The file name sanitizer *)

(** What the translation table holds for an arbitrary code point. *)
Lemma fileNameTable_lookup (c : N) :
  fileNameTable !! c =
    if bool_decide (c ∈ Spec.removed) then Some None
    else if bool_decide (c = ord "/") then Some (Some (u " "))
    else None.
Proof.
  destruct (decide (c ∈ [63; 47; 34; 93; 91; 125; 123]%N)) as [Hc|Hc].
  - repeat (apply elem_of_cons in Hc as [->|Hc]; [by vm_compute|]).
    by apply elem_of_nil in Hc.
  - rewrite !elem_of_cons, elem_of_nil in Hc.
    rewrite bool_decide_eq_false_2, bool_decide_eq_false_2.
    + apply dict_lookup_None. change (c ∉ [123; 125; 91; 93; 34; 47; 63]%N).
      rewrite !elem_of_cons, elem_of_nil. tauto.
    + change (c ≠ 47%N). tauto.
    + change (c ∉ [123; 125; 91; 93; 34; 63]%N).
      rewrite !elem_of_cons, elem_of_nil. tauto.
Qed.

(** The table of the source removes and replaces what §4.3 lists. *)
Lemma translate_fileNameTable (text : str) :
  translate fileNameTable text = Spec.cleaned text.
Proof.
  unfold translate, Spec.cleaned.
  induction text as [|c text IH]; [done|].
  rewrite fmap_cons, filter_cons. change (mjoin (?x :: ?l)) with (x ++ mjoin l).
  rewrite IH, fileNameTable_lookup.
  case_bool_decide as Hrem.
  - by rewrite decide_False by tauto.
  - rewrite decide_True by done. rewrite fmap_cons.
    by case_bool_decide.
Qed.

Lemma sanitizeFileName_unfold (text : str) :
  sanitizeFileName text =
    match last (Spec.cleaned text) with
    | None => Raise IndexError
    | Some c =>
        if bool_decide (c = ord ".") then Ok (drop_last (Spec.cleaned text))
        else Ok (Spec.cleaned text)
    end.
Proof.
  unfold sanitizeFileName, last_char. rewrite translate_fileNameTable.
  by destruct (last (Spec.cleaned text)).
Qed.

(** The sanitizer fails exactly on the inputs that the removals empty. *)
Lemma sanitizeFileName_raises_iff (text : str) :
  sanitizeFileName text = Raise IndexError ↔ Spec.cleaned text = [].
Proof.
  rewrite sanitizeFileName_unfold.
  destruct (last (Spec.cleaned text)) as [c|] eqn:Hl.
  - split.
    + by case_bool_decide.
    + intros He. by rewrite He in Hl.
  - by apply last_None in Hl.
Qed.

Lemma cleaned_nil_iff (text : str) :
  Spec.cleaned text = [] ↔ Forall (λ c, c ∈ Spec.removed) text.
Proof.
  unfold Spec.cleaned.
  induction text as [|c text IH]; [by split|].
  rewrite filter_cons, Forall_cons. case_decide as Hc.
  - split; [done|]. by intros [? _].
  - rewrite IH. split; [|tauto]. intros ?. split; [|done].
    by destruct (decide (c ∈ Spec.removed)).
Qed.

(** C4: the claim says the trailing-dot check guards the empty case, so
    that [sanitizeFileName] returns a string on every input. The code
    indexes [result[-1]] unguarded: on the empty string, and on a lone
    question mark, which the removals empty, it raises [IndexError]. *)
Theorem sanitizeFileName_empty_IndexError :
  sanitizeFileName [] = Raise IndexError ∧
  sanitizeFileName (u "?") = Raise IndexError.
Proof. split; reflexivity. Qed.

(** C9: when the text left by the removals (every brace, square bracket,
    double quote and question mark removed, every slash replaced by a
    space) is not empty, [sanitizeFileName] returns
    it without its last character if that is a dot, and unchanged
    otherwise. *)
Theorem sanitizeFileName_spec (text : str) :
  Spec.cleaned text ≠ [] →
  (∀ s, Spec.cleaned text = s ++ u "." → sanitizeFileName text = Ok s) ∧
  (last (Spec.cleaned text) ≠ Some (ord ".") →
     sanitizeFileName text = Ok (Spec.cleaned text)).
Proof.
  intros Hne. rewrite sanitizeFileName_unfold. split.
  - intros s Hs. rewrite Hs. change (u ".") with [ord "."].
    rewrite last_snoc, bool_decide_eq_true_2 by done.
    by rewrite drop_last_snoc.
  - intros Hl. destruct (last (Spec.cleaned text)) as [c|] eqn:Hc.
    + rewrite bool_decide_eq_false_2; [done|]. congruence.
    + by apply last_None in Hc.
Qed.

(** The example of §8: [Effects of A/B on C.] gives [Effects of A B on C]. *)
Lemma sanitizeFileName_spec_witness :
  Spec.cleaned (u "Effects of A/B on C.") ≠ [] ∧
  Spec.cleaned (u "Effects of A/B on C.") = u "Effects of A B on C" ++ u "." ∧
  sanitizeFileName (u "Effects of A/B on C.") = Ok (u "Effects of A B on C").
Proof.
  assert (Hne : Spec.cleaned (u "Effects of A/B on C.") ≠ []) by done.
  split; [exact Hne|]. split; [reflexivity|].
  apply (proj1 (sanitizeFileName_spec (u "Effects of A/B on C.") Hne)).
  reflexivity.
Defined.

(** ** The escape table and the text escaper *)

Lemma increasing_lt (x : N) (l : list N) :
  increasing (x :: l) = true → Forall (λ y, (x < y)%N) l.
Proof.
  revert x. induction l as [|y l IH]; intros x; [by constructor|].
  cbn [increasing]. intros [Hxy Hl]%andb_prop. apply N.ltb_lt in Hxy.
  constructor; [done|]. apply IH in Hl.
  eapply Forall_impl; [exact Hl|]. simpl. intros z ?. lia.
Qed.

Lemma increasing_NoDup (l : list N) : increasing l = true → NoDup l.
Proof.
  induction l as [|x l IH]; [constructor|]. intros Hl. constructor.
  - intros Hin. apply increasing_lt in Hl.
    rewrite Forall_forall in Hl. specialize (Hl x Hin). lia.
  - apply IH. destruct l; [done|]. cbn [increasing] in Hl.
    by apply andb_prop in Hl as [_ ?].
Qed.

(** No code point is a key of two items of the table literal: sorted, the
    keys are strictly increasing. *)
Lemma uni2tex_items_NoDup : NoDup uni2tex_items.*1.
Proof.
  rewrite (NSort.Permuted_sort uni2tex_items.*1).
  apply increasing_NoDup. by vm_compute.
Qed.

(** So the table maps a code point to the replacement of its item. *)
Lemma uni2tex_lookup (c : N) (replacement : str) :
  uni2tex !! c = Some replacement ↔ (c, replacement) ∈ uni2tex_items.
Proof. apply dict_lookup_NoDup, uni2tex_items_NoDup. Qed.

Lemma uni2tex_lookup_None (c : N) :
  uni2tex !! c = None ↔ c ∉ uni2tex_items.*1.
Proof. apply dict_lookup_None. Qed.

Lemma sanitizeBibtexField_cons (c : N) (text : str) :
  sanitizeBibtexField (c :: text) = get uni2tex c [c] ++ sanitizeBibtexField text.
Proof.
  unfold sanitizeBibtexField. rewrite !join_empty_sep, fmap_cons. reflexivity.
Qed.

(** The escaper works code point by code point. *)
Lemma sanitizeBibtexField_app (s t : str) :
  sanitizeBibtexField (s ++ t) = sanitizeBibtexField s ++ sanitizeBibtexField t.
Proof.
  induction s as [|c s IH]; [reflexivity|].
  rewrite <- app_comm_cons, !sanitizeBibtexField_cons, IH.
  apply (assoc_L (++)).
Qed.

(** C6: [sanitizeBibtexField] is the in-order concatenation, over the code
    points of its input, of the table's replacement for a code point that
    is a key and of the code point itself otherwise; the code point U+00E9
    alone gives the replacement of its item in the table. *)
Theorem sanitizeBibtexField_escape :
  (∀ text : str, sanitizeBibtexField text = Spec.escape text) ∧
  (0xE9%N, u "{\'{e}}") ∈ uni2tex_items ∧
  sanitizeBibtexField [0xE9%N] = u "{\'{e}}".
Proof.
  split; [|split].
  - intros text. induction text as [|c text IH]; [reflexivity|].
    rewrite sanitizeBibtexField_cons, IH. unfold get.
    change (Spec.escape (c :: text))
      with (match uni2tex !! c with
            | Some replacement => replacement ++ Spec.escape text
            | None => c :: Spec.escape text
            end).
    destruct (uni2tex !! c); reflexivity.
  - apply uni2tex_lookup. by vm_compute.
  - by vm_compute.
Qed.

(** C7: escaping is not idempotent. The number sign is replaced by a text
    that has braces and a backslash, which are keys of the table, so a
    second pass changes it again. *)
Theorem sanitizeBibtexField_not_idempotent :
  ∃ s : str,
    sanitizeBibtexField s = u "{\#}" ∧
    sanitizeBibtexField (sanitizeBibtexField s)
      = u "$\lbrace${\textbackslash}{\#}$\rbrace$" ∧
    sanitizeBibtexField (sanitizeBibtexField s) ≠ sanitizeBibtexField s.
Proof.
  exists (u "#"). split; [by vm_compute|]. split; [by vm_compute|].
  vm_compute. discriminate.
Qed.

(** ** The title scan *)

Lemma after_prefix_app (p s : str) : after_prefix p (p ++ s) = Some s.
Proof.
  induction p as [|a p IH]; [done|]. simpl.
  by rewrite bool_decide_eq_true_2.
Qed.

Lemma match_to_newline_line (line rest : str) :
  10%N ∉ line → match_to_newline (line ++ 10%N :: rest) = Some (line ++ [10%N]).
Proof.
  induction line as [|c line IH]; intros Hnl; [done|].
  apply not_elem_of_cons in Hnl as [Hc Hnl]. simpl.
  rewrite bool_decide_eq_false_2 by done. by rewrite IH.
Qed.

Lemma re_search_title_here (s m : str) :
  match_title_here s = Some m → re_search_title s = Some m.
Proof. intros Hm. destruct s; cbn [re_search_title]; by rewrite Hm. Qed.

Lemma lstrip_app_all (chars p s : str) :
  Forall (λ c, c ∈ chars) p → lstrip chars (p ++ s) = lstrip chars s.
Proof.
  induction 1 as [|c p Hc _ IH]; [done|]. simpl.
  by rewrite bool_decide_eq_true_2.
Qed.

(** On a text that starts with a title line, [getTitle] strips from the
    rest of the line every leading character that occurs in [title = {]
    and every trailing one that occurs in [},] or is a newline, and then
    removes the braces. *)
Lemma getTitle_title_line (T rest : str) :
  10%N ∉ T →
  getTitle (u "title = {" ++ T ++ u "}," ++ nl ++ rest)
    = Ok (translate (dict [(ord "{", None); (ord "}", None)])
            (rstrip (u "}," ++ nl)
               (lstrip (u "title = {") (T ++ u "}," ++ nl)))).
Proof.
  intros Hnl. unfold getTitle.
  assert (Hs : re_search_title (u "title = {" ++ T ++ u "}," ++ nl ++ rest)
               = Some (u "title = {" ++ T ++ u "}," ++ nl)).
  { change (u "title = {") with (u "title = " ++ u "{").
    rewrite <- !(assoc_L (++) (u "title = ")).
    assert (Hm : match_title_here
                   (u "title = " ++ u "{" ++ T ++ u "}," ++ nl ++ rest)
                 = Some (u "title = " ++ u "{" ++ T ++ u "}," ++ nl)).
    { unfold match_title_here. rewrite after_prefix_app. cbn [mbind option_bind].
      change (nl ++ rest) with (10%N :: rest).
      rewrite !(assoc_L (++) _ _ (10%N :: rest)).
      rewrite match_to_newline_line.
      - cbn [mbind option_bind].
        by rewrite <- !(assoc_L (++)).
      - rewrite !elem_of_app. intros [Hin|[Hin|Hin]]; [|done|].
        + revert Hin. apply (bool_decide_unpack (10%N ∉ u "{")). by vm_compute.
        + revert Hin. apply (bool_decide_unpack (10%N ∉ u "},")). by vm_compute. }
    by rewrite re_search_title_here with (m := u "title = " ++ u "{" ++ T ++ u "}," ++ nl). }
  rewrite Hs. cbn [mbind result_bind group].
  change (u "title = {" ++ T ++ u "}," ++ nl)
    with (u "title = {" ++ (T ++ u "}," ++ nl)).
  rewrite (lstrip_app_all (u "title = {") (u "title = {")); [done|].
  apply Forall_forall. auto.
Qed.

(** C5: the claim says that [getTitle] returns the title between the
    braces, whatever it begins or ends with. The code strips with
    [lstrip] and [rstrip], which take a set of characters and not a prefix
    or suffix: a title that begins with a letter of [title] loses it, and
    one that ends with a comma loses that. *)
Theorem getTitle_eats_title_letters :
  getTitle (u "title = {tRNA structure}," ++ nl) = Ok (u "RNA structure") ∧
  getTitle (u "title = {ideal}," ++ nl) = Ok (u "deal") ∧
  getTitle (u "title = {Proteins, lipids,}," ++ nl) = Ok (u "Proteins, lipids").
Proof. repeat split; by vm_compute. Qed.

(** ** The reference extractor *)

(** Case analysis on a computation that returned. *)
Ltac crush_Ok :=
  repeat match goal with
  | H : _ ≫= _ = Ok _ |- _ =>
      let H' := fresh H in apply bind_Ok in H as (? & H' & H)
  | H : Ok _ = Ok _ |- _ => injection H as H; subst
  | H : Raise _ = Ok _ |- _ => discriminate H
  | H : match ?o with _ => _ end = Ok _ |- _ => destruct o eqn:?
  | H : find_in _ _ = Ok _ |- _ => clear H
  | H : iter _ = Ok _ |- _ => clear H
  end.

(** The identifier scan touches [doi] only. *)
Lemma scanArticleIds_doi (ids : list Element) (r r' : Reference) :
  scanArticleIds r ids = Ok r' →
  pmid r' = pmid r ∧ article_url r' = article_url r ∧
  authors r' = authors r ∧ title r' = title r.
Proof.
  revert r. induction ids as [|articleId ids IH]; intros r Hs; simpl in Hs.
  - by injection Hs as <-.
  - apply bind_Ok in Hs as (idType & _ & Hs).
    apply IH in Hs. by case_bool_decide.
Qed.

(** What [parseXML] stores in [doi] and [article_url] is decided before it
    descends into the article, and nothing later changes them. *)
Lemma parseXML_doi_url (pmid : str) (root : Element) (ref : Reference) :
  parseXML pmid root = Ok ref →
  ∃ pubmedArticle rest idList r,
    findall root (u "PubmedArticle") = pubmedArticle :: rest ∧
    find_in (find pubmedArticle (u "PubmedData")) (u "ArticleIdList")
      = Ok idList ∧
    (ids ← iter idList; scanArticleIds (Reference_init (Some pmid)) ids) = Ok r ∧
    doi ref = doi r ∧
    article_url ref =
      if eq_empty (doi r)
      then Some (u "https://pubmed.ncbi.nlm.nih.gov/" ++ pmid ++ u "/")
      else Some (u "https://doi.org/" ++ fmt (doi r)).
Proof.
  unfold parseXML. destruct (findall root _) as [|pubmedArticle rest]; [done|].
  intros H. cbv zeta in H.
  apply bind_Ok in H as (idList & HidList & H).
  apply bind_Ok in H as (ids & Hids & H).
  apply bind_Ok in H as (r & Hr & H).
  exists pubmedArticle, rest, idList, r. split; [done|]. split; [done|].
  split; [by rewrite Hids|].
  clear HidList Hids Hr. crush_Ok.
  all: repeat match goal with
       | |- context [match ?o with _ => _ end] => destruct o
       end; done.
Qed.

(** The scan leaves in [doi] the text of the last identifier tagged as a
    DOI, and what was there before when there is none. *)
Lemma scanArticleIds_last (ids : list Element) (r r' : Reference) :
  scanArticleIds r ids = Ok r' →
  doi r' = from_option text (doi r) (last (filter (λ e, Spec.is_doi e) ids)).
Proof.
  revert r. induction ids as [|articleId ids IH]; intros r Hs; simpl in Hs.
  - by injection Hs as <-.
  - apply bind_Ok in Hs as (idType & HidType & Hs). apply IH in Hs.
    rewrite Hs, filter_cons.
    assert (Hdoi : Spec.is_doi articleId = bool_decide (idType = u "doi"))
      by (unfold Spec.is_doi; by rewrite HidType).
    destruct (decide (Spec.is_doi articleId)) as [Hd|Hd];
      rewrite Hdoi in Hd.
    + rewrite last_cons. destruct (bool_decide (idType = u "doi")); [|done].
      by destruct (last (filter _ ids)).
    + by destruct (bool_decide (idType = u "doi")).
Qed.

Lemma parseXML_articleIds (pmid : str) (root : Element) (ref : Reference) :
  parseXML pmid root = Ok ref →
  ∃ ids, Spec.articleIds root = Some ids ∧
    doi ref = from_option text (Some [])
                (last (filter (λ e, Spec.is_doi e) ids)).
Proof.
  intros H. apply parseXML_doi_url in H
    as (pubmedArticle & rest & idList & r & Hf & Hl & Hs & Hd & _).
  apply bind_Ok in Hs as (ids & Hids & Hs). exists ids. split.
  - unfold Spec.articleIds. rewrite Hf. simpl.
    destruct (find pubmedArticle (u "PubmedData")) as [pubmedData|];
      [|done]. simpl in *. injection Hl as <-.
    destruct (find pubmedData (u "ArticleIdList")); [|done].
    simpl in *. by injection Hids as <-.
  - rewrite Hd. by apply scanArticleIds_last in Hs.
Qed.

Lemma doiUrl_ne_pubmedUrl (doi : option str) (id : str) :
  Spec.doiUrl doi ≠ Spec.pubmedUrl id.
Proof. unfold Spec.doiUrl, Spec.pubmedUrl. by vm_compute. Qed.

(** C2: in every extracted [Reference], [article_url] is the DOI-resolver
    URL of [doi] when [doi] is not the empty string and the PubMed landing
    page of [pmid] otherwise; it is computed from the two and never read
    from the document. With a non-empty [doi] it is never a PubMed landing
    page; and that is the case for every record that carries an identifier
    tagged as a DOI, the parser giving no element an empty text. *)
Theorem parseXML_article_url (pmid : str) (root : Element) (ref : Reference) :
  parseXML pmid root = Ok ref →
  article_url ref = Some (Spec.articleUrl pmid (doi ref)) ∧
  (doi ref ≠ Some [] →
     article_url ref = Some (Spec.doiUrl (doi ref)) ∧
     ∀ id, article_url ref ≠ Some (Spec.pubmedUrl id)) ∧
  (∀ ids, Spec.articleIds root = Some ids →
     Exists (λ e, Spec.is_doi e) ids →
     Forall (λ e, text e ≠ Some []) ids →
     doi ref ≠ Some []).
Proof.
  intros H.
  assert (Hurl : article_url ref = Some (Spec.articleUrl pmid (doi ref))).
  { apply parseXML_doi_url in H as (? & ? & ? & r & _ & _ & _ & -> & ->).
    unfold Spec.articleUrl, eq_empty.
    destruct (doi r) as [[|??]|]; by vm_compute. }
  split; [done|]. split.
  - intros Hd. rewrite Hurl. unfold Spec.articleUrl.
    rewrite bool_decide_eq_true_2 by done. split; [done|].
    intros id Heq. apply (doiUrl_ne_pubmedUrl (doi ref) id). congruence.
  - intros ids Hids Hex Hall.
    apply parseXML_articleIds in H as (ids' & Hids' & ->).
    rewrite Hids in Hids'. injection Hids' as <-.
    destruct (last (filter _ ids)) as [e|] eqn:Hlast; simpl.
    + apply last_Some_elem_of, list_elem_of_filter in Hlast as [_ He].
      by eapply Forall_forall in Hall.
    + apply last_None in Hlast. apply Exists_exists in Hex as (e & He & Hdoi).
      assert (Hin : e ∈ filter (λ e, Spec.is_doi e) ids)
        by by apply list_elem_of_filter.
      rewrite Hlast in Hin. by apply elem_of_nil in Hin.
Qed.

(** The record of the end-to-end scenario has no DOI and gets the PubMed
    landing page. *)
Lemma parseXML_article_url_witness :
  parseXML (u "31726262") Ex.doc_study = Ok Ex.ref_study ∧
  article_url Ex.ref_study
    = Some (Spec.articleUrl (u "31726262") (doi Ex.ref_study)).
Proof.
  assert (H : parseXML (u "31726262") Ex.doc_study = Ok Ex.ref_study)
    by (vm_compute; reflexivity).
  split; [exact H|].
  exact (proj1 (parseXML_article_url (u "31726262") Ex.doc_study Ex.ref_study H)).
Defined.

(** A journal without a [JournalIssue] child stops the extraction: the
    code calls [find] on the absent node. *)
Lemma parseXML_no_JournalIssue (pmid : str) (root : Element)
    (pubmedArticle article journalElement : Element) (rest : list Element) :
  findall root (u "PubmedArticle") = pubmedArticle :: rest →
  find_in (find pubmedArticle (u "MedlineCitation")) (u "Article")
    = Ok (Some article) →
  find article (u "Journal") = Some journalElement →
  find journalElement (u "JournalIssue") = None →
  ∀ ref, parseXML pmid root ≠ Ok ref.
Proof.
  intros Hf Ha Hj Hi ref H. unfold parseXML in H. rewrite Hf, Ha in H.
  cbv zeta in H.
  apply bind_Ok in H as (? & _ & H). apply bind_Ok in H as (? & _ & H).
  apply bind_Ok in H as (? & _ & H). apply bind_Ok in H as (? & [= <-] & H).
  apply bind_Ok in H as (? & [= <-] & H). apply bind_Ok in H as (? & [= <-] & H).
  apply bind_Ok in H as (? & [= <-] & H). rewrite Hj in H.
  apply bind_Ok in H as (? & H & _). by rewrite Hi in H.
Qed.

(** An article without an [AuthorList] child stops it as well: the code
    iterates over the absent node. *)
Lemma parseXML_no_AuthorList (pmid : str) (root : Element)
    (pubmedArticle article : Element) (rest : list Element) :
  findall root (u "PubmedArticle") = pubmedArticle :: rest →
  find_in (find pubmedArticle (u "MedlineCitation")) (u "Article")
    = Ok (Some article) →
  find article (u "AuthorList") = None →
  ∀ ref, parseXML pmid root ≠ Ok ref.
Proof.
  intros Hf Ha Hl ref H. unfold parseXML in H. rewrite Hf, Ha in H.
  cbv zeta in H.
  apply bind_Ok in H as (? & _ & H). apply bind_Ok in H as (? & _ & H).
  apply bind_Ok in H as (? & _ & H). apply bind_Ok in H as (? & [= <-] & H).
  apply bind_Ok in H as (? & [= <-] & H). apply bind_Ok in H as (? & [= <-] & H).
  apply bind_Ok in H as (? & [= <-] & H). apply bind_Ok in H as (? & _ & H).
  apply bind_Ok in H as (? & [= <-] & H). apply bind_Ok in H as (? & [= <-] & H).
  rewrite Hl in H. by apply bind_Ok in H as (? & ? & _).
Qed.

(** C1: the claim says that an absent [JournalIssue] or [AuthorList] gives
    empty fields and no exception. The code guards the other optional
    nodes but not these two: without a [JournalIssue] under [Journal] it
    raises [AttributeError], without an [AuthorList] under [Article] it
    raises [TypeError], and no [Reference] is returned. *)
Theorem parseXML_unguarded_nodes_raise :
  parseXML (u "31726262") Ex.doc_no_JournalIssue = Raise AttributeError ∧
  parseXML (u "31726262") Ex.doc_no_AuthorList = Raise TypeError.
Proof. split; by vm_compute. Qed.

(** The nodes that the code does guard: a record without abstract,
    journal and pagination is extracted, with those fields empty. *)
Lemma parseXML_guarded_nodes :
  parseXML (u "31726262") Ex.doc_sparse
    = Ok (set_article_url (Reference_init (Some (u "31726262")))
            (Some (u "https://pubmed.ncbi.nlm.nih.gov/31726262/"))).
Proof. by vm_compute. Qed.

(** ** The BibTeX serializer *)

Lemma is_str_Some (v : option str) :
  Spec.is_str v = true → v = Some (Spec.str_of v).
Proof. by destruct v. Qed.

Lemma ne_empty_Some (s : str) : ne_empty (Some s) = bool_decide (s ≠ []).
Proof. by destruct s. Qed.

Lemma formatAuthor_typed (a : Author) :
  Spec.typed_author a = true → formatAuthor a = Ok (Spec.authorText a).
Proof.
  destruct a as [[l|] [f|] [i|] [n|]]; try done. intros _.
  unfold formatAuthor, Spec.authorText.
  cbn [mbind result_bind add lastName initials Spec.str_of].
  by rewrite <- !(assoc_L (++)).
Qed.

Lemma mapM_formatAuthor_typed (l : list Author) :
  forallb Spec.typed_author l = true →
  mapM formatAuthor l = Ok (Spec.authorText <$> l).
Proof.
  induction l as [|a l IH]; [done|]. cbn [forallb mapM fmap list_fmap].
  intros [Ha Hl]%andb_prop. rewrite (formatAuthor_typed a Ha).
  cbn [mbind result_bind]. by rewrite (IH Hl).
Qed.

Lemma appendFormattedField_Some (buf name value : str) :
  appendFormattedField buf name (Some value)
    = Ok (buf ++ Spec.field name value).
Proof.
  unfold appendFormattedField, Spec.field. cbn [mbind result_bind write].
  by rewrite <- !(assoc_L (++)).
Qed.

Lemma authorsText_typed (l : list Author) :
  forallb Spec.typed_author l = true →
  (if bool_decide (0 < length l)
   then join (u " and ") <$> mapM formatAuthor l
   else Ok [])
  = Ok (join (u " and ") (Spec.authorText <$> l)).
Proof.
  intros Hl. rewrite (mapM_formatAuthor_typed l Hl).
  by destruct l.
Qed.

Lemma pages_typed (sp ep : str) :
  (if ne_empty (Some ep)
   then s ← add (Some sp) (Some (u "--")); Some <$> add (Some s) (Some ep)
   else Ok (Some sp))
  = Ok (Some (if bool_decide (ep ≠ []) then sp ++ u "--" ++ ep else sp)).
Proof.
  rewrite ne_empty_Some. case_bool_decide; [|done].
  cbn [mbind result_bind fmap result_fmap add]. by rewrite <- app_assoc.
Qed.

Lemma theJournal_typed (jab jo : str) :
  iterable (if ne_empty (Some jab) then Some jab else Some jo)
  = Ok (if bool_decide (jab ≠ []) then jab else jo).
Proof. rewrite ne_empty_Some. by case_bool_decide. Qed.

Lemma notes_typed {B} (d ident : str) (k : str → result B) :
  (notes ←
     (if ne_empty (Some d)
      then notes ← write StringIO_new (Some (u "[DOI:\href{https://dx.doi.org/"));
           s ← add (Some d) (Some (u "}{"));
           s ← add (Some s) (Some d);
           s ← add (Some s) (Some (u "}] ["));
           write notes (Some s)
      else write StringIO_new (Some (u "[")));
   notes ← write notes (Some (u "PubMed:\href{https://www.ncbi.nlm.nih.gov/pubmed/"));
   notes ← write notes (Some (ident ++ u "}{" ++ ident ++ u "}"));
   notes ← write notes (Some (u "]"));
   k notes)
  = k ((if bool_decide (d ≠ [])
        then u "[DOI:\href{https://dx.doi.org/" ++ d ++ u "}{" ++ d ++ u "}] ["
        else u "[")
       ++ u "PubMed:\href{https://www.ncbi.nlm.nih.gov/pubmed/" ++ ident
       ++ u "}{" ++ ident ++ u "}" ++ u "]").
Proof.
  rewrite ne_empty_Some. unfold StringIO_new.
  case_bool_decide; cbn [mbind result_bind add write]; f_equal;
    by rewrite ?app_nil_l, <- ?app_assoc.
Qed.

Lemma optional_field_typed (buf name value shown : str) :
  (if ne_empty (Some value)
   then appendFormattedField buf name (Some shown)
   else Ok buf)
  = Ok (buf ++ if bool_decide (value ≠ []) then Spec.field name shown else []).
Proof.
  rewrite ne_empty_Some. case_bool_decide.
  - apply appendFormattedField_Some.
  - by rewrite app_nil_r.
Qed.

Local Opaque sanitizeBibtexField.

(** The serializer on a reference whose fields are strings returns the
    entry of §4.4 with [authorWritten] and [pagesWritten] in the [author]
    and [pages] fields. *)
Lemma createBibtexContent_typed (r : Reference) (ident : str) :
  Spec.typed r = true →
  createBibtexContent r ident
    = Ok (Spec.entry r ident (authorWritten r) (pagesWritten r)).
Proof.
  destruct r as [pid ti au jo vo iss sp ep d py pm isn jab cop url abs].
  unfold Spec.typed, Spec.entry, Spec.note, authorWritten, pagesWritten,
    Spec.authorsJoined, Spec.journalName, createBibtexContent.
  cbn [pmid title authors journal volume issue startPage
       endPage doi pbyear pbmonth issn journalAb copyright article_url
       abstract].
  intros H. repeat (apply andb_prop in H as [H ?]).
  repeat match goal with
         | H : Spec.is_str ?v = true |- _ =>
             destruct v; [clear H|discriminate H]
         end.
  cbn [Spec.str_of].
  rewrite authorsText_typed by done. cbn [mbind result_bind].
  rewrite pages_typed. cbn [mbind result_bind].
  rewrite notes_typed. unfold StringIO_new, getvalue.
  cbn [mbind result_bind write iterable].
  rewrite theJournal_typed. cbn [mbind result_bind].
  do 7 (rewrite appendFormattedField_Some; cbn [mbind result_bind]).
  rewrite optional_field_typed. cbn [mbind result_bind iterable].
  rewrite optional_field_typed. cbn [mbind result_bind write].
  f_equal. unfold Spec.field.
  rewrite ?app_nil_l, <- ?app_assoc. reflexivity.
Qed.

Lemma sanitizeBibtexField_fixed (s : str) :
  Forall (λ c, get uni2tex c [c] = [c]) s → sanitizeBibtexField s = s.
Proof.
  induction 1 as [|c s Hc _ IH]; [reflexivity|].
  by rewrite sanitizeBibtexField_cons, Hc, IH.
Qed.

(** C3, as the code has it: the [pages] value is the start page, the two
    dashes and the end page whenever the end page is not empty, also when
    the start page is empty, and the start page alone otherwise. *)
Theorem createBibtexContent_pages (r : Reference) (ident : str) :
  Spec.typed r = true →
  (Spec.str_of (endPage r) ≠ [] →
     createBibtexContent r ident
       = Ok (Spec.entry r ident (authorWritten r)
               (Spec.str_of (startPage r) ++ u "--" ++ Spec.str_of (endPage r)))) ∧
  (Spec.str_of (endPage r) = [] →
     createBibtexContent r ident
       = Ok (Spec.entry r ident (authorWritten r) (Spec.str_of (startPage r)))) ∧
  (Spec.str_of (startPage r) ≠ [] → pagesWritten r = Spec.pagesJoined r).
Proof.
  intros Ht. rewrite (createBibtexContent_typed r ident Ht).
  unfold pagesWritten, Spec.pagesJoined. repeat split.
  - intros Hep. by rewrite bool_decide_eq_true_2.
  - intros Hep. by rewrite bool_decide_eq_false_2 by (by intros ?).
  - intros Hsp. by repeat case_bool_decide; try tauto.
Qed.

Lemma createBibtexContent_pages_witness :
  Spec.typed Ex.ref_endPage_only = true ∧
  createBibtexContent Ex.ref_endPage_only (u "1")
    = Ok (Spec.entry Ex.ref_endPage_only (u "1")
            (authorWritten Ex.ref_endPage_only) (u "--5")).
Proof.
  assert (Ht : Spec.typed Ex.ref_endPage_only = true) by reflexivity.
  split; [exact Ht|].
  apply (proj1 (createBibtexContent_pages Ex.ref_endPage_only (u "1") Ht)).
  vm_compute. discriminate.
Defined.

(** C3, as the claim has it: with an end page and no start page the claim
    gives the start page alone, the empty string; the code writes the
    dashes and the end page. *)
Lemma pagesJoined_counterexample :
  Spec.typed Ex.ref_endPage_only = true ∧
  Spec.pagesJoined Ex.ref_endPage_only = [] ∧
  createBibtexContent Ex.ref_endPage_only (u "1")
    = Ok (Spec.entry Ex.ref_endPage_only (u "1")
            (authorWritten Ex.ref_endPage_only) (u "--5")) ∧
  createBibtexContent Ex.ref_endPage_only (u "1")
    ≠ Ok (Spec.entry Ex.ref_endPage_only (u "1")
            (authorWritten Ex.ref_endPage_only)
            (Spec.pagesJoined Ex.ref_endPage_only)).
Proof.
  split; [reflexivity|]. split; [by vm_compute|].
  split; [by vm_compute|]. vm_compute. discriminate.
Qed.

(** C8, as the code has it: the [author] field is always written; its
    value is the escaper's output on the authors joined by [ and ], each
    as last name, comma, initials and a period. It is that joined text
    itself when the escaper leaves its code points alone, and the empty
    string when there are no authors. *)
Theorem createBibtexContent_author (r : Reference) (ident : str) :
  Spec.typed r = true →
  createBibtexContent r ident
    = Ok (Spec.entry r ident
            (sanitizeBibtexField
               (join (u " and ") (Spec.authorText <$> authors r)))
            (pagesWritten r)) ∧
  (Forall (λ c, get uni2tex c [c] = [c]) (Spec.authorsJoined r) →
     authorWritten r = Spec.authorsJoined r) ∧
  (authors r = [] → authorWritten r = []).
Proof.
  intros Ht. split; [exact (createBibtexContent_typed r ident Ht)|].
  unfold authorWritten. split.
  - apply sanitizeBibtexField_fixed.
  - unfold Spec.authorsJoined. by intros ->.
Qed.

Lemma createBibtexContent_author_witness :
  Spec.typed Ex.ref_study = true ∧
  createBibtexContent Ex.ref_study (u "31726262")
    = Ok (Spec.entry Ex.ref_study (u "31726262")
            (sanitizeBibtexField
               (join (u " and ") (Spec.authorText <$> authors Ex.ref_study)))
            (pagesWritten Ex.ref_study)).
Proof.
  assert (Ht : Spec.typed Ex.ref_study = true) by reflexivity.
  split; [exact Ht|].
  exact (proj1 (createBibtexContent_author Ex.ref_study (u "31726262") Ht)).
Defined.

(** C8, as the claim has it: for an author with an apostrophe in the last
    name the claim gives the joined text itself; the code writes it with
    the apostrophe replaced. *)
Lemma authorsJoined_counterexample :
  Spec.typed Ex.ref_apostrophe = true ∧
  Spec.authorsJoined Ex.ref_apostrophe = u "O'Neil, J." ∧
  createBibtexContent Ex.ref_apostrophe (u "1")
    = Ok (Spec.entry Ex.ref_apostrophe (u "1")
            (u "O{\textquotesingle}Neil, J.") []) ∧
  createBibtexContent Ex.ref_apostrophe (u "1")
    ≠ Ok (Spec.entry Ex.ref_apostrophe (u "1")
            (Spec.authorsJoined Ex.ref_apostrophe) []).
Proof.
  split; [reflexivity|]. split; [by vm_compute|].
  split; [by vm_compute|]. vm_compute. discriminate.
Qed.

(** C10: the escaper is applied to the title, the author text, the journal
    name, the copyright notice and the abstract, and to nothing else: the
    volume, number, pages, year, month and issn values are written as they
    are in the reference. *)
Theorem createBibtexContent_escaped_fields (r : Reference) (ident : str) :
  Spec.typed r = true →
  createBibtexContent r ident
    = Ok (u "% " ++ ident ++ nl
          ++ u "@Article{pmid" ++ ident ++ u "," ++ nl
          ++ u "   title = " ++ dq ++ u "{"
             ++ sanitizeBibtexField (Spec.str_of (title r))
             ++ u "}" ++ dq ++ u "," ++ nl
          ++ Spec.field (u "author")
               (sanitizeBibtexField (Spec.authorsJoined r))
          ++ Spec.field (u "journal")
               (sanitizeBibtexField (Spec.journalName r))
          ++ Spec.field (u "volume") (Spec.str_of (volume r))
          ++ Spec.field (u "number") (Spec.str_of (issue r))
          ++ Spec.field (u "pages")
               (if bool_decide (Spec.str_of (endPage r) ≠ [])
                then Spec.str_of (startPage r) ++ u "--"
                     ++ Spec.str_of (endPage r)
                else Spec.str_of (startPage r))
          ++ Spec.field (u "year") (Spec.str_of (pbyear r))
          ++ Spec.field (u "month") (Spec.str_of (pbmonth r))
          ++ (if bool_decide (Spec.str_of (issn r) ≠ [])
              then Spec.field (u "issn") (Spec.str_of (issn r)) else [])
          ++ (if bool_decide (Spec.str_of (copyright r) ≠ [])
              then Spec.field (u "copyright")
                     (sanitizeBibtexField (Spec.str_of (copyright r)))
              else [])
          ++ u "   abstract = " ++ dq ++ u "{"
             ++ sanitizeBibtexField (Spec.str_of (abstract r))
             ++ u "}" ++ dq ++ u "," ++ nl
          ++ u "   note = {" ++ Spec.note r ident ++ u "}" ++ nl
          ++ u "}" ++ nl).
Proof. exact (createBibtexContent_typed r ident). Qed.

(** Characters that the escaper would replace stay as they are in the
    fields that are written verbatim. *)
Lemma createBibtexContent_escaped_fields_witness :
  Spec.typed Ex.ref_verbatim = true ∧
  createBibtexContent Ex.ref_verbatim (u "1")
    = Ok (u "% 1" ++ nl
          ++ u "@Article{pmid1," ++ nl
          ++ u "   title = " ++ dq ++ u "{}" ++ dq ++ u "," ++ nl
          ++ Spec.field (u "author") []
          ++ Spec.field (u "journal") []
          ++ Spec.field (u "volume") (u "#1")
          ++ Spec.field (u "number") (u "2&3")
          ++ Spec.field (u "pages") (u "10_--%20")
          ++ Spec.field (u "year") (u "{2019}")
          ++ Spec.field (u "month") (u "Jan~")
          ++ Spec.field (u "issn") (u "1476-4687;")
          ++ u "   abstract = " ++ dq ++ u "{}" ++ dq ++ u "," ++ nl
          ++ u "   note = {[PubMed:\href{https://www.ncbi.nlm.nih.gov/pubmed/1}{1}]}"
          ++ nl ++ u "}" ++ nl).
Proof.
  assert (Ht : Spec.typed Ex.ref_verbatim = true) by reflexivity.
  split; [exact Ht|].
  rewrite (createBibtexContent_escaped_fields Ex.ref_verbatim (u "1") Ht).
  by vm_compute.
Defined.

(** ** More about the reference extractor *)

Lemma scanArticleIds_Ok (ids : list Element) (r : Reference) :
  forallb Doc.has_IdType ids = true → ∃ r', scanArticleIds r ids = Ok r'.
Proof.
  revert r. induction ids as [|articleId ids IH]; intros r; [by eexists|].
  cbn [forallb scanArticleIds]. intros [Ha Hl]%andb_prop.
  unfold Doc.has_IdType in Ha.
  destruct (getitem (attrib articleId) (u "IdType")) as [idType|]; [|done].
  cbn [mbind result_bind]. by apply IH.
Qed.

Lemma scanArticleIds_has_IdType (ids : list Element) (r r' : Reference) :
  scanArticleIds r ids = Ok r' → forallb Doc.has_IdType ids = true.
Proof.
  revert r. induction ids as [|articleId ids IH]; intros r; [done|].
  cbn [forallb scanArticleIds]. intros (idType & Hid & Hs)%bind_Ok.
  unfold Doc.has_IdType at 1. rewrite Hid. by apply IH in Hs.
Qed.

(** The first identifier without an [IdType] attribute stops the scan. *)
Lemma scanArticleIds_KeyError (ids : list Element) (r : Reference) :
  forallb Doc.has_IdType ids = false → scanArticleIds r ids = Raise KeyError.
Proof.
  revert r. induction ids as [|articleId ids IH]; intros r; [done|].
  cbn [forallb scanArticleIds]. unfold Doc.has_IdType at 1.
  destruct (getitem (attrib articleId) (u "IdType")) as [idType|e] eqn:Hid.
  - cbn [mbind result_bind andb]. apply IH.
  - intros _. cbn [mbind result_bind]. f_equal.
    clear -Hid. induction (attrib articleId) as [|[k v] a IHa]; simpl in Hid.
    + by injection Hid.
    + case_bool_decide; [done|]. by apply IHa.
Qed.

(** The scan changes nothing but [doi]. *)
Lemma scanArticleIds_set_doi (ids : list Element) (r r' : Reference) :
  scanArticleIds r ids = Ok r' → r' = set_doi r (doi r').
Proof.
  revert r. induction ids as [|articleId ids IH]; intros r Hs; simpl in Hs.
  - injection Hs as <-. by destruct r.
  - apply bind_Ok in Hs as (idType & _ & Hs). apply IH in Hs.
    rewrite Hs. by case_bool_decide.
Qed.

(** The search for the nodes above the article, as the extractor does it. *)
Lemma find_in_Some (o : option Element) (name : str) (x : Element) :
  find_in o name = Ok (Some x) ↔ ∃ e, o = Some e ∧ find e name = Some x.
Proof.
  destruct o as [e|]; simpl; split.
  - intros [= ?]. eauto.
  - by intros (? & [= <-] & ->).
  - done.
  - by intros (? & ? & _).
Qed.

(** X1: the extractor returns a reference exactly for the documents that
    have the nodes it does not guard. *)
Theorem parseXML_Ok_iff (pmid : str) (root : Element) :
  (∃ ref, parseXML pmid root = Ok ref) ↔ Doc.extractable root = true.
Proof.
  unfold Doc.extractable, Spec.articleIds, Doc.article, Doc.record, parseXML.
  destruct (findall root (u "PubmedArticle")) as [|pubmedArticle rest].
  { split; [by intros [? ?]|done]. }
  cbn [head mbind option_bind].
  destruct (find pubmedArticle (u "PubmedData")) as [pubmedData|];
    cbn [find_in mbind option_bind result_bind];
    [|split; [by intros [? ?]|done]].
  destruct (find pubmedData (u "ArticleIdList")) as [idList|];
    cbn [iter mbind option_bind result_bind];
    [|split; [by intros [? ?]|done]].
  destruct (forallb Doc.has_IdType (children idList)) eqn:Hids.
  2:{ rewrite scanArticleIds_KeyError by done. split; [by intros [? ?]|].
      by destruct (_ ≫= _). }
  destruct (scanArticleIds_Ok _ (Reference_init (Some pmid)) Hids) as [r ->].
  cbn [mbind result_bind andb].
  destruct (find pubmedArticle (u "MedlineCitation")) as [medlineCitation|];
    cbn [find_in mbind option_bind result_bind];
    [|split; [by intros [? ?]|done]].
  destruct (find medlineCitation (u "Article")) as [article|];
    cbn [find_in mbind option_bind result_bind];
    [|split; [by intros [? ?]|done]].
  destruct (find article (u "Journal")) as [journalElement|];
    cbn [find_in mbind option_bind result_bind andb].
  - destruct (find journalElement (u "JournalIssue")) as [jissueElem|];
      cbn [find_in mbind option_bind result_bind].
    + rewrite bool_decide_eq_true_2 by eauto. cbn [andb].
      destruct (find jissueElem (u "PubDate"));
        cbn [find_in mbind option_bind result_bind];
        destruct (find article (u "AuthorList"));
        cbn [iter find_in mbind option_bind result_bind];
        (split; [intros [? ?]|intros ?]; by eauto).
    + split; [by intros [? ?]|]. by rewrite bool_decide_eq_false_2 by by intros [? ?].
  - destruct (find article (u "AuthorList"));
      cbn [iter find_in mbind option_bind result_bind];
      (split; [intros [? ?]|intros ?]; by eauto).
Qed.

(** Projections of updated records. *)
Tactic Notation "record_simpl" :=
  cbn [pmid title authors journal volume issue startPage endPage doi pbyear
       pbmonth issn journalAb copyright article_url abstract
       set_title set_authors set_journal set_volume set_issue set_startPage
       set_endPage set_doi set_pbyear set_pbmonth set_issn set_journalAb
       set_copyright set_article_url set_abstract].
Tactic Notation "record_simpl" "in" hyp(H) :=
  cbn [pmid title authors journal volume issue startPage endPage doi pbyear
       pbmonth issn journalAb copyright article_url abstract
       set_title set_authors set_journal set_volume set_issue set_startPage
       set_endPage set_doi set_pbyear set_pbmonth set_issn set_journalAb
       set_copyright set_article_url set_abstract] in H.

(** The fields of an extracted reference, read off the document. *)
Lemma parseXML_fields (ident : str) (root : Element) (ref : Reference) :
  parseXML ident root = Ok ref →
  ∃ article authorList,
    Doc.article root = Some article ∧
    find article (u "AuthorList") = Some authorList ∧
    pmid ref = Some ident ∧
    authors ref = parseAuthor <$> children authorList ∧
    title ref = text_or_empty (find article (u "ArticleTitle")) ∧
    match find article (u "Abstract") with
    | Some absElem =>
        abstract ref = from_option Some (Some [])
                         (text_or_empty (find absElem (u "AbstractText"))) ∧
        copyright ref = text_or_empty (find absElem (u "CopyrightInformation"))
    | None => abstract ref = Some [] ∧ copyright ref = Some []
    end ∧
    match find article (u "Pagination") with
    | Some pagElem =>
        startPage ref = text_or_empty (find pagElem (u "StartPage")) ∧
        endPage ref = text_or_empty (find pagElem (u "EndPage"))
    | None => startPage ref = Some [] ∧ endPage ref = Some []
    end ∧
    match find article (u "Journal") with
    | Some journalElement =>
        journal ref = text_or_empty (find journalElement (u "Title")) ∧
        issn ref = text_or_empty (find journalElement (u "ISSN")) ∧
        journalAb ref
          = text_or_empty (find journalElement (u "ISOAbbreviation")) ∧
        ∃ jissueElem,
          find journalElement (u "JournalIssue") = Some jissueElem ∧
          volume ref = text_or_empty (find jissueElem (u "Volume")) ∧
          issue ref = text_or_empty (find jissueElem (u "Issue")) ∧
          match find jissueElem (u "PubDate") with
          | Some dateElem =>
              pbyear ref = text_or_empty (find dateElem (u "Year")) ∧
              pbmonth ref = text_or_empty (find dateElem (u "Month"))
          | None => pbyear ref = Some [] ∧ pbmonth ref = Some []
          end
    | None =>
        journal ref = Some [] ∧ issn ref = Some [] ∧ journalAb ref = Some [] ∧
        volume ref = Some [] ∧ issue ref = Some [] ∧
        pbyear ref = Some [] ∧ pbmonth ref = Some []
    end.
Proof.
  unfold Doc.article, Doc.record, parseXML.
  destruct (findall root (u "PubmedArticle")) as [|pubmedArticle rest];
    [done|].
  cbn [head mbind option_bind]. intros H.
  apply bind_Ok in H as (idList & _ & H).
  apply bind_Ok in H as (ids & _ & H).
  apply bind_Ok in H as (r & Hr & H).
  apply scanArticleIds_set_doi in Hr.
  remember (doi r) as d eqn:Hd in Hr. clear Hd. subst r.
  assert (Hif : ∀ (b : bool) r x y,
            (if b then set_article_url r x else set_article_url r y)
            = set_article_url r (if b then x else y)) by (by intros []).
  rewrite Hif in H. set (url := if eq_empty _ then _ else _) in H.
  clearbody url. unfold Reference_init in H. record_simpl in H.
  destruct (find pubmedArticle (u "MedlineCitation")) as [medlineCitation|];
    cbn [find_in mbind option_bind result_bind] in H |- *; [|done].
  destruct (find medlineCitation (u "Article")) as [article|];
    cbn [find_in mbind option_bind result_bind] in H |- *; [|done].
  destruct (find article (u "AuthorList")) as [authorList|] eqn:HauthorList.
  2:{ exfalso. destruct (find article (u "Journal")) as [journalElement|];
        cbn [find_in mbind option_bind result_bind iter] in H; [|done].
      destruct (find journalElement (u "JournalIssue")) as [jissueElem|];
        cbn [find_in mbind option_bind result_bind iter] in H; [|done].
      by destruct (find jissueElem (u "PubDate")). }
  exists article, authorList. split; [done|]. split; [done|].
  destruct (find article (u "Journal")) as [journalElement|];
    cbn [find_in mbind option_bind result_bind iter] in H.
  - destruct (find journalElement (u "JournalIssue")) as [jissueElem|];
      cbn [find_in mbind option_bind result_bind iter] in H; [|done].
    destruct (find jissueElem (u "PubDate")) as [dateElem|] eqn:Hdate;
      cbn [find_in mbind option_bind result_bind iter] in H;
      injection H as <-;
      destruct (find article (u "Abstract")) as [absElem|];
      [destruct (text_or_empty (find absElem (u "AbstractText")))| |
       destruct (text_or_empty (find absElem (u "AbstractText")))|];
      destruct (find article (u "Pagination")) as [pagElem|];
      record_simpl; cbn [from_option app];
      (repeat split; try done);
      exists jissueElem; rewrite Hdate; by repeat split.
  - injection H as <-;
      destruct (find article (u "Abstract")) as [absElem|];
      [destruct (text_or_empty (find absElem (u "AbstractText")))|];
      destruct (find article (u "Pagination")) as [pagElem|];
      record_simpl; cbn [from_option app];
      by repeat split.
Qed.

(** X2: an extracted reference is keyed by the identifier that was asked
    for, whatever the document says, and its authors are the children of
    the author list, one for one and in document order. *)
Theorem parseXML_authors_in_order (ident : str) (root : Element)
    (ref : Reference) :
  parseXML ident root = Ok ref →
  pmid ref = Some ident ∧
  ∃ article authorList,
    Doc.article root = Some article ∧
    find article (u "AuthorList") = Some authorList ∧
    authors ref = parseAuthor <$> children authorList.
Proof.
  intros (article & authorList & Ha & Hl & Hp & Hau & _)%parseXML_fields.
  split; [done|]. by exists article, authorList.
Qed.

Lemma parseXML_authors_in_order_witness :
  parseXML (u "31726262") Ex.doc_study = Ok Ex.ref_study ∧
  pmid Ex.ref_study = Some (u "31726262").
Proof.
  assert (H : parseXML (u "31726262") Ex.doc_study = Ok Ex.ref_study)
    by (vm_compute; reflexivity).
  split; [exact H|].
  exact (proj1 (parseXML_authors_in_order _ _ _ H)).
Defined.

(** X3: the nodes that the extractor guards. When extraction returns, a
    missing title, abstract, pagination or journal leaves the fields read
    from it empty, and so does a missing publication date under the
    journal issue. *)
Theorem parseXML_absent_nodes (ident : str) (root : Element)
    (ref : Reference) :
  parseXML ident root = Ok ref →
  ∃ article,
    Doc.article root = Some article ∧
    (find article (u "ArticleTitle") = None → title ref = Some []) ∧
    (find article (u "Abstract") = None →
       abstract ref = Some [] ∧ copyright ref = Some []) ∧
    (find article (u "Pagination") = None →
       startPage ref = Some [] ∧ endPage ref = Some []) ∧
    (find article (u "Journal") = None →
       journal ref = Some [] ∧ issn ref = Some [] ∧ journalAb ref = Some [] ∧
       volume ref = Some [] ∧ issue ref = Some [] ∧
       pbyear ref = Some [] ∧ pbmonth ref = Some []) ∧
    (∀ journalElement jissueElem,
       find article (u "Journal") = Some journalElement →
       find journalElement (u "JournalIssue") = Some jissueElem →
       find jissueElem (u "PubDate") = None →
       pbyear ref = Some [] ∧ pbmonth ref = Some []).
Proof.
  intros (article & authorList & Ha & _ & _ & _ & Hti & Habs & Hpag & Hj)
    %parseXML_fields.
  exists article. split_and!.
  - done.
  - intros Hn. by rewrite Hti, Hn.
  - intros Hn. by rewrite Hn in Habs.
  - intros Hn. by rewrite Hn in Hpag.
  - intros Hn. by rewrite Hn in Hj.
  - intros journalElement jissueElem Hje Hji Hd. rewrite Hje in Hj.
    destruct Hj as (_ & _ & _ & j & Hji' & _ & _ & Hd').
    rewrite Hji in Hji'. injection Hji' as <-. by rewrite Hd in Hd'.
Qed.

Lemma parseXML_absent_nodes_witness :
  parseXML (u "31726262") Ex.doc_sparse
    = Ok (set_article_url (Reference_init (Some (u "31726262")))
            (Some (u "https://pubmed.ncbi.nlm.nih.gov/31726262/"))) ∧
  ∃ article, Doc.article Ex.doc_sparse = Some article.
Proof.
  assert (H : parseXML (u "31726262") Ex.doc_sparse
    = Ok (set_article_url (Reference_init (Some (u "31726262")))
            (Some (u "https://pubmed.ncbi.nlm.nih.gov/31726262/"))))
    by (vm_compute; reflexivity).
  split; [exact H|].
  destruct (parseXML_absent_nodes _ _ _ H) as (article & Ha & _).
  by exists article.
Defined.

(** An element that is there but has no text gives [None], not the empty
    string: the title of an extracted reference is the text of the title
    element when there is one. *)
Lemma parseXML_title_text (ident : str) (root : Element) (ref : Reference)
    (article titleElem : Element) :
  parseXML ident root = Ok ref →
  Doc.article root = Some article →
  find article (u "ArticleTitle") = Some titleElem →
  title ref = text titleElem.
Proof.
  intros (article' & _ & Ha & _ & _ & _ & Hti & _)%parseXML_fields Ha' Ht.
  rewrite Ha in Ha'. injection Ha' as ->. by rewrite Hti, Ht.
Qed.

(** X4: an identifier without an [IdType] attribute makes the extractor
    raise [KeyError], whatever the rest of the record is. *)
Theorem parseXML_KeyError (ident : str) (root : Element) (ids : list Element) :
  Spec.articleIds root = Some ids →
  forallb Doc.has_IdType ids = false →
  parseXML ident root = Raise KeyError.
Proof.
  unfold Spec.articleIds, parseXML.
  destruct (findall root (u "PubmedArticle")) as [|pubmedArticle rest];
    [done|].
  cbn [head mbind option_bind].
  destruct (find pubmedArticle (u "PubmedData")) as [pubmedData|]; [|done].
  cbn [find_in mbind option_bind result_bind].
  destruct (find pubmedData (u "ArticleIdList")) as [idList|]; [|done].
  cbn [iter mbind option_bind result_bind]. intros [= <-] Hids.
  by rewrite scanArticleIds_KeyError.
Qed.

Lemma parseXML_KeyError_witness :
  parseXML (u "31726262") Ex.doc_untyped_id = Raise KeyError.
Proof.
  eapply parseXML_KeyError; [vm_compute; reflexivity|].
  vm_compute. reflexivity.
Defined.

Lemma bind_Raise {A B} (m : result A) (f : A → result B) e :
  m ≫= f = Raise e ↔ m = Raise e ∨ ∃ a, m = Ok a ∧ f a = Raise e.
Proof.
  destruct m as [a|e']; cbn [mbind result_bind]; split.
  - intros ?. right. eauto.
  - by intros [?|(? & [= <-] & ?)].
  - intros [= ->]. by left.
  - intros [[= ->]|(? & ? & _)]; [reflexivity|discriminate].
Qed.

Lemma find_in_Raise (o : option Element) (name : str) e :
  find_in o name = Raise e → e = AttributeError.
Proof. destruct o; by intros [= <-]. Qed.

Lemma iter_Raise (o : option Element) e : iter o = Raise e → e = TypeError.
Proof. destruct o; by intros [= <-]. Qed.

Lemma scanArticleIds_Raise (ids : list Element) (r : Reference) e :
  scanArticleIds r ids = Raise e → e = KeyError.
Proof.
  intros He. destruct (forallb Doc.has_IdType ids) eqn:Hids.
  - apply (scanArticleIds_Ok _ r) in Hids as [r' Hr]. congruence.
  - rewrite scanArticleIds_KeyError in He by done. congruence.
Qed.

(** X5: the exceptions of the extractor. It raises the empty-result
    exception exactly when the document has no record; every other failure
    is an [AttributeError], a [TypeError] or a [KeyError]. *)
Theorem parseXML_exceptions (ident : str) (root : Element) :
  (parseXML ident root
     = Raise (Exception (u "Empty result for the given pubmed id"))
   ↔ findall root (u "PubmedArticle") = []) ∧
  (∀ e, parseXML ident root = Raise e →
     findall root (u "PubmedArticle") ≠ [] →
     e = AttributeError ∨ e = TypeError ∨ e = KeyError).
Proof.
  assert (Hne : ∀ e, parseXML ident root = Raise e →
            findall root (u "PubmedArticle") ≠ [] →
            e = AttributeError ∨ e = TypeError ∨ e = KeyError).
  { intros e. unfold parseXML.
    destruct (findall root (u "PubmedArticle")) as [|pubmedArticle rest];
      [done|]. intros H _. cbv zeta in H.
    repeat match goal with
    | H : _ ≫= _ = Raise _ |- _ =>
        apply bind_Raise in H as [H|(? & _ & H)]
    | H : find_in _ _ = Raise _ |- _ => apply find_in_Raise in H; tauto
    | H : iter _ = Raise _ |- _ => apply iter_Raise in H; tauto
    | H : scanArticleIds _ _ = Raise _ |- _ =>
        apply scanArticleIds_Raise in H; tauto
    | H : match ?o with _ => _ end = Raise _ |- _ => destruct o
    | H : Ok _ = Raise _ |- _ => discriminate H
    end. }
  split; [|exact Hne]. split.
  - intros H.
    destruct (findall root (u "PubmedArticle")) as [|pa rest] eqn:Hf; [done|].
    assert (Hx : pa :: rest ≠ []) by done.
    by destruct (Hne _ H Hx) as [?|[?|?]].
  - intros Hf. unfold parseXML. by rewrite Hf.
Qed.

Lemma parseXML_exceptions_witness :
  parseXML (u "1") (Ex.node "PubmedArticleSet" [])
    = Raise (Exception (u "Empty result for the given pubmed id")).
Proof.
  apply (proj1 (parseXML_exceptions (u "1") (Ex.node "PubmedArticleSet" []))).
  reflexivity.
Defined.

(** X6: when several identifiers of the record are tagged as a DOI, the
    last one is taken; when none is, [doi] stays empty. *)
Theorem parseXML_doi_last (ident : str) (root : Element) (ref : Reference)
    (ids : list Element) :
  parseXML ident root = Ok ref →
  Spec.articleIds root = Some ids →
  doi ref = match last (filter (λ e, Spec.is_doi e) ids) with
            | Some articleId => text articleId
            | None => Some []
            end.
Proof.
  intros (ids' & Hids & ->)%parseXML_articleIds Hids'.
  rewrite Hids in Hids'. injection Hids' as ->.
  by destruct (last _).
Qed.

Lemma parseXML_doi_last_witness :
  parseXML (u "31726262") Ex.doc_doi
    = Ok (set_authors
            (set_title
               (set_article_url
                  (set_doi (Reference_init (Some (u "31726262")))
                     (Some (u "10.1000/xyz")))
                  (Some (u "https://doi.org/10.1000/xyz")))
               (Some (u "A Study")))
            []) ∧
  Some (u "10.1000/xyz")
    = match last (filter (λ e, Spec.is_doi e)
                    [ Elem (u "ArticleId") [(u "IdType", u "pubmed")]
                           (Some (u "31726262")) [];
                      Elem (u "ArticleId") [(u "IdType", u "doi")]
                           (Some (u "10.1000/xyz")) [] ]) with
      | Some articleId => text articleId
      | None => Some []
      end.
Proof.
  assert (H : parseXML (u "31726262") Ex.doc_doi
    = Ok (set_authors
            (set_title
               (set_article_url
                  (set_doi (Reference_init (Some (u "31726262")))
                     (Some (u "10.1000/xyz")))
                  (Some (u "https://doi.org/10.1000/xyz")))
               (Some (u "A Study")))
            [])) by (vm_compute; reflexivity).
  split; [exact H|].
  apply (parseXML_doi_last _ _ _ _ H). vm_compute. reflexivity.
Defined.

(** ** More about the serializer *)

Lemma mapM_formatAuthor_used (l : list Author) :
  mapM formatAuthor (Ser.used_author <$> l) = mapM formatAuthor l.
Proof.
  induction l as [|a l IH]; [done|].
  cbn [fmap list_fmap mapM]. by rewrite IH.
Qed.

Lemma createBibtexContent_eq_used (r : Reference) (ident : str) :
  createBibtexContent r ident = createBibtexContent (Ser.used r) ident.
Proof.
  destruct r as [pid ti au jo vo iss sp ep d py pm isn jab cop url abs].
  unfold createBibtexContent, Ser.used.
  cbn [pmid title authors journal volume issue startPage endPage doi pbyear
       pbmonth issn journalAb copyright article_url abstract].
  rewrite mapM_formatAuthor_used, length_fmap.
  by destruct (ne_empty jab).
Qed.

(** X7: the serializer does not read the [pmid] and [article_url] of the
    reference, nor the fore name and institution of an author, nor the
    full journal name when there is an abbreviation: with these blanked it
    returns the same. *)
Theorem createBibtexContent_used (r : Reference) (ident : str) :
  createBibtexContent r ident = createBibtexContent (Ser.used r) ident.
Proof. apply createBibtexContent_eq_used. Qed.

Lemma fmap_Ok {A B} (f : A → B) (m : result A) b :
  f <$> m = Ok b → ∃ a, m = Ok a.
Proof. destruct m; [eauto|done]. Qed.

Lemma add_Ok (a b : option str) s :
  add a b = Ok s → Spec.is_str a = true ∧ Spec.is_str b = true.
Proof. by destruct a, b. Qed.

Lemma write_Ok (buf : str) (v : option str) buf' :
  write buf v = Ok buf' → Spec.is_str v = true.
Proof. by destruct v. Qed.

Lemma iterable_Ok (v : option str) s :
  iterable v = Ok s → Spec.is_str v = true.
Proof. by destruct v. Qed.

Lemma appendFormattedField_Ok (buf name : str) (v : option str) buf' :
  appendFormattedField buf name v = Ok buf' → Spec.is_str v = true.
Proof.
  unfold appendFormattedField. cbn [write mbind result_bind].
  by destruct v.
Qed.

Lemma mapM_formatAuthor_Ok (l : list Author) ts :
  mapM formatAuthor l = Ok ts →
  forallb Spec.typed_author (Ser.used_author <$> l) = true.
Proof.
  revert ts. induction l as [|a l IH]; intros ts; [done|].
  cbn [mapM fmap list_fmap forallb].
  intros (t & Ht & (ts' & Hts & _)%bind_Ok)%bind_Ok.
  rewrite (IH _ Hts), andb_true_r. unfold formatAuthor in Ht.
  apply bind_Ok in Ht as (? & [Hl _]%add_Ok & (? & [_ Hi]%add_Ok & _)%bind_Ok).
  unfold Spec.typed_author, Ser.used_author.
  cbn [lastName foreName initials institution Spec.is_str].
  by rewrite Hl, Hi.
Qed.

(** Case analysis on a serialization that returned. *)
Ltac ser_inv :=
  repeat match goal with
  | H : _ ≫= _ = Ok _ |- _ =>
      let H' := fresh H in apply bind_Ok in H as (? & H' & H)
  | H : _ <$> _ = Ok _ |- _ => apply fmap_Ok in H as (? & H)
  | H : match ?o with _ => _ end = Ok _ |- _ => destruct o eqn:?
  | H : add _ _ = Ok _ |- _ => apply add_Ok in H as [? ?]
  | H : write _ _ = Ok _ |- _ => apply write_Ok in H
  | H : iterable _ = Ok _ |- _ => apply iterable_Ok in H
  | H : appendFormattedField _ _ _ = Ok _ |- _ =>
      apply appendFormattedField_Ok in H
  | H : mapM formatAuthor _ = Ok _ |- _ => apply mapM_formatAuthor_Ok in H
  | H : Spec.is_str (Some _) = true |- _ => clear H
  | H : Spec.is_str None = true |- _ => discriminate H
  | H : Spec.is_str ?v = true |- _ => is_var v; destruct v
  | H : Ok _ = Ok _ |- _ => injection H as H; try subst
  end.

(** A serialization that returned read strings only. *)
Lemma createBibtexContent_Ok_serializable (r : Reference) (ident out : str) :
  createBibtexContent r ident = Ok out → Ser.serializable r = true.
Proof.
  intros H. unfold Ser.serializable.
  destruct r as [pid ti au jo vo iss sp ep d py pm isn jab cop url abs].
  unfold createBibtexContent in H.
  cbn [pmid title authors journal volume issue startPage endPage doi
       pbyear pbmonth issn journalAb copyright article_url abstract] in H.
  unfold Spec.typed, Ser.used.
  cbn [pmid title authors journal volume issue startPage endPage doi
       pbyear pbmonth issn journalAb copyright article_url abstract].
  cbv zeta in H. ser_inv.
  all: repeat match goal with
       | H : ne_empty ?v = false |- _ =>
           is_var v; destruct v as [[|??]|]; try discriminate H; clear H
       | H : bool_decide (0 < length ?l) = false |- _ =>
           destruct l; [clear H|apply bool_decide_eq_false in H; simpl in H; lia]
       end.
  all: destruct jab as [[|??]|]; try discriminate;
    cbn [ne_empty eq_empty negb Spec.is_str andb] in *;
    ser_inv;
    repeat match goal with
           | H : forallb _ _ = true |- _ => rewrite H; clear H
           end; done.
Qed.

(** X8: the serializer returns a text exactly when every attribute that it
    reads holds a string; a [None] among them, which the extractor stores
    for an element without text, stops it. *)
Theorem createBibtexContent_Ok_iff (r : Reference) (ident : str) :
  (∃ out, createBibtexContent r ident = Ok out) ↔ Ser.serializable r = true.
Proof.
  split.
  - intros [out H]. by eapply createBibtexContent_Ok_serializable.
  - intros Hs. rewrite createBibtexContent_eq_used.
    rewrite (createBibtexContent_typed _ _ Hs). by eexists.
Qed.

Lemma fmap_Raise {A B} (f : A → B) (m : result A) e :
  f <$> m = Raise e → m = Raise e.
Proof. destruct m; [done|]. by intros [= ->]. Qed.

Lemma add_Raise (a b : option str) e : add a b = Raise e → e = TypeError.
Proof. destruct a, b; by intros [= <-]. Qed.

Lemma write_Raise (buf : str) (v : option str) e :
  write buf v = Raise e → e = TypeError.
Proof. destruct v; by intros [= <-]. Qed.

Lemma iterable_Raise (v : option str) e : iterable v = Raise e → e = TypeError.
Proof. destruct v; by intros [= <-]. Qed.

Lemma appendFormattedField_Raise (buf name : str) (v : option str) e :
  appendFormattedField buf name v = Raise e → e = TypeError.
Proof.
  unfold appendFormattedField. cbn [write mbind result_bind].
  destruct v; by intros [= <-].
Qed.

Lemma formatAuthor_Raise (a : Author) e : formatAuthor a = Raise e → e = TypeError.
Proof.
  unfold formatAuthor. destruct (lastName a), (initials a); by intros [= <-].
Qed.

Lemma mapM_formatAuthor_Raise (l : list Author) e :
  mapM formatAuthor l = Raise e → e = TypeError.
Proof.
  induction l as [|a l IH]; [done|]. cbn [mapM].
  intros [H|(t & _ & H)]%bind_Raise; [by apply formatAuthor_Raise in H|].
  apply bind_Raise in H as [H|(? & _ & H)]; [by apply IH|done].
Qed.

Lemma createBibtexContent_Raise (r : Reference) (ident : str) e :
  createBibtexContent r ident = Raise e → e = TypeError.
Proof.
  unfold createBibtexContent. intros H. cbv zeta in H.
  repeat match goal with
  | H : _ ≫= _ = Raise _ |- _ => apply bind_Raise in H as [H|(? & _ & H)]
  | H : _ <$> _ = Raise _ |- _ => apply fmap_Raise in H
  | H : match ?o with _ => _ end = Raise _ |- _ => destruct o
  | H : add _ _ = Raise _ |- _ => by apply add_Raise in H
  | H : write _ _ = Raise _ |- _ => by apply write_Raise in H
  | H : iterable _ = Raise _ |- _ => by apply iterable_Raise in H
  | H : appendFormattedField _ _ _ = Raise _ |- _ =>
      by apply appendFormattedField_Raise in H
  | H : mapM formatAuthor _ = Raise _ |- _ =>
      by apply mapM_formatAuthor_Raise in H
  | H : Ok _ = Raise _ |- _ => discriminate H
  end.
Qed.

(** X9: the only exception of the serializer is [TypeError]. *)
Theorem createBibtexContent_TypeError (r : Reference) (ident : str) e :
  createBibtexContent r ident = Raise e → e = TypeError.
Proof. apply createBibtexContent_Raise. Qed.

Lemma createBibtexContent_TypeError_witness :
  ∃ e, createBibtexContent
         (set_title (Reference_init (Some (u "1"))) None) (u "1") = Raise e
       ∧ e = TypeError.
Proof.
  exists TypeError.
  assert (H : createBibtexContent
                (set_title (Reference_init (Some (u "1"))) None) (u "1")
              = Raise TypeError) by (vm_compute; reflexivity).
  split; [exact H|]. exact (createBibtexContent_TypeError _ _ _ H).
Defined.

(** X10: what the extractor returns for a title element without text
    cannot be serialized: the title is [None] and the serializer raises
    [TypeError]. *)
Theorem parseXML_empty_title_not_serializable (ident : str) (root : Element)
    (ref : Reference) (article titleElem : Element) :
  parseXML ident root = Ok ref →
  Doc.article root = Some article →
  find article (u "ArticleTitle") = Some titleElem →
  text titleElem = None →
  title ref = None ∧ createBibtexContent ref ident = Raise TypeError.
Proof.
  intros H Ha Ht Hn. pose proof (parseXML_title_text _ _ _ _ _ H Ha Ht) as Hti.
  rewrite Hn in Hti. split; [done|].
  destruct (createBibtexContent ref ident) as [out|e] eqn:Hc.
  - apply createBibtexContent_Ok_serializable in Hc as Hs.
    unfold Ser.serializable, Spec.typed, Ser.used in Hs.
    cbn [title] in Hs. rewrite Hti in Hs.
    by rewrite andb_false_r in Hs.
  - f_equal. by apply createBibtexContent_Raise in Hc.
Qed.

Lemma parseXML_empty_title_not_serializable_witness :
  title (set_title
           (set_article_url (Reference_init (Some (u "31726262")))
              (Some (u "https://pubmed.ncbi.nlm.nih.gov/31726262/")))
           None) = None ∧
  createBibtexContent
    (set_title
       (set_article_url (Reference_init (Some (u "31726262")))
          (Some (u "https://pubmed.ncbi.nlm.nih.gov/31726262/")))
       None) (u "31726262") = Raise TypeError.
Proof.
  apply (parseXML_empty_title_not_serializable (u "31726262")
           Ex.doc_empty_title _
           (Ex.node "Article" [Ex.node "ArticleTitle" []; Ex.node "AuthorList" []])
           (Ex.node "ArticleTitle" [])).
  - vm_compute. reflexivity.
  - vm_compute. reflexivity.
  - vm_compute. reflexivity.
  - reflexivity.
Defined.

(** ** More about the escaper *)

(** Every replacement of the table is a non-empty text of 7-bit code
    points. *)
Lemma uni2tex_items_ascii :
  Forall (λ kv : N * list N, kv.2 ≠ [] ∧ Forall (λ c, (c < 128)%N) kv.2)
    uni2tex_items.
Proof.
  assert (Hb : forallb (λ kv : N * list N,
                  negb (bool_decide (kv.2 = []))
                  && forallb (λ c, (c <? 128)%N) kv.2) uni2tex_items = true)
    by (vm_compute; reflexivity).
  rewrite forallb_forall in Hb.
  apply Forall_forall. intros [k r] Hin%list_elem_of_In.
  apply Hb in Hin. cbn [snd] in *. apply andb_prop in Hin as [Hne Hall].
  split.
  - intros ->. by rewrite bool_decide_eq_true_2 in Hne.
  - apply Forall_forall. intros c Hc%list_elem_of_In. apply N.ltb_lt.
    rewrite forallb_forall in Hall. by apply Hall.
Qed.

Lemma uni2tex_replacement (c : N) (r : list N) :
  uni2tex !! c = Some r → r ≠ [] ∧ Forall (λ c, (c < 128)%N) r.
Proof.
  intros Hr%uni2tex_lookup.
  exact (proj1 (Forall_forall _ _) uni2tex_items_ascii _ Hr).
Qed.

(** X11: escaping works code point by code point: the escaped
    concatenation is the concatenation of the escaped parts, and the
    result is never shorter than the input. *)
Theorem sanitizeBibtexField_concat (s t : list N) :
  sanitizeBibtexField (s ++ t) = sanitizeBibtexField s ++ sanitizeBibtexField t
  ∧ length s ≤ length (sanitizeBibtexField s)
  ∧ (sanitizeBibtexField s = [] ↔ s = []).
Proof.
  split; [apply sanitizeBibtexField_app|].
  assert (Hlen : ∀ s : list N, length s ≤ length (sanitizeBibtexField s)).
  { clear. intros s. induction s as [|c s IH]; [done|].
    rewrite sanitizeBibtexField_cons, length_app. unfold get.
    destruct (uni2tex !! c) as [r|] eqn:Hr.
    - apply uni2tex_replacement in Hr as [Hne _].
      destruct r; [done|]. cbn [length]. lia.
    - cbn [length]. lia. }
  split; [apply Hlen|]. split.
  - intros He. specialize (Hlen s). rewrite He in Hlen.
    destruct s; [done|]. cbn [length] in Hlen. lia.
  - by intros ->.
Qed.

(** X12: the escaped text is 7-bit when every code point of the input is
    7-bit or a key of the table. *)
Theorem sanitizeBibtexField_ascii (s : list N) :
  Forall (λ c, (c < 128)%N ∨ is_Some (uni2tex !! c)) s →
  Forall (λ c, (c < 128)%N) (sanitizeBibtexField s).
Proof.
  induction 1 as [|c s Hc _ IH]; [by constructor|].
  rewrite sanitizeBibtexField_cons. apply Forall_app. split; [|done].
  unfold get. destruct (uni2tex !! c) as [r|] eqn:Hr.
  - by apply uni2tex_replacement in Hr as [_ ?].
  - destruct Hc as [?|[? ?]]; [by repeat constructor|done].
Qed.

Lemma sanitizeBibtexField_ascii_witness :
  Forall (λ c, (c < 128)%N) (sanitizeBibtexField [0xE9%N; 0x20%N; 0x3A9%N]).
Proof.
  apply sanitizeBibtexField_ascii.
  apply Forall_cons_2; [right; eexists; vm_compute; reflexivity|].
  apply Forall_cons_2; [left; reflexivity|].
  apply Forall_cons_2; [right; eexists; vm_compute; reflexivity|].
  apply Forall_nil_2.
Defined.

Lemma get_uni2tex_plain (c : N) :
  (c < 128)%N → c ∉ escaped_ascii → get uni2tex c [c] = [c].
Proof.
  intros Hc Hne.
  assert (Hb : forallb (λ c, bool_decide (c ∈ escaped_ascii)
                             || bool_decide (get uni2tex c [c] = [c]))
                 (N.of_nat <$> seq 0 128) = true)
    by (vm_compute; reflexivity).
  rewrite forallb_forall in Hb. specialize (Hb c).
  assert (Hin : In c (N.of_nat <$> seq 0 128)).
  { apply list_elem_of_In, list_elem_of_fmap. exists (N.to_nat c).
    split; [by rewrite N2Nat.id|]. apply elem_of_seq. lia. }
  apply Hb, orb_prop in Hin as [Hin|Hin].
  - by apply bool_decide_eq_true in Hin.
  - by apply bool_decide_eq_true in Hin.
Qed.

(** X13: a 7-bit text without the characters that the table replaces is
    returned as it is; the hyphen, a key that the table maps to itself,
    may occur in it. *)
Theorem sanitizeBibtexField_plain (s : list N) :
  Forall (λ c, (c < 128)%N ∧ c ∉ escaped_ascii) s →
  sanitizeBibtexField s = s.
Proof.
  intros Hs. apply sanitizeBibtexField_fixed.
  eapply Forall_impl; [exact Hs|]. intros c [? ?]. by apply get_uni2tex_plain.
Qed.

Lemma sanitizeBibtexField_plain_witness :
  sanitizeBibtexField (u "Structure of the Cys-loop receptor (ELIC), 2019")
    = u "Structure of the Cys-loop receptor (ELIC), 2019".
Proof.
  apply sanitizeBibtexField_plain.
  apply (bool_decide_unpack
           (Forall (λ c, (c < 128)%N ∧ c ∉ escaped_ascii)
              (u "Structure of the Cys-loop receptor (ELIC), 2019"))).
  vm_compute. exact I.
Defined.

(** X14: the table literal has 2362 items and no key twice, so that no
    item hides another: the table maps a code point to a replacement
    exactly when the literal has that item. *)
Theorem uni2tex_items_effective :
  length uni2tex_items = 2362 ∧
  NoDup uni2tex_items.*1 ∧
  ∀ c r, uni2tex !! c = Some r ↔ (c, r) ∈ uni2tex_items.
Proof.
  split; [by vm_compute|]. split; [exact uni2tex_items_NoDup|].
  exact uni2tex_lookup.
Qed.

(** ** More about the file name sanitizer *)

Lemma cleaned_chars (text : list N) :
  Forall (λ c, (c ∉ Spec.removed) ∧ c ≠ ord "/") (Spec.cleaned text).
Proof.
  unfold Spec.cleaned. apply Forall_forall.
  intros c (c' & -> & Hc')%list_elem_of_fmap.
  apply list_elem_of_filter in Hc' as [Hc' _].
  case_bool_decide as Hs; [|done]. split; [|done].
  apply (bool_decide_unpack (ord " " ∉ Spec.removed)). by vm_compute.
Qed.

Lemma cleaned_clean (text : list N) :
  Forall (λ c, (c ∉ Spec.removed) ∧ c ≠ ord "/") text →
  Spec.cleaned text = text.
Proof.
  unfold Spec.cleaned. induction 1 as [|c text [Hr Hs] _ IH]; [done|].
  rewrite filter_cons_True by done. rewrite fmap_cons, IH.
  by rewrite bool_decide_eq_false_2.
Qed.

(** X15: the sanitizer fails on exactly the texts that consist of removed
    characters only, the empty text among them, and then with
    [IndexError]. *)
Theorem sanitizeFileName_raises (text : list N) :
  (∀ e, sanitizeFileName text = Raise e → e = IndexError) ∧
  ((∃ e, sanitizeFileName text = Raise e)
   ↔ Forall (λ c, c ∈ Spec.removed) text).
Proof.
  rewrite <- cleaned_nil_iff, <- sanitizeFileName_raises_iff.
  rewrite sanitizeFileName_unfold.
  destruct (last (Spec.cleaned text)) as [c|].
  - case_bool_decide; split; try done; split; try done; by intros [? ?].
  - split; [by intros e [= <-]|]. split; [done|eauto].
Qed.

Lemma sanitizeFileName_raises_witness :
  ∃ e, sanitizeFileName (u "[?]") = Raise e.
Proof.
  apply (proj2 (sanitizeFileName_raises (u "[?]"))).
  apply (bool_decide_unpack (Forall (λ c, c ∈ Spec.removed) (u "[?]"))).
  vm_compute. exact I.
Defined.

(** X16: a file name that the sanitizer returns has none of the removed
    characters and no slash, and is not longer than the text. *)
Theorem sanitizeFileName_chars (text name : list N) :
  sanitizeFileName text = Ok name →
  Forall (λ c, (c ∉ Spec.removed) ∧ c ≠ ord "/") name ∧
  length name ≤ length text.
Proof.
  rewrite sanitizeFileName_unfold.
  assert (Hlen : length (Spec.cleaned text) ≤ length text).
  { unfold Spec.cleaned. rewrite length_fmap. apply length_filter. }
  pose proof (cleaned_chars text) as Hc.
  destruct (last (Spec.cleaned text)) as [c|] eqn:Hl; [|done].
  case_bool_decide; intros [= <-]; [|done].
  apply last_Some in Hl as [s Hs]. rewrite Hs in *.
  rewrite drop_last_snoc. apply Forall_app in Hc as [Hc _].
  rewrite length_app in Hlen. cbn [length] in Hlen. split; [done|lia].
Qed.

Lemma sanitizeFileName_chars_witness :
  Forall (λ c, (c ∉ Spec.removed) ∧ c ≠ ord "/") (u "Effects of A B on C") ∧
  length (u "Effects of A B on C") ≤ length (u "Effects of A/B on C.").
Proof.
  apply (sanitizeFileName_chars (u "Effects of A/B on C.")).
  vm_compute. reflexivity.
Defined.

(** X17: one dot is stripped and no more: a text that ends with two dots
    keeps one, so the result of the sanitizer can end with a dot. *)
Theorem sanitizeFileName_two_dots (text : list N) :
  sanitizeFileName (text ++ u "..") = Ok (Spec.cleaned text ++ u ".").
Proof.
  rewrite sanitizeFileName_unfold.
  assert (Hc : Spec.cleaned (text ++ u "..")
               = (Spec.cleaned text ++ u ".") ++ [ord "."]).
  { unfold Spec.cleaned. rewrite filter_app, fmap_app, <- (assoc_L (++)).
    f_equal. }
  rewrite Hc, last_snoc, bool_decide_eq_true_2 by done.
  by rewrite drop_last_snoc.
Qed.

(** X18: a text without removed characters and slashes that does not end
    with a dot is returned as it is, with whatever else it contains: a
    colon, a backslash, a control character. *)
Theorem sanitizeFileName_clean (text : list N) :
  text ≠ [] →
  Forall (λ c, (c ∉ Spec.removed) ∧ c ≠ ord "/") text →
  last text ≠ Some (ord ".") →
  sanitizeFileName text = Ok text.
Proof.
  intros Hne Hc Hl. rewrite sanitizeFileName_unfold, (cleaned_clean _ Hc).
  destruct (last text) as [c|] eqn:Hlast.
  - rewrite bool_decide_eq_false_2; [done|]. congruence.
  - by apply last_None in Hlast.
Qed.

Lemma sanitizeFileName_clean_witness :
  sanitizeFileName (u "C:\temp: a review" ++ [7%N])
    = Ok (u "C:\temp: a review" ++ [7%N]).
Proof.
  apply sanitizeFileName_clean.
  - done.
  - apply (bool_decide_unpack
             (Forall (λ c, (c ∉ Spec.removed) ∧ c ≠ ord "/")
                (u "C:\temp: a review" ++ [7%N]))).
    by vm_compute.
  - vm_compute. discriminate.
Defined.

(** ** More about the title scan *)

Lemma after_prefix_suffix (p s rest : list N) :
  after_prefix p s = Some rest → ∀ c, c ∈ rest → c ∈ s.
Proof.
  revert s. induction p as [|a p IH]; intros s; cbn [after_prefix].
  - by intros [= ->].
  - destruct s as [|b s]; [done|]. case_bool_decide as Hab; [|done].
    intros Hp c Hc. apply elem_of_cons. right. by eapply IH.
Qed.

Lemma match_to_newline_None (s : list N) :
  10%N ∉ s → match_to_newline s = None.
Proof.
  induction s as [|c s IH]; [done|]. intros [Hc Hs]%not_elem_of_cons.
  cbn [match_to_newline]. rewrite bool_decide_eq_false_2 by done.
  by rewrite IH.
Qed.

Lemma re_search_title_None (s : list N) :
  10%N ∉ s → re_search_title s = None.
Proof.
  induction s as [|c s IH]; intros Hnl.
  - reflexivity.
  - assert (Hm : match_title_here (c :: s) = None).
    { unfold match_title_here.
      destruct (after_prefix (u "title = ") (c :: s)) as [rest|] eqn:Hp;
        [|done]. cbn [mbind option_bind].
      rewrite match_to_newline_None; [done|].
      intros Hin. apply Hnl. by eapply after_prefix_suffix. }
    cbn [re_search_title]. rewrite Hm. apply IH.
    by apply not_elem_of_cons in Hnl as [_ ?].
Qed.

(** X19: the title scan fails only with [AttributeError], when the
    pattern matches nowhere; a text without a newline is such a text, even
    if it has a title field. *)
Theorem getTitle_no_match (bibtex_content : list N) :
  (∀ e, getTitle bibtex_content = Raise e → e = AttributeError) ∧
  (10%N ∉ bibtex_content → getTitle bibtex_content = Raise AttributeError).
Proof.
  unfold getTitle. split.
  - intros e. destruct (re_search_title bibtex_content); [done|].
    by intros [= <-].
  - intros Hnl. by rewrite re_search_title_None.
Qed.

Lemma getTitle_no_match_witness :
  getTitle (u "@article{x, title = {A Study}, year = 2019}")
    = Raise AttributeError.
Proof.
  apply (proj2 (getTitle_no_match
                  (u "@article{x, title = {A Study}, year = 2019}"))).
  apply (bool_decide_unpack
           (10%N ∉ u "@article{x, title = {A Study}, year = 2019}")).
  vm_compute. exact I.
Defined.

(** The table of [getTitle] removes the two braces. *)
Lemma translate_braces (s : list N) :
  translate (dict [(ord "{", None); (ord "}", None)]) s
    = filter (λ c, c ∉ [ord "{"; ord "}"]) s.
Proof.
  unfold translate. induction s as [|c s IH]; [done|].
  rewrite fmap_cons, filter_cons.
  change (mjoin (?x :: ?l)) with (x ++ mjoin l). rewrite IH.
  destruct (decide (c ∈ [ord "{"; ord "}"])) as [Hc|Hc].
  - rewrite decide_False by tauto.
    apply elem_of_cons in Hc as [->|Hc]; [by vm_compute|].
    apply elem_of_cons in Hc as [->|Hc]; [by vm_compute|].
    by apply elem_of_nil in Hc.
  - rewrite decide_True by done.
    replace (dict [(ord "{", None); (ord "}", None)] !! c)
      with (@None (option (list N))); [done|].
    symmetry. by apply dict_lookup_None.
Qed.

(** X20: the text that the title scan returns has no braces. *)
Theorem getTitle_no_braces (bibtex_content t : list N) :
  getTitle bibtex_content = Ok t → (ord "{" ∉ t) ∧ (ord "}" ∉ t).
Proof.
  unfold getTitle. destruct (re_search_title bibtex_content) as [g|]; [|done].
  cbn [group mbind result_bind]. intros [= <-]. rewrite translate_braces.
  split; intros [Hc _]%list_elem_of_filter; apply Hc.
  - apply elem_of_cons. by left.
  - apply elem_of_cons. right. apply elem_of_cons. by left.
Qed.

Lemma getTitle_no_braces_witness :
  (ord "{" ∉ u "The H2 ion") ∧ (ord "}" ∉ u "The H2 ion").
Proof.
  apply (getTitle_no_braces (u "title = {{T}he {H2} ion}," ++ nl)).
  vm_compute. reflexivity.
Defined.

Lemma lstrip_stop (chars s : list N) :
  (∀ c, head s = Some c → c ∉ chars) → lstrip chars s = s.
Proof.
  destruct s as [|c s]; [done|]. intros Hc. cbn [lstrip].
  rewrite bool_decide_eq_false_2; [done|]. by apply Hc.
Qed.

Lemma rstrip_suffix (chars s suffix : list N) :
  Forall (λ c, c ∈ chars) suffix →
  (∀ c, last s = Some c → c ∉ chars) →
  rstrip chars (s ++ suffix) = s.
Proof.
  intros Hsuf Hlast. unfold rstrip.
  rewrite reverse_app, lstrip_app_all by by apply Forall_reverse.
  rewrite lstrip_stop; [apply reverse_involutive|].
  intros c Hc. apply Hlast. by rewrite <- head_reverse.
Qed.

(** X21: for a title that the strippers leave alone, the scan is right. On
    a text that starts with a title line, whose title has no newline,
    does not begin with a character of [title = {] and does not end with a
    closing brace or a comma, [getTitle] returns the title without its
    braces. *)
Theorem getTitle_title (T rest : list N) :
  10%N ∉ T →
  (∀ c, head T = Some c → c ∉ u "title = {") →
  (∀ c, last T = Some c → c ∉ u "}," ++ nl) →
  getTitle (u "title = {" ++ T ++ u "}," ++ nl ++ rest)
    = Ok (filter (λ c, c ∉ [ord "{"; ord "}"]) T).
Proof.
  intros Hnl Hhead Hlast. rewrite getTitle_title_line by done.
  rewrite translate_braces. do 2 f_equal.
  assert (Hl : lstrip (u "title = {") (T ++ u "}," ++ nl) = T ++ u "}," ++ nl).
  { apply lstrip_stop. destruct T as [|c T]; [|exact Hhead].
    intros c [= <-].
    apply (bool_decide_unpack (ord "}" ∉ u "title = {")). by vm_compute. }
  rewrite Hl. apply rstrip_suffix; [|done].
  apply (bool_decide_unpack
           (Forall (λ c, c ∈ u "}," ++ nl) (u "}," ++ nl))). by vm_compute.
Qed.

Lemma getTitle_title_witness :
  getTitle (u "title = {A {DNA} Study}," ++ nl ++ u " year = 2019," ++ nl)
    = Ok (u "A DNA Study").
Proof.
  apply (getTitle_title (u "A {DNA} Study") (u " year = 2019," ++ nl)).
  - apply (bool_decide_unpack (10%N ∉ u "A {DNA} Study")). by vm_compute.
  - intros c [= <-].
    apply (bool_decide_unpack (ord "A" ∉ u "title = {")). by vm_compute.
  - intros c [= <-].
    apply (bool_decide_unpack (ord "y" ∉ u "}," ++ nl)). by vm_compute.
Defined.

(** ** The two conversions *)

(** What precedes a call of [createFile] in the PubMed conversion. *)
Lemma pmid2bibtex_CreateFile (message : exn → list N) (ident : list N)
    (fetched : result Element) (filename content : list N) :
  CreateFile filename content ∈ pmid2bibtex message ident fetched →
  1 ≤ length ident ≤ 8 ∧ head ident ≠ Some (ord "0") ∧
  ∃ root ref ti name,
    fetched = Ok root ∧
    parseXML ident root = Ok ref ∧
    createBibtexContent ref ident = Ok content ∧
    title ref = Some ti ∧
    sanitizeFileName ti = Ok name ∧
    filename = name ++ u ".bib".
Proof.
  unfold pmid2bibtex. case_bool_decide as Hlen.
  { intros [=]%list_elem_of_singleton. }
  case_bool_decide as Hzero.
  { intros [=]%list_elem_of_singleton. }
  destruct (_ ≫= _) as [[f c]|err] eqn:Hbody.
  2:{ intros [=]%list_elem_of_singleton. }
  intros [[= -> ->]|[=]%list_elem_of_singleton]%elem_of_cons.
  split; [lia|]. split; [done|].
  apply bind_Ok in Hbody as (root & -> & Hbody).
  apply bind_Ok in Hbody as (ref & Href & Hbody).
  apply bind_Ok in Hbody as (out & Hout & Hbody).
  apply bind_Ok in Hbody as (name & Hname & [= <- <-]).
  destruct (title ref) as [ti|] eqn:Hti; [|done].
  by exists root, ref, ti, name.
Qed.

(** X22: the PubMed conversion calls [createFile] only for an identifier
    of one to eight characters that does not start with a zero, and only
    after extraction, serialization and sanitizing have all returned: the
    content is the serialized reference and the name is the sanitized
    title followed by [.bib]. *)
Theorem pmid2bibtex_file (message : exn → list N) (ident : list N)
    (fetched : result Element) (filename content : list N) :
  CreateFile filename content ∈ pmid2bibtex message ident fetched →
  1 ≤ length ident ≤ 8 ∧ head ident ≠ Some (ord "0") ∧
  ∃ root ref ti name,
    fetched = Ok root ∧
    parseXML ident root = Ok ref ∧
    createBibtexContent ref ident = Ok content ∧
    title ref = Some ti ∧
    sanitizeFileName ti = Ok name ∧
    filename = name ++ u ".bib".
Proof. apply pmid2bibtex_CreateFile. Qed.

Lemma pmid2bibtex_file_witness :
  1 ≤ length (u "31726262") ≤ 8 ∧ head (u "31726262") ≠ Some (ord "0") ∧
  ∃ root ref ti name,
    Ok Ex.doc_study = Ok root ∧
    parseXML (u "31726262") root = Ok ref ∧
    createBibtexContent ref (u "31726262")
      = Ok (Spec.entry Ex.ref_study (u "31726262")
              (authorWritten Ex.ref_study) (pagesWritten Ex.ref_study)) ∧
    title ref = Some ti ∧
    sanitizeFileName ti = Ok name ∧
    u "A Study.bib" = name ++ u ".bib".
Proof.
  apply (pmid2bibtex_file (λ _, []) (u "31726262") (Ok Ex.doc_study)).
  apply elem_of_cons. left. vm_compute. reflexivity.
Defined.



